(** * NUT -- USB communication subdriver (libusb 1.0), [drivers/nut_libusb.c]

    A shallow embedding of the subdriver: the error classifier
    [nut_usb_logerror], the transfer primitives, interface acquisition
    [nut_usb_claim_interface], and the device enumeration of
    [nut_libusb_open] with its two-method HID descriptor discovery.

    The USB host stack (libusb) is external to the driver.  A device on the
    bus is a record of the answers libusb gives for it; every call the driver
    makes to libusb, to the C library or to the NUT logging functions is
    recorded, in program order, in a trace of events. *)

From Stdlib Require Import ZArith List String Ascii Lia Bool.
From Stdlib Require Import Strings.Byte.
Import ListNotations.
Open Scope string_scope.
Open Scope list_scope.
Open Scope Z_scope.

(** ** Constants of libusb.h and syslog.h *)

Module Libusb.

Definition LIBUSB_SUCCESS : Z := 0.
Definition LIBUSB_ERROR_IO : Z := -1.
Definition LIBUSB_ERROR_INVALID_PARAM : Z := -2.
Definition LIBUSB_ERROR_ACCESS : Z := -3.
Definition LIBUSB_ERROR_NO_DEVICE : Z := -4.
Definition LIBUSB_ERROR_NOT_FOUND : Z := -5.
Definition LIBUSB_ERROR_BUSY : Z := -6.
Definition LIBUSB_ERROR_TIMEOUT : Z := -7.
Definition LIBUSB_ERROR_OVERFLOW : Z := -8.
Definition LIBUSB_ERROR_PIPE : Z := -9.
Definition LIBUSB_ERROR_INTERRUPTED : Z := -10.
Definition LIBUSB_ERROR_NO_MEM : Z := -11.
Definition LIBUSB_ERROR_NOT_SUPPORTED : Z := -12.
Definition LIBUSB_ERROR_OTHER : Z := -99.

Definition LIBUSB_ENDPOINT_IN : Z := 0x80.
Definition LIBUSB_ENDPOINT_OUT : Z := 0x00.
Definition LIBUSB_REQUEST_TYPE_STANDARD : Z := 0x00.
Definition LIBUSB_REQUEST_TYPE_CLASS : Z := 0x20.
Definition LIBUSB_RECIPIENT_INTERFACE : Z := 0x01.
Definition LIBUSB_REQUEST_GET_DESCRIPTOR : Z := 0x06.
Definition LIBUSB_DT_HID : Z := 0x21.
Definition LIBUSB_DT_REPORT : Z := 0x22.

End Libusb.
Import Libusb.

Definition LOG_WARNING : Z := 4.
Definition LOG_NOTICE : Z := 5.
Definition LOG_DEBUG : Z := 7.

Definition EXIT_FAILURE : Z := 1.

(** [#define MAX_REPORT_SIZE 0x1800] *)
Definition MAX_REPORT_SIZE : Z := 0x1800.

(** [static const int usb_if_num = 0;] *)
Definition usb_if_num : Z := 0.

(** ** Machine integers and bytes *)

Definition to_uint16 (z : Z) : Z := z mod 65536.

Definition byte_val (b : byte) : Z := Z.of_N (Byte.to_N b).

(** [p[i]] for an [unsigned char *p] pointing at [bytes]. *)
Definition byte_at (bytes : list byte) (i : Z) : Z :=
  byte_val (nth (Z.to_nat i) bytes x00).

(** ** Data model *)

(** Modelled from the spec: the declaration of [USBDevice_t] is in a header
    that is not part of the sources at hand; the fields are those the spec's
    data model lists and [nut_libusb_open] assigns.  A [char *] field is
    [None] when it is the null pointer. *)
Record USBDevice_t : Type := mkUSBDevice {
  VendorID : Z;
  ProductID : Z;
  Vendor : option string;
  Product : option string;
  Serial : option string;
  Bus : option string;
  bcdDevice : Z
}.

(** [struct libusb_device_descriptor], the fields the driver reads. *)
Record libusb_device_descriptor : Type := mkDevDesc {
  idVendor : Z;
  idProduct : Z;
  bcdDevice_desc : Z;
  iManufacturer : Z;
  iProduct : Z;
  iSerialNumber : Z
}.

(** Result of a transfer that fills a buffer: a negative libusb status, or
    the bytes the device sent. *)
Inductive xfer : Type :=
| XferErr (code : Z)
| XferData (data : list byte).

(** Result of [libusb_get_string_descriptor_ascii]. *)
Inductive str_result : Type :=
| StrErr (code : Z)
| StrData (s : string).

(** Result of [libusb_get_config_descriptor (device, 0, &conf_desc)]: a
    status, or the [extra] bytes of [interface[0].altsetting[0]]
    ([extra_length] is their number). *)
Inductive cfg_result : Type :=
| CfgErr (code : Z)
| CfgExtra (extra : list byte).

(** A device on the bus: what libusb answers for it. *)
Record usb_device : Type := mkUsbDevice {
  dev_descriptor : Z * libusb_device_descriptor;
  dev_open : Z;
  dev_bus_number : Z;
  dev_string : Z -> str_result;
  dev_kernel_driver_active : Z;
  dev_set_auto_detach : Z;
  dev_claim : nat -> Z;
  dev_detach : nat -> Z;
  dev_set_alt : Z -> Z;
  dev_control : Z -> Z -> Z -> Z -> xfer;
  dev_config : cfg_result;
  dev_interrupt : Z * list byte;
  dev_clear_halt : Z;
  dev_alloc_ok : nat -> bool
}.

(** [libusb_device_handle *]: the handle libusb gave for the device at
    position [h_id] of the device list. *)
Record handle : Type := mkHandle {
  h_id : nat;
  h_dev : usb_device
}.

(** ** Events *)

Inductive event : Type :=
| EvInit
| EvExit
| EvGetDeviceList
| EvFreeDeviceList
| EvGetDeviceDescriptor (devnum : nat)
| EvOpen (devnum : nat) (rc : Z)
| EvClose (h : nat)
| EvFree (p : option string)
| EvMemset
| EvMalloc (size : Z)
| EvStrdup (s : string)
| EvGetBusNumber (devnum : nat)
| EvGetString (h : nat) (index : Z)
| EvMatch (node : nat) (d : USBDevice_t) (ret : Z)
| EvKernelDriverActive (h : nat)
| EvSetAutoDetach (h : nat)
| EvClaim (h : nat) (attempt : nat)
| EvDetach (h : nat) (attempt : nat)
| EvSetAlt (h : nat) (alt : Z)
| EvControl (h : nat) (bmRequestType bRequest wValue wIndex wLength : Z)
| EvGetConfigDescriptor (devnum : nat)
| EvFreeConfigDescriptor (devnum : nat)
| EvCallback (h : nat) (rdbuf : list byte) (rdlen : Z)
| EvInterrupt (h : nat) (endpoint : Z) (bufsize timeout : Z)
| EvClearHalt (h : nat) (endpoint : Z)
| EvFflush
| EvDebugx (level : Z) (fmt : string)
| EvDebugHex (level : Z) (msg : string)
| EvLogx (priority : Z) (fmt : string)
| EvFatal (fmt : string).

(** ** The monad of the driver's code: a trace, and how the code ends *)

(** The code returns a value, ends the process with [exit], loops for ever,
    or makes a call whose behaviour the C language leaves undefined. *)
Inductive outcome (A : Type) : Type :=
| Ret (a : A)
| Exit (status : Z)
| Spin
| Undefined.

Arguments Ret {A} a.
Arguments Exit {A} status.
Arguments Spin {A}.
Arguments Undefined {A}.

Definition M (A : Type) : Type := (list event * outcome A)%type.

Definition ret {A : Type} (a : A) : M A := ([], Ret a).

Definition bind {A B : Type} (m : M A) (f : A -> M B) : M B :=
  match snd m with
  | Ret a => (fst m ++ fst (f a), snd (f a))
  | Exit s => (fst m, Exit s)
  | Spin => (fst m, Spin)
  | Undefined => (fst m, Undefined)
  end.

Notation "x <- c1 ;; c2" := (bind c1 (fun x => c2))
  (at level 61, c1 at next level, right associativity).
Notation "c1 ;; c2" := (bind c1 (fun _ => c2))
  (at level 61, right associativity).

Definition emit (e : event) : M unit := ([e], Ret tt).

Definition upsdebugx (level : Z) (fmt : string) : M unit :=
  emit (EvDebugx level fmt).

Definition upsdebug_hex (level : Z) (msg : string) : M unit :=
  emit (EvDebugHex level msg).

Definition upslogx (priority : Z) (fmt : string) : M unit :=
  emit (EvLogx priority fmt).

(** [fatalx] and [fatal_with_errno] print and call [exit]. *)
Definition fatalx {A : Type} (status : Z) (fmt : string) : M A :=
  ([EvFatal fmt], Exit status).

Definition fatal_with_errno {A : Type} (status : Z) (fmt : string) : M A :=
  ([EvFatal fmt], Exit status).

Definition trace {A : Type} (m : M A) : list event := fst m.
Definition result {A : Type} (m : M A) : outcome A := snd m.

(** ** Error classifier *)

Definition nut_usb_logerror (r : Z) (desc : string) : M Z :=
  if r >=? 0 then ret r
  else if (r =? LIBUSB_ERROR_INVALID_PARAM)
       || (r =? LIBUSB_ERROR_INTERRUPTED)
       || (r =? LIBUSB_ERROR_NO_MEM)
       || (r =? LIBUSB_ERROR_TIMEOUT)
       || (r =? LIBUSB_ERROR_OVERFLOW)
  then upsdebugx 2 "%s: %s." ;; ret r
  else upslogx LOG_DEBUG "%s: %s." ;; ret r.

(** ** Transfer primitives *)

(** [libusb_control_transfer]: the device answers by the setup packet; at
    most [wLength] bytes are transferred, and their number is returned. *)
Definition libusb_control_transfer (udev : handle)
  (bmRequestType bRequest wValue wIndex wLength : Z) : M (Z * list byte) :=
  emit (EvControl (h_id udev) bmRequestType bRequest wValue wIndex wLength) ;;
  match dev_control (h_dev udev) bmRequestType bRequest wValue wIndex with
  | XferErr code => ret (code, [])
  | XferData data =>
      let got := firstn (Z.to_nat wLength) data in
      ret (Z.of_nat (List.length got), got)
  end.

(** The [int] arguments [ReportId + (0x03 << 8)] and [ReportSize] are passed
    for the [uint16_t] parameters [wValue] and [wLength] of
    [libusb_control_transfer]: the call converts them modulo 65536. *)
Definition nut_libusb_get_report (udev : option handle) (ReportId : Z)
  (ReportSize : Z) : M (Z * list byte) :=
  upsdebugx 4 "Entering libusb_get_report" ;;
  match udev with
  | None => ret (LIBUSB_ERROR_INVALID_PARAM, [])
  | Some h =>
      r <- libusb_control_transfer h
             (Z.lor (Z.lor LIBUSB_ENDPOINT_IN LIBUSB_REQUEST_TYPE_CLASS)
                    LIBUSB_RECIPIENT_INTERFACE)
             0x01 (to_uint16 (ReportId + Z.shiftl 0x03 8)) usb_if_num
             (to_uint16 ReportSize) ;;
      if fst r =? LIBUSB_ERROR_PIPE then ret (0, snd r)
      else
        c <- nut_usb_logerror (fst r) "nut_libusb_get_report" ;;
        ret (c, snd r)
  end.

Definition nut_libusb_set_report (udev : option handle) (ReportId : Z)
  (ReportSize : Z) : M Z :=
  match udev with
  | None => ret LIBUSB_ERROR_INVALID_PARAM
  | Some h =>
      r <- libusb_control_transfer h
             (Z.lor (Z.lor LIBUSB_ENDPOINT_OUT LIBUSB_REQUEST_TYPE_CLASS)
                    LIBUSB_RECIPIENT_INTERFACE)
             0x09 (to_uint16 (ReportId + Z.shiftl 0x03 8)) usb_if_num
             (to_uint16 ReportSize) ;;
      if fst r =? LIBUSB_ERROR_PIPE then ret 0
      else nut_usb_logerror (fst r) "nut_libusb_set_report"
  end.

(** [libusb_get_string_descriptor_ascii]: the number of bytes of the string,
    or a negative status. *)
Definition libusb_get_string_descriptor_ascii (udev : handle) (index : Z)
  : M (Z * string) :=
  emit (EvGetString (h_id udev) index) ;;
  match dev_string (h_dev udev) index with
  | StrErr code => ret (code, EmptyString)
  | StrData s => ret (Z.of_nat (String.length s), s)
  end.

Definition nut_libusb_get_string (udev : option handle) (StringIdx : Z)
  : M (Z * string) :=
  match udev with
  | None => ret (LIBUSB_ERROR_INVALID_PARAM, EmptyString)
  | Some h =>
      r <- libusb_get_string_descriptor_ascii h StringIdx ;;
      c <- nut_usb_logerror (fst r) "nut_libusb_get_string" ;;
      ret (c, snd r)
  end.

(** [libusb_interrupt_transfer (udev, ep, buf, bufsize, &bufsize, timeout)]:
    the status, and the bytes transferred (at most [bufsize]). *)
Definition libusb_interrupt_transfer (udev : handle) (endpoint : Z)
  (bufsize timeout : Z) : M (Z * list byte) :=
  emit (EvInterrupt (h_id udev) endpoint bufsize timeout) ;;
  let (status, data) := dev_interrupt (h_dev udev) in
  ret (status, firstn (Z.to_nat bufsize) data).

Definition libusb_clear_halt (udev : handle) (endpoint : Z) : M Z :=
  emit (EvClearHalt (h_id udev) endpoint) ;;
  ret (dev_clear_halt (h_dev udev)).

Definition nut_libusb_get_interrupt (udev : option handle)
  (bufsize timeout : Z) : M (Z * list byte) :=
  match udev with
  | None => ret (LIBUSB_ERROR_INVALID_PARAM, [])
  | Some h =>
      r <- libusb_interrupt_transfer h 0x81 bufsize timeout ;;
      let '(status, buf) := r in
      if status =? LIBUSB_SUCCESS then ret (Z.of_nat (List.length buf), buf)
      else
        status' <- (if status =? LIBUSB_ERROR_PIPE
                    then libusb_clear_halt h 0x81
                    else ret status) ;;
        c <- nut_usb_logerror status' "nut_libusb_get_interrupt" ;;
        ret (c, buf)
  end.

(** ** Build and run-time configuration *)

(** The [HAVE_LIBUSB_*] flags of config.h and [__linux__] select code at
    compile time; [testvar]/[getval] of the option [usb_set_altinterface] and
    [str_to_int] belong to the driver core. *)
Record config : Type := mkConfig {
  HAVE_LIBUSB_KERNEL_DRIVER_ACTIVE : bool;
  HAVE_LIBUSB_SET_AUTO_DETACH_KERNEL_DRIVER : bool;
  HAVE_LIBUSB_DETACH_KERNEL_DRIVER : bool;
  on_linux : bool;
  usb_set_altinterface : option (option string);
  str_to_int : string -> option Z
}.

(** ** Interface acquisition *)

Definition libusb_kernel_driver_active (udev : handle) : M Z :=
  emit (EvKernelDriverActive (h_id udev)) ;;
  ret (dev_kernel_driver_active (h_dev udev)).

Definition libusb_set_auto_detach_kernel_driver (udev : handle) : M Z :=
  emit (EvSetAutoDetach (h_id udev)) ;;
  ret (dev_set_auto_detach (h_dev udev)).

(** The [attempt]-th call of [libusb_claim_interface] on the handle. *)
Definition libusb_claim_interface (udev : handle) (attempt : nat) : M Z :=
  emit (EvClaim (h_id udev) attempt) ;;
  ret (dev_claim (h_dev udev) attempt).

Definition libusb_detach_kernel_driver (udev : handle) (attempt : nat) : M Z :=
  emit (EvDetach (h_id udev) attempt) ;;
  ret (dev_detach (h_dev udev) attempt).

(** The [while] loop of the explicit-detach path; [retries] is the value of
    the C variable when the loop condition is evaluated, [attempt] the number
    of claim attempts made so far. *)
Fixpoint claim_retry (udev : handle) (retries : nat) (attempt : nat) : M Z :=
  r <- libusb_claim_interface udev attempt ;;
  if negb (r =? LIBUSB_SUCCESS) then
    upsdebugx 2 "%s: failed to claim USB device (%s)." ;;
    match retries with
    | O => ret r
    | S retries' =>
        d <- libusb_detach_kernel_driver udev attempt ;;
        (if d =? LIBUSB_SUCCESS then
           upsdebugx 2 "%s: detached kernel driver from USB device..."
         else if d =? LIBUSB_ERROR_NOT_FOUND then
           upsdebugx 2 "%s: kernel driver already detached."
         else
           upsdebugx 1 "%s: failed to detach kernel driver from USB device (%s).") ;;
        claim_retry udev retries' (S attempt)
    end
  else ret LIBUSB_SUCCESS.

Definition nut_usb_claim_interface (cfg : config) (udev : handle) : M Z :=
  (if HAVE_LIBUSB_KERNEL_DRIVER_ACTIVE cfg
      && HAVE_LIBUSB_SET_AUTO_DETACH_KERNEL_DRIVER cfg
   then
     r <- libusb_kernel_driver_active udev ;;
     if r =? 1 then
       upsdebugx 3 "%s: libusb_kernel_driver_active() returned 1 (driver active)." ;;
       r' <- libusb_set_auto_detach_kernel_driver udev ;;
       if negb (r' =? LIBUSB_SUCCESS) then
         upsdebugx 1 "%s: failed to set kernel driver auto-detach driver flag for USB device (%s)."
       else
         upsdebugx 2 "%s: successfully set kernel driver auto-detach flag."
     else
       upsdebugx 3 "%s: libusb_kernel_driver_active() returned %d (%s)."
   else ret tt) ;;
  if HAVE_LIBUSB_DETACH_KERNEL_DRIVER cfg then
    claim_retry udev 3 0
  else
    r <- libusb_claim_interface udev 0 ;;
    if negb (r =? LIBUSB_SUCCESS) then ret r else ret LIBUSB_SUCCESS.

(** ** Matcher chain *)

(** Modelled from the spec: the declaration of [USBDeviceMatcher_t] is in a
    header that is not part of the sources at hand.  A node holds an opaque
    comparison function and its private data ([void *privdata]) plus a
    pointer to the next node; the chain is the list of its nodes, the null
    pointer the empty list. *)
Record USBDeviceMatcher_t : Type := mkMatcher {
  privdata_t : Type;
  match_function : USBDevice_t -> privdata_t -> Z;
  privdata : privdata_t
}.

(** [static inline int matches(USBDeviceMatcher_t *matcher, USBDevice_t *device)] *)
Definition matches (matcher : option USBDeviceMatcher_t)
  (device : USBDevice_t) : Z :=
  match matcher with
  | None => 1
  | Some m => match_function m device (privdata m)
  end.

(** ** Alternate-setting negotiation *)

Definition libusb_set_interface_alt_setting (udev : handle) (alt : Z) : M Z :=
  emit (EvSetAlt (h_id udev) alt) ;;
  ret (dev_set_alt (h_dev udev) alt).

Definition nut_usb_set_altinterface (cfg : config) (udev : handle) : M Z :=
  match usb_set_altinterface cfg with
  | None =>
      upsdebugx 3 "%s: skipped libusb_set_interface_alt_setting(udev, %d, 0)." ;;
      ret LIBUSB_SUCCESS
  | Some alt_string =>
      altinterface <-
        match alt_string with
        | Some s =>
            match str_to_int cfg s with
            | None =>
                upslogx LOG_WARNING
                  "%s: could not convert to an int the provided value (%s) for 'usb_set_altinterface' (%s)." ;;
                ret 0
            | Some a =>
                (if (a <? 0) || (a >? 255) then
                   upslogx LOG_WARNING
                     "%s: setting bAlternateInterface to %d will probably not work."
                 else ret tt) ;;
                ret a
            end
        | None => ret 0
        end ;;
      upsdebugx 2 "%s: calling libusb_set_interface_alt_setting(udev, %d, %d)." ;;
      r <- libusb_set_interface_alt_setting udev altinterface ;;
      (if negb (r =? LIBUSB_SUCCESS) then
         upslogx LOG_WARNING
           "%s: libusb_set_interface_alt_setting(udev, %d, %d) error (%s)."
       else ret tt) ;;
      upslogx LOG_NOTICE
        "%s: libusb_set_interface_alt_setting() should not be necessary - please email the nut-upsdev list with information about your device." ;;
      ret r
  end.

(** ** Device enumeration: identity of a candidate *)

Definition libusb_free_device_list : M unit := emit EvFreeDeviceList.

Definition libusb_close (udev : handle) : M unit := emit (EvClose (h_id udev)).

(** The label [oom_error]. *)
Definition oom_error {A : Type} : M A :=
  libusb_free_device_list ;;
  fatal_with_errno EXIT_FAILURE "Out of memory".

(** [memset] of the whole record to zero. *)
Definition zero_device : USBDevice_t := mkUSBDevice 0 0 None None None None 0.

Definition set_Bus (d : USBDevice_t) (s : option string) : USBDevice_t :=
  mkUSBDevice (VendorID d) (ProductID d) (Vendor d) (Product d) (Serial d) s
    (bcdDevice d).

Definition set_ids (d : USBDevice_t) (vid pid bcd : Z) : USBDevice_t :=
  mkUSBDevice vid pid (Vendor d) (Product d) (Serial d) (Bus d) bcd.

Definition set_Vendor (d : USBDevice_t) (s : option string) : USBDevice_t :=
  mkUSBDevice (VendorID d) (ProductID d) s (Product d) (Serial d) (Bus d)
    (bcdDevice d).

Definition set_Product (d : USBDevice_t) (s : option string) : USBDevice_t :=
  mkUSBDevice (VendorID d) (ProductID d) (Vendor d) s (Serial d) (Bus d)
    (bcdDevice d).

Definition set_Serial (d : USBDevice_t) (s : option string) : USBDevice_t :=
  mkUSBDevice (VendorID d) (ProductID d) (Vendor d) (Product d) s (Bus d)
    (bcdDevice d).

Definition digit (d : Z) : ascii := ascii_of_nat (48 + Z.to_nat d).

(** [sprintf(curDevice->Bus, "%03d", bus)] for a [uint8_t bus]. *)
Definition sprintf_03d (bus : Z) : string :=
  String (digit (bus / 100))
    (String (digit ((bus / 10) mod 10)) (String (digit (bus mod 10)) "")).

Definition libusb_get_bus_number (devnum : nat) (device : usb_device) : M Z :=
  emit (EvGetBusNumber devnum) ;;
  ret (dev_bus_number device mod 256).

(** One of the three string descriptors: read when its index in the device
    descriptor is not zero, duplicated with [strdup] when something was read.
    [None] leaves the field as [memset] made it. *)
Definition read_identity_string (udev : handle) (index : Z) (site : nat)
  : M (option string) :=
  if negb (index =? 0) then
    r <- libusb_get_string_descriptor_ascii udev index ;;
    if fst r >? 0 then
      emit (EvStrdup (snd r)) ;;
      if dev_alloc_ok (h_dev udev) site then ret (Some (snd r))
      else oom_error
    else ret None
  else ret None.

Definition assign (set : USBDevice_t -> option string -> USBDevice_t)
  (d : USBDevice_t) (s : option string) : USBDevice_t :=
  match s with
  | Some _ => set d s
  | None => d
  end.

(** Lines 263-301 of the loop body: the caller's record is released, zeroed
    and filled from the candidate. *)
Definition collect_identity (udev : handle) (devnum : nat)
  (dev_desc : libusb_device_descriptor) (curDevice : USBDevice_t)
  : M USBDevice_t :=
  emit (EvFree (Vendor curDevice)) ;;
  emit (EvFree (Product curDevice)) ;;
  emit (EvFree (Serial curDevice)) ;;
  emit (EvFree (Bus curDevice)) ;;
  emit EvMemset ;;
  let cur := zero_device in
  bus <- libusb_get_bus_number devnum (h_dev udev) ;;
  emit (EvMalloc 4) ;;
  if negb (dev_alloc_ok (h_dev udev) 0) then oom_error
  else
    let cur := set_Bus cur (Some (sprintf_03d bus)) in
    let cur := set_ids cur (idVendor dev_desc) (idProduct dev_desc)
                 (bcdDevice_desc dev_desc) in
    v <- read_identity_string udev (iManufacturer dev_desc) 1 ;;
    let cur := assign set_Vendor cur v in
    p <- read_identity_string udev (iProduct dev_desc) 2 ;;
    let cur := assign set_Product cur p in
    s <- read_identity_string udev (iSerialNumber dev_desc) 3 ;;
    let cur := assign set_Serial cur s in
    upsdebugx 2 "- VendorID: %04x" ;;
    upsdebugx 2 "- ProductID: %04x" ;;
    upsdebugx 2 "- Manufacturer: %s" ;;
    upsdebugx 2 "- Product: %s" ;;
    upsdebugx 2 "- Serial Number: %s" ;;
    upsdebugx 2 "- Bus: %s" ;;
    upsdebugx 2 "- Device release number: %04x" ;;
    ret cur.

(** The [for (m = matcher; m; m = m->next)] loop.  [true]: the loop ran to
    its end ("Device matches"); [false]: [goto next_device]. *)
Fixpoint match_chain (m : list USBDeviceMatcher_t) (node : nat)
  (curDevice : USBDevice_t) : M bool :=
  match m with
  | [] => ret true
  | n :: next =>
      let r := matches (Some n) curDevice in
      emit (EvMatch node curDevice r) ;;
      if r =? 0 then
        upsdebugx 2 "Device does not match - skipping" ;;
        ret false
      else if r =? -1 then
        libusb_free_device_list ;;
        fatal_with_errno EXIT_FAILURE "matcher"
      else if r =? -2 then
        upsdebugx 2 "matcher: unspecified error" ;;
        ret false
      else match_chain next (S node) curDevice
  end.

(** ** Descriptor discovery *)

Definition IN_STANDARD_INTERFACE : Z :=
  Z.lor (Z.lor LIBUSB_ENDPOINT_IN LIBUSB_REQUEST_TYPE_STANDARD)
        LIBUSB_RECIPIENT_INTERFACE.

(** [hid_desc_index]: 0, or 1 for the Eaton units of release 2.02. *)
Definition choose_hid_desc_index (curDevice : USBDevice_t) : M Z :=
  if (VendorID curDevice =? 0x463) && (bcdDevice curDevice =? 0x0202) then
    upsdebugx 1 "Eaton device v2.02. Using full report descriptor" ;;
    ret 1
  else ret 0.

(** The 16-bit report length of a HID descriptor: [p[7] | (p[8] << 8)]
    stored in a [uint16_t]. *)
Definition report_length (p : list byte) (at_ : Z) : Z :=
  to_uint16 (Z.lor (byte_at p (at_ + 7)) (Z.shiftl (byte_at p (at_ + 8)) 8)).

(** FIRST METHOD.  The result is [Some rdlen1] when [got_rdlen1] is set. *)
Definition hid_method1 (udev : handle) (hid_desc_index : Z) : M (option Z) :=
  r <- libusb_control_transfer udev IN_STANDARD_INTERFACE
         LIBUSB_REQUEST_GET_DESCRIPTOR
         (Z.shiftl LIBUSB_DT_HID 8 + hid_desc_index) usb_if_num 0x9 ;;
  got <- (if fst r <? 0 then
            upsdebugx 2 "Unable to get HID descriptor (%s)" ;;
            ret None
          else if fst r <? 9 then
            upsdebugx 2 "HID descriptor too short (expected %d, got %d)" ;;
            ret None
          else
            upsdebug_hex 3 "HID descriptor, method 1" ;;
            upsdebugx 3 "HID descriptor length (method 1) %u" ;;
            ret (Some (report_length (snd r) 0))) ;;
  match got with
  | None =>
      upsdebugx 2 "Warning: HID descriptor, method 1 failed" ;;
      ret None
  | Some rdlen1 => ret (Some rdlen1)
  end.

(** The [for (i = 0; i <= if_desc->extra_length - 9; i += if_desc->extra[i])]
    loop of the second method, one unit of [fuel] for each evaluation of its
    condition.  Without fuel left the loop is still running. *)
Fixpoint scan_extra (fuel : nat) (extra : list byte) (i : Z) : M (option Z) :=
  match fuel with
  | O => ([], Spin)
  | S fuel' =>
      if i <=? Z.of_nat (List.length extra) - 9 then
        upsdebugx 4 "i=%d, extra[i]=%02x, extra[i+1]=%02x" ;;
        if byte_at extra i <? 9 then
          scan_extra fuel' extra (i + byte_at extra i)
        else if negb (byte_at extra (i + 1) =? LIBUSB_DT_HID) then
          scan_extra fuel' extra (i + byte_at extra i)
        else
          upsdebug_hex 4 "HID descriptor, method 2" ;;
          upsdebugx 3 "HID descriptor length (method 2) %u" ;;
          ret (Some (report_length extra i))
      else ret None
  end.

(** The loop from [i = 0].  With every visited length byte positive the
    condition is evaluated at most [extra_length - 7] times (lemma
    [scan_extra_returns]); a length byte 0 at a visited position makes the
    C loop run for ever, and the model [Spin] (lemma
    [scan_extra_spin_forever]). *)
Definition scan_hid_descriptor (extra : list byte) : M (option Z) :=
  scan_extra (S (List.length extra)) extra 0.

Definition libusb_get_config_descriptor (devnum : nat) (device : usb_device)
  : M cfg_result :=
  emit (EvGetConfigDescriptor devnum) ;;
  ret (dev_config device).

(** SECOND METHOD.  The result is [Some rdlen2] when [got_rdlen2] is set. *)
Definition hid_method2 (devnum : nat) (device : usb_device)
  (curDevice : USBDevice_t) : M (option Z) :=
  if negb (VendorID curDevice =? 0x463)
     && negb (bcdDevice curDevice =? 0x0202)
  then
    upsdebugx 2 "Eaton device v2.02. Skipping method 2 for retrieving HID descriptor." ;;
    ret None
  else
    c <- libusb_get_config_descriptor devnum device ;;
    got <- match c with
           | CfgErr _ =>
               upsdebugx 2 "%s: unable to get the first configuration descriptor (%s)." ;;
               ret None
           | CfgExtra extra =>
               g <- scan_hid_descriptor extra ;;
               emit (EvFreeConfigDescriptor devnum) ;;
               ret g
           end ;;
    match got with
    | None =>
        upsdebugx 2 "Warning: HID descriptor, method 2 failed" ;;
        ret None
    | Some rdlen2 => ret (Some rdlen2)
    end.

(** [rdlen = got_rdlen2 ? rdlen2 : rdlen1], and [None] when neither flag is
    set. *)
Definition choose_rdlen (got1 got2 : option Z) : option Z :=
  match got2 with
  | Some rdlen2 => Some rdlen2
  | None => got1
  end.

(** How the body of the enumeration loop ends for a candidate. *)
Inductive verdict : Type :=
| Continue
| NextDevice (udev : handle)
| Return (r : Z).

Definition callback_t : Type :=
  handle -> USBDevice_t -> list byte -> Z -> Z.

(** Lines 408-454: reconciliation of the two lengths, the fetch of the
    report descriptor into [rdbuf], the caller's callback. *)
Definition fetch_report (udev : handle) (curDevice : USBDevice_t)
  (hid_desc_index : Z) (callback : callback_t) (got1 got2 : option Z)
  : M verdict :=
  match choose_rdlen got1 got2 with
  | None =>
      upsdebugx 2 "Unable to retrieve any HID descriptor" ;;
      ret (NextDevice udev)
  | Some rdlen =>
      match got1, got2 with
      | Some rdlen1, Some rdlen2 =>
          if negb (rdlen1 =? rdlen2) then
            upsdebugx 2 "Warning: two different HID descriptors retrieved (Reportlen = %u vs. %u)"
          else ret tt
      | _, _ => ret tt
      end ;;
      upsdebugx 2 "HID descriptor length %d" ;;
      if rdlen >? MAX_REPORT_SIZE then
        upsdebugx 2 "HID descriptor too long %u (max %lu)" ;;
        ret (NextDevice udev)
      else
        r <- libusb_control_transfer udev IN_STANDARD_INTERFACE
               LIBUSB_REQUEST_GET_DESCRIPTOR
               (Z.shiftl LIBUSB_DT_REPORT 8 + hid_desc_index) usb_if_num
               rdlen ;;
        if fst r <? 0 then
          upsdebugx 2 "Unable to get Report descriptor (%s)" ;;
          ret (NextDevice udev)
        else
          rdlen' <- (if fst r <? rdlen then
                       upsdebugx 2 "Warning: report descriptor too short (expected %u, got %d)" ;;
                       ret (to_uint16 (fst r))
                     else ret rdlen) ;;
          emit (EvCallback (h_id udev) (snd r) rdlen') ;;
          if callback udev curDevice (snd r) rdlen' <? 1 then
            upsdebugx 2 "Caller doesn't like this device" ;;
            ret (NextDevice udev)
          else
            upsdebugx 2 "Report descriptor retrieved (Reportlen = %u)" ;;
            upsdebugx 2 "Found HID device" ;;
            emit EvFflush ;;
            libusb_free_device_list ;;
            ret (Return LIBUSB_SUCCESS)
  end.

(** Lines 337-454: descriptor discovery for a matched, claimed candidate. *)
Definition descriptor_discovery (udev : handle) (devnum : nat)
  (curDevice : USBDevice_t) (callback : callback_t) : M verdict :=
  hid_desc_index <- choose_hid_desc_index curDevice ;;
  got1 <- hid_method1 udev hid_desc_index ;;
  got2 <- hid_method2 devnum (h_dev udev) curDevice ;;
  fetch_report udev curDevice hid_desc_index callback got1 got2.

(** ** Device enumeration *)

(** The caller's memory that [nut_libusb_open] writes: [*udevp] and
    [*curDevice]. *)
Record caller : Type := mkCaller {
  udevp : option handle;
  curDevice : USBDevice_t
}.

(** The body of the [for] loop up to the labels. *)
Definition examine (cfg : config) (matcher : list USBDeviceMatcher_t)
  (callback : option callback_t) (devnum : nat) (device : usb_device)
  (c : caller) : M (verdict * caller) :=
  upsdebugx 2 "Checking device %lu of %lu." ;;
  emit (EvGetDeviceDescriptor devnum) ;;
  if negb (fst (dev_descriptor device) =? LIBUSB_SUCCESS) then
    upsdebugx 2 "Unable to get DEVICE descriptor (%s)." ;;
    ret (Continue, c)
  else
    let dev_desc := snd (dev_descriptor device) in
    emit (EvOpen devnum (dev_open device)) ;;
    if negb (dev_open device =? 0) then
      upsdebugx 2 "Failed to open device %04X:%04X (%s), skipping." ;;
      ret (Continue, c)
    else
      let udev := mkHandle devnum device in
      cur <- collect_identity udev devnum dev_desc (curDevice c) ;;
      let c := mkCaller (Some udev) cur in
      upsdebugx 2 "Trying to match device" ;;
      matched <- match_chain matcher 0 cur ;;
      if negb matched then ret (NextDevice udev, c)
      else
        upsdebugx 2 "Device matches" ;;
        r <- nut_usb_claim_interface cfg udev ;;
        if negb (r =? LIBUSB_SUCCESS) then
          libusb_free_device_list ;;
          fatalx EXIT_FAILURE "Can't claim USB device %04x:%04x (%s)."
        else
          upsdebugx 2 "Claimed interface %d successfully" ;;
          nut_usb_set_altinterface cfg udev ;;
          match callback with
          | None =>
              libusb_free_device_list ;;
              ret (Return LIBUSB_SUCCESS, c)
          | Some cb =>
              v <- descriptor_discovery udev devnum cur cb ;;
              ret (v, c)
          end.

(** One iteration of the loop: [None] when it goes on to the next device,
    [Some r] when the function returns [r]. *)
Definition loop_body (cfg : config) (matcher : list USBDeviceMatcher_t)
  (callback : option callback_t) (devnum : nat) (device : usb_device)
  (c : caller) : M (option Z * caller) :=
  v <- examine cfg matcher callback devnum device c ;;
  match fst v with
  | Continue => ret (None, snd v)
  | NextDevice udev =>
      libusb_close udev ;;
      ret (None, snd v)
  | Return r => ret (Some r, snd v)
  end.

(** The [for (devnum = 0; devnum < devcount; devnum++)] loop and the code
    after it. *)
Fixpoint for_devices (cfg : config) (matcher : list USBDeviceMatcher_t)
  (callback : option callback_t) (devlist : list usb_device) (devnum : nat)
  (c : caller) : M (Z * caller) :=
  match devlist with
  | [] =>
      let c := mkCaller None (curDevice c) in
      libusb_free_device_list ;;
      upsdebugx 2 "No appropriate HID device found" ;;
      emit EvFflush ;;
      ret (LIBUSB_ERROR_NOT_FOUND, c)
  | device :: rest =>
      v <- loop_body cfg matcher callback devnum device c ;;
      match fst v with
      | None => for_devices cfg matcher callback rest (S devnum) (snd v)
      | Some r => ret (r, snd v)
      end
  end.

(** The USB bus: the result of [libusb_init] and of
    [libusb_get_device_list] (a negative count, or the devices). *)
Inductive list_result : Type :=
| ListErr (code : Z)
| ListDevices (devlist : list usb_device).

Record usb_bus : Type := mkBus {
  bus_init : Z;
  bus_device_list : list_result
}.

(** [libusb_get_device_list] assigns [devlist] only when it succeeds.  When
    it fails, [devcount] is negative, the loop is not entered, and the code
    after the loop ([*udevp = NULL], then [libusb_free_device_list (devlist,
    1)]) passes the pointer that was never assigned: from that call on the
    behaviour of the program is undefined. *)
Definition free_unassigned_device_list {A : Type} : M A :=
  ([EvFreeDeviceList], Undefined).

Definition nut_libusb_open (cfg : config) (bus : usb_bus) (c : caller)
  (matcher : list USBDeviceMatcher_t) (callback : option callback_t)
  : M (Z * caller) :=
  emit EvInit ;;
  if negb (bus_init bus =? LIBUSB_SUCCESS) then
    emit EvExit ;;
    fatalx EXIT_FAILURE "Failed to init libusb (%s)."
  else
    (if negb (on_linux cfg) then
       match udevp c with
       | Some h => libusb_close h
       | None => ret tt
       end
     else ret tt) ;;
    emit EvGetDeviceList ;;
    match bus_device_list bus with
    | ListErr _ => free_unassigned_device_list
    | ListDevices devlist => for_devices cfg matcher callback devlist 0 c
    end.

(** [nut_libusb_close] *)
Definition nut_libusb_close (udev : option handle) : M unit :=
  match udev with
  | None => ret tt
  | Some h =>
      libusb_close h ;;
      emit EvExit
  end.

(** ** Vocabulary of the properties *)

(** The two classes of status codes of the error classifier. *)
Definition low_severity_codes : list Z :=
  [LIBUSB_ERROR_INVALID_PARAM; LIBUSB_ERROR_INTERRUPTED; LIBUSB_ERROR_NO_MEM;
   LIBUSB_ERROR_TIMEOUT; LIBUSB_ERROR_OVERFLOW].

Definition always_on_codes : list Z :=
  [LIBUSB_ERROR_BUSY; LIBUSB_ERROR_NO_DEVICE; LIBUSB_ERROR_ACCESS;
   LIBUSB_ERROR_IO; LIBUSB_ERROR_NOT_FOUND; LIBUSB_ERROR_PIPE;
   LIBUSB_ERROR_NOT_SUPPORTED; LIBUSB_ERROR_OTHER].

Definition IN_CLASS_INTERFACE : Z :=
  Z.lor (Z.lor LIBUSB_ENDPOINT_IN LIBUSB_REQUEST_TYPE_CLASS)
        LIBUSB_RECIPIENT_INTERFACE.

Definition OUT_CLASS_INTERFACE : Z :=
  Z.lor (Z.lor LIBUSB_ENDPOINT_OUT LIBUSB_REQUEST_TYPE_CLASS)
        LIBUSB_RECIPIENT_INTERFACE.

(** The feature-report request of [nut_libusb_get_report] stalls. *)
Definition get_report_stalls (h : handle) (ReportId : Z) : Prop :=
  dev_control (h_dev h) IN_CLASS_INTERFACE 0x01
    (to_uint16 (ReportId + Z.shiftl 0x03 8)) usb_if_num
  = XferErr LIBUSB_ERROR_PIPE.

(** The feature-report request of [nut_libusb_set_report] stalls. *)
Definition set_report_stalls (h : handle) (ReportId : Z) : Prop :=
  dev_control (h_dev h) OUT_CLASS_INTERFACE 0x09
    (to_uint16 (ReportId + Z.shiftl 0x03 8)) usb_if_num
  = XferErr LIBUSB_ERROR_PIPE.

(** Events of a trace, by kind. *)
Definition is_claim (e : event) : bool :=
  match e with EvClaim _ _ => true | _ => false end.

Definition is_detach (e : event) : bool :=
  match e with EvDetach _ _ => true | _ => false end.

(** ** Vocabulary of the matcher chain *)


Definition is_match_call (e : event) : bool :=
  match e with EvMatch _ _ _ => true | _ => false end.


(** ** Vocabulary of the enumeration *)

(** What the part of the loop body between [libusb_open] and descriptor
    discovery can do: identity, matching, claim, alternate setting. *)
Definition pre_discovery_event (e : event) : bool :=
  match e with
  | EvFree _ | EvMemset | EvMalloc _ | EvStrdup _ | EvGetBusNumber _
  | EvGetString _ _ | EvMatch _ _ _ | EvKernelDriverActive _
  | EvSetAutoDetach _ | EvClaim _ _ | EvDetach _ _ | EvSetAlt _ _
  | EvDebugx _ _ | EvLogx _ _ | EvFreeDeviceList | EvFatal _ => true
  | _ => false
  end.

(** What descriptor discovery can do. *)
Definition discovery_event (e : event) : bool :=
  match e with
  | EvControl _ _ _ _ _ _ | EvGetConfigDescriptor _
  | EvFreeConfigDescriptor _ | EvCallback _ _ _ | EvDebugx _ _
  | EvDebugHex _ _ | EvFflush | EvFreeDeviceList => true
  | _ => false
  end.

(** Method 2 is attempted: the configuration descriptor is asked for. *)
Definition is_get_config (e : event) : bool :=
  match e with EvGetConfigDescriptor _ => true | _ => false end.

(** The control transfer that fetches the report descriptor (into
    [rdbuf]). *)
Definition is_report_fetch (e : event) : bool :=
  match e with
  | EvControl _ _ bRequest wValue _ _ =>
      (bRequest =? LIBUSB_REQUEST_GET_DESCRIPTOR)
      && (Z.shiftr wValue 8 =? LIBUSB_DT_REPORT)
  | _ => false
  end.

Definition is_callback (e : event) : bool :=
  match e with EvCallback _ _ _ => true | _ => false end.

(** The candidate [device] at position [devnum] is opened and its identity
    [cur] collected: the body of the loop reaches the matcher chain. *)
Definition reaches_matching (devnum : nat) (device : usb_device) (c : caller)
  (cur : USBDevice_t) : Prop :=
  fst (dev_descriptor device) = LIBUSB_SUCCESS /\
  dev_open device = 0 /\
  result (collect_identity (mkHandle devnum device) devnum
            (snd (dev_descriptor device)) (curDevice c)) = Ret cur.

(** The candidate is matched and claimed: the body of the loop reaches
    descriptor discovery (when a callback is given). *)
Definition reaches_discovery (cfg : config)
  (matcher : list USBDeviceMatcher_t) (devnum : nat) (device : usb_device)
  (c : caller) (cur : USBDevice_t) : Prop :=
  reaches_matching devnum device c cur /\
  result (match_chain matcher 0 cur) = Ret true /\
  result (nut_usb_claim_interface cfg (mkHandle devnum device))
  = Ret LIBUSB_SUCCESS.

(** The code runs to its end: it neither exits the process nor loops. *)
Definition returns {A : Type} (m : M A) : Prop :=
  exists a : A, result m = Ret a.

(** An event of descriptor discovery other than the fetch of the report
    descriptor, the read of the configuration descriptor and the callback. *)
Definition quiet (e : event) : Prop :=
  discovery_event e = true /\ is_report_fetch e = false
  /\ is_get_config e = false /\ is_callback e = false.

(** The condition under which the code leaves the second method out. *)
Definition skips_method2 (cur : USBDevice_t) : bool :=
  negb (VendorID cur =? 0x463) && negb (bcdDevice cur =? 0x0202).

(** The fetch of the report descriptor, as [nut_libusb_open] issues it. *)
Definition report_fetch (h : nat) (hid_desc_index rdlen : Z) : event :=
  EvControl h IN_STANDARD_INTERFACE LIBUSB_REQUEST_GET_DESCRIPTOR
    (Z.shiftl LIBUSB_DT_REPORT 8 + hid_desc_index) usb_if_num rdlen.

(** ** Vocabulary of the handles *)

Definition is_handle_event (e : event) : bool :=
  match e with
  | EvOpen _ _ | EvClose _ | EvGetDeviceDescriptor _ => true
  | _ => false
  end.

(** The discipline of the device handles along a trace.  [held] is the
    handle that is open.  A device is opened, and a new candidate is looked
    at ([libusb_get_device_descriptor]), only while no handle is held;
    [libusb_close] is called on the handle held; at the end no handle is
    held. *)
Fixpoint handles_closed (held : option nat) (t : list event) : bool :=
  match t with
  | [] => match held with None => true | Some _ => false end
  | EvOpen d rc :: t' =>
      match held with
      | None => handles_closed (if rc =? 0 then Some d else None) t'
      | Some _ => false
      end
  | EvClose h :: t' =>
      match held with
      | Some d => Nat.eqb h d && handles_closed None t'
      | None => false
      end
  | EvGetDeviceDescriptor _ :: t' =>
      match held with
      | None => handles_closed None t'
      | Some _ => false
      end
  | _ :: t' => handles_closed held t'
  end.

(** The part of a trace after [libusb_get_device_list]. *)
Fixpoint after_device_list (t : list event) : list event :=
  match t with
  | [] => []
  | EvGetDeviceList :: t' => t'
  | _ :: t' => after_device_list t'
  end.

(** Every value the code can return satisfies [Q]. *)
Definition ends_with {A : Type} (Q : A -> Prop) (m : M A) : Prop :=
  forall a : A, result m = Ret a -> Q a.

(** ** Concrete devices, matchers and callers *)

(** A 9-byte HID descriptor announcing a report descriptor of
    [lo + 256 * hi] bytes. *)
Definition hid_header (lo hi : byte) : list byte :=
  [x09; x21; x10; x01; x00; x01; x22; lo; hi].

(** A device that answers GET_DESCRIPTOR for its HID and report descriptors
    and stalls every other control request. *)
Definition sample_control (hid report : xfer) (bmRequestType bRequest wValue
  wIndex : Z) : xfer :=
  if (bRequest =? LIBUSB_REQUEST_GET_DESCRIPTOR)
     && (Z.shiftr wValue 8 =? LIBUSB_DT_HID) then hid
  else if (bRequest =? LIBUSB_REQUEST_GET_DESCRIPTOR)
          && (Z.shiftr wValue 8 =? LIBUSB_DT_REPORT) then report
  else XferErr LIBUSB_ERROR_PIPE.

Definition sample_device (vid bcd : Z) (hid : xfer) (cfgd : cfg_result)
  (report : xfer) (claim : nat -> Z) : usb_device :=
  mkUsbDevice (LIBUSB_SUCCESS, mkDevDesc vid 0xffff bcd 0 0 0) 0 1
    (fun _ => StrErr LIBUSB_ERROR_PIPE) 0 0 claim
    (fun _ => LIBUSB_ERROR_NOT_FOUND) (fun _ => LIBUSB_SUCCESS)
    (sample_control hid report) cfgd (LIBUSB_ERROR_PIPE, [])
    LIBUSB_SUCCESS (fun _ => true).

(** A device whose interface can never be claimed. *)
Definition busy_device : usb_device :=
  sample_device 0x051d 0x0106 (XferErr LIBUSB_ERROR_PIPE)
    (CfgErr LIBUSB_ERROR_NOT_FOUND) (XferErr LIBUSB_ERROR_PIPE)
    (fun _ => LIBUSB_ERROR_BUSY).

(** A build with every kernel-driver function of libusb, on Linux, without
    the option [usb_set_altinterface]. *)
Definition sample_config : config :=
  mkConfig true true true true None (fun _ => None).


(** A matcher node on the vendor id, as the exact matchers of the drivers
    are. *)
Definition vendor_matcher (vid : Z) : USBDeviceMatcher_t :=
  mkMatcher Z (fun d v => if VendorID d =? v then 1 else 0) vid.

(** The identity [nut_libusb_open] collects for a [sample_device]. *)
Definition sample_identity (vid bcd : Z) : USBDevice_t :=
  mkUSBDevice vid 0xffff None None None (Some "001") bcd.

Definition claim_ok : nat -> Z := fun _ => LIBUSB_SUCCESS.

(** A 4-byte report descriptor. *)
Definition sample_report : list byte := [x05; x84; x09; x04].

(** An APC unit: the HID descriptor announces 4 bytes; neither the vendor id
    nor the release code is one of the special values. *)
Definition apc_device : usb_device :=
  sample_device 0x051d 0x0106 (XferData (hid_header x04 x00))
    (CfgExtra (hid_header x04 x00)) (XferData sample_report) claim_ok.

(** An Eaton unit of release 2.02: 3 bytes announced to the first method,
    4 bytes in the extra bytes of the interface descriptor. *)
Definition eaton_202_device : usb_device :=
  sample_device 0x463 0x0202 (XferData (hid_header x03 x00))
    (CfgExtra (hid_header x04 x00)) (XferData sample_report) claim_ok.


(** A device that gives no HID descriptor. *)
Definition mute_device : usb_device :=
  sample_device 0x051d 0x0106 (XferErr LIBUSB_ERROR_PIPE)
    (CfgExtra (hid_header x04 x00)) (XferData sample_report) claim_ok.

(** A device announcing a report descriptor of 0x2000 = 8192 bytes. *)
Definition oversize_device : usb_device :=
  sample_device 0x051d 0x0106 (XferData (hid_header x00 x20))
    (CfgExtra (hid_header x00 x20)) (XferData sample_report) claim_ok.

Definition accept_all : callback_t := fun _ _ _ _ => 1.

Definition fresh_caller : caller := mkCaller None zero_device.

(** A caller's record left by an earlier candidate. *)
Definition stale_caller : caller :=
  mkCaller None
    (mkUSBDevice 0x463 0xffff (Some "EATON") (Some "Ellipse ECO")
       (Some "000000000") (Some "002") 0x0202).

(** ** Vocabulary of the further properties *)

Definition is_clear_halt (e : event) : bool :=
  match e with EvClearHalt _ _ => true | _ => false end.

Definition is_set_alt (e : event) : bool :=
  match e with EvSetAlt _ _ => true | _ => false end.

Definition is_control (e : event) : bool :=
  match e with EvControl _ _ _ _ _ _ => true | _ => false end.

Definition is_free_device_list (e : event) : bool :=
  match e with EvFreeDeviceList => true | _ => false end.

Definition is_get_device_list (e : event) : bool :=
  match e with EvGetDeviceList => true | _ => false end.

(** An event that goes to a device on the bus. *)
Definition is_bus_event (e : event) : bool :=
  match e with
  | EvControl _ _ _ _ _ _ | EvGetString _ _ | EvInterrupt _ _ _ _
  | EvClearHalt _ _ | EvClaim _ _ | EvDetach _ _ | EvSetAlt _ _
  | EvKernelDriverActive _ | EvSetAutoDetach _ | EvGetConfigDescriptor _
  | EvOpen _ _ | EvClose _ | EvGetDeviceDescriptor _ | EvGetBusNumber _ => true
  | _ => false
  end.

(** ** Further concrete devices *)

(** A device with a 6-byte interrupt report, a 3-byte feature report and
    strings. *)
Definition talking_device : usb_device :=
  mkUsbDevice (LIBUSB_SUCCESS, mkDevDesc 0x051d 0x0002 0x0106 1 2 0) 0 3
    (fun i => if i =? 1 then StrData "American Power Conversion"
              else if i =? 2 then StrData "Back-UPS"
              else StrErr LIBUSB_ERROR_INVALID_PARAM)
    1 LIBUSB_ERROR_NOT_SUPPORTED claim_ok
    (fun _ => LIBUSB_SUCCESS) (fun _ => LIBUSB_SUCCESS)
    (fun _ bRequest _ _ =>
       if bRequest =? 0x01 then XferData [x0c; x64; x00]
       else if bRequest =? 0x09 then XferData [x0c; x01]
       else XferErr LIBUSB_ERROR_PIPE)
    (CfgErr LIBUSB_ERROR_NOT_FOUND)
    (LIBUSB_SUCCESS, [x01; x02; x03; x04; x05; x06])
    LIBUSB_SUCCESS (fun _ => true).

(** A device that answers nothing in time. *)
Definition silent_device : usb_device :=
  mkUsbDevice (LIBUSB_SUCCESS, mkDevDesc 0x051d 0x0002 0x0106 1 0 0) 0 3
    (fun _ => StrErr LIBUSB_ERROR_TIMEOUT) 0 0 claim_ok
    (fun _ => LIBUSB_SUCCESS) (fun _ => LIBUSB_ERROR_TIMEOUT)
    (fun _ _ _ _ => XferErr LIBUSB_ERROR_TIMEOUT)
    (CfgErr LIBUSB_ERROR_TIMEOUT) (LIBUSB_ERROR_TIMEOUT, [])
    LIBUSB_ERROR_TIMEOUT (fun _ => true).

(** A build with none of the kernel-driver functions of libusb. *)
Definition plain_config : config :=
  mkConfig false false false true None (fun _ => None).

(** A device whose interface is busy for the first two claim attempts,
    and whose kernel driver cannot be detached. *)
Definition stubborn_device : usb_device :=
  mkUsbDevice (LIBUSB_SUCCESS, mkDevDesc 0x051d 0x0002 0x0106 0 0 0) 0 3
    (fun _ => StrErr LIBUSB_ERROR_PIPE) 1 LIBUSB_SUCCESS
    (fun attempt => if Nat.ltb attempt 2 then LIBUSB_ERROR_BUSY
                    else LIBUSB_SUCCESS)
    (fun _ => LIBUSB_ERROR_ACCESS) (fun _ => LIBUSB_SUCCESS)
    (fun _ _ _ _ => XferErr LIBUSB_ERROR_PIPE)
    (CfgErr LIBUSB_ERROR_NOT_FOUND) (LIBUSB_ERROR_TIMEOUT, [])
    LIBUSB_SUCCESS (fun _ => true).

Definition is_auto_detach_query (e : event) : bool :=
  match e with
  | EvKernelDriverActive _ | EvSetAutoDetach _ => true
  | _ => false
  end.

(** A configuration with [usb_set_altinterface = 300]; its [str_to_int]
    knows the strings of the examples. *)
Definition altinterface_config : config :=
  mkConfig true true true true (Some (Some "300"))
    (fun s => if String.eqb s "300" then Some 300
              else if String.eqb s "1" then Some 1 else None).

(** A device that answers the request for the HID descriptor with 4 bytes
    only. *)
Definition short_hid_device : usb_device :=
  sample_device 0x051d 0x0106 (XferData [x09; x21; x10; x01])
    (CfgErr LIBUSB_ERROR_NOT_FOUND) (XferData sample_report) claim_ok.

(** One descriptor of the list that the extra bytes hold: not empty, its
    first byte (bLength) being its length. *)
Definition well_formed_descriptor (d : list byte) : Prop :=
  d <> [] /\ byte_at d 0 = Z.of_nat (List.length d).

(** A descriptor the scan of the second method stops at: 9 bytes or more,
    of type HID. *)
Definition is_hid_descriptor (d : list byte) : bool :=
  Nat.leb 9 (List.length d) && (byte_at d 1 =? LIBUSB_DT_HID).

(** An Eaton unit of release 2.02 whose extra bytes start with a length
    byte 0. *)
Definition hanging_device : usb_device :=
  sample_device 0x463 0x0202 (XferData (hid_header x04 x00))
    (CfgExtra [x00; x21; x10; x01; x00; x01; x22; x1b; x00])
    (XferData sample_report) claim_ok.

(** A device that announces a report descriptor of 16 bytes and sends
    4. *)
Definition long_hid_device : usb_device :=
  sample_device 0x051d 0x0106 (XferData (hid_header x10 x00))
    (CfgErr LIBUSB_ERROR_NOT_FOUND) (XferData sample_report) claim_ok.

(** The descriptor index of the special case: 1 for vendor 0x463 with
    release 0x0202, 0 for any other device. *)
Definition special_index (cur : USBDevice_t) : Z :=
  if (VendorID cur =? 0x463) && (bcdDevice cur =? 0x0202) then 1 else 0.

(** The request for the HID descriptor, as the first method sends it. *)
Definition hid_request (h : nat) (hid_desc_index : Z) : event :=
  EvControl h IN_STANDARD_INTERFACE LIBUSB_REQUEST_GET_DESCRIPTOR
    (Z.shiftl LIBUSB_DT_HID 8 + hid_desc_index) usb_if_num 9.

(** What identity, matching and claim can do: everything of
    [pre_discovery_event] but the setting of the alternate interface and
    the notices of [upslogx]. *)
Definition no_set_alt_event (e : event) : bool :=
  match e with
  | EvFree _ | EvMemset | EvMalloc _ | EvStrdup _ | EvGetBusNumber _
  | EvGetString _ _ | EvMatch _ _ _ | EvKernelDriverActive _
  | EvSetAutoDetach _ | EvClaim _ _ | EvDetach _ _
  | EvDebugx _ _ | EvFreeDeviceList | EvFatal _ => true
  | _ => false
  end.

(** A device examined while no memory can be allocated. *)
Definition starved_device : usb_device :=
  mkUsbDevice (LIBUSB_SUCCESS, mkDevDesc 0x051d 0x0002 0x0106 1 2 3) 0 1
    (fun _ => StrData "APC") 0 0 claim_ok
    (fun _ => LIBUSB_SUCCESS) (fun _ => LIBUSB_SUCCESS)
    (fun _ _ _ _ => XferErr LIBUSB_ERROR_PIPE)
    (CfgErr LIBUSB_ERROR_NOT_FOUND) (LIBUSB_ERROR_TIMEOUT, [])
    LIBUSB_SUCCESS (fun _ => false).

(** What one identity string becomes: the null pointer when the index in
    the device descriptor is 0, when the read fails and when the string is
    empty; the string read otherwise. *)
Definition identity_string (udev : handle) (index : Z) : option string :=
  if index =? 0 then None
  else match dev_string (h_dev udev) index with
       | StrData EmptyString => None
       | StrData s => Some s
       | StrErr _ => None
       end.

(** The number of calls of [libusb_free_device_list] in a trace. *)
Definition frees (t : list event) : nat :=
  List.length (filter is_free_device_list t).

(** The code frees the device list [n a] times when it returns [a], once
    when it ends the process, and not at all while it loops; the call whose
    behaviour is undefined is the one call of
    [libusb_free_device_list]. *)
Definition releases {A : Type} (n : A -> nat) (m : M A) : Prop :=
  match result m with
  | Ret a => frees (trace m) = n a
  | Exit _ => frees (trace m) = 1%nat
  | Spin => frees (trace m) = 0%nat
  | Undefined => frees (trace m) = 1%nat
  end.

(** The device cannot be opened: its descriptor cannot be read, or
    [libusb_open] fails. *)
Definition cannot_be_opened (device : usb_device) : Prop :=
  fst (dev_descriptor device) <> LIBUSB_SUCCESS \/ dev_open device <> 0.

(** What the loop body does with a device that cannot be opened. *)
Definition is_probe_event (e : event) : bool :=
  match e with
  | EvDebugx _ _ | EvGetDeviceDescriptor _ | EvOpen _ _ => true
  | _ => false
  end.

(** A device whose descriptor cannot be read, and one that cannot be
    opened. *)
Definition unreadable_device : usb_device :=
  mkUsbDevice (LIBUSB_ERROR_IO, mkDevDesc 0 0 0 0 0 0) 0 1
    (fun _ => StrErr LIBUSB_ERROR_IO) 0 0 claim_ok
    (fun _ => LIBUSB_SUCCESS) (fun _ => LIBUSB_SUCCESS)
    (fun _ _ _ _ => XferErr LIBUSB_ERROR_IO)
    (CfgErr LIBUSB_ERROR_IO) (LIBUSB_ERROR_IO, [])
    LIBUSB_ERROR_IO (fun _ => true).

Definition forbidden_device : usb_device :=
  mkUsbDevice (LIBUSB_SUCCESS, mkDevDesc 0x1d6b 0x0002 0x0510 3 2 1)
    LIBUSB_ERROR_ACCESS 1
    (fun _ => StrErr LIBUSB_ERROR_IO) 0 0 claim_ok
    (fun _ => LIBUSB_SUCCESS) (fun _ => LIBUSB_SUCCESS)
    (fun _ _ _ _ => XferErr LIBUSB_ERROR_IO)
    (CfgErr LIBUSB_ERROR_IO) (LIBUSB_ERROR_IO, [])
    LIBUSB_ERROR_IO (fun _ => true).

(** ** Vocabulary of the exhausted scan *)

(** The loop body gives the candidate up: it ends in [continue] or at the
    label [next_device]. *)
Definition rejected (v : verdict) : bool :=
  match v with
  | Continue | NextDevice _ => true
  | Return _ => false
  end.

(** The loop looks at every device of the list and accepts none: each
    candidate in turn is given up.  The value is the caller's record as the
    last candidate leaves it; [None] when a candidate is accepted or the
    loop is left in another way. *)
Fixpoint scans_without_acceptance (cfg : config)
  (matcher : list USBDeviceMatcher_t) (callback : option callback_t)
  (devlist : list usb_device) (devnum : nat) (c : caller) : option caller :=
  match devlist with
  | [] => Some c
  | device :: rest =>
      match result (examine cfg matcher callback devnum device c) with
      | Ret (v, c') =>
          if rejected v
          then scans_without_acceptance cfg matcher callback rest (S devnum)
                 c'
          else None
      | _ => None
      end
  end.

(** * Properties *)

(** ** The monad *)

Lemma trace_bind {A B : Type} (m : M A) (f : A -> M B) :
  trace (bind m f) =
  match result m with
  | Ret a => trace m ++ trace (f a)
  | _ => trace m
  end.
Proof. unfold bind, trace, result. destruct (snd m); reflexivity. Qed.

Lemma result_bind {A B : Type} (m : M A) (f : A -> M B) :
  result (bind m f) =
  match result m with
  | Ret a => result (f a)
  | Exit s => Exit s
  | Spin => Spin
  | Undefined => Undefined
  end.
Proof. unfold bind, trace, result. destruct (snd m); reflexivity. Qed.

Lemma trace_bind_ret {A B : Type} (m : M A) (f : A -> M B) (a : A) :
  result m = Ret a -> trace (bind m f) = trace m ++ trace (f a).
Proof. intros H. rewrite trace_bind, H. reflexivity. Qed.

Lemma result_bind_ret {A B : Type} (m : M A) (f : A -> M B) (a : A) :
  result m = Ret a -> result (bind m f) = result (f a).
Proof. intros H. rewrite result_bind, H. reflexivity. Qed.

Lemma Forall_trace_bind {A B : Type} (P : event -> Prop) (m : M A)
  (f : A -> M B) :
  Forall P (trace m) -> (forall a, Forall P (trace (f a))) ->
  Forall P (trace (bind m f)).
Proof.
  intros Hm Hf. rewrite trace_bind. destruct (result m); auto.
  apply Forall_app. split; auto.
Qed.

Lemma Forall_trace_emit (P : event -> Prop) (e : event) :
  P e -> Forall P (trace (emit e)).
Proof. intros H. repeat constructor. exact H. Qed.

Lemma Forall_trace_ret {A : Type} (P : event -> Prop) (a : A) :
  Forall P (trace (ret a)).
Proof. constructor. Qed.

(** ** Error classifier *)

Lemma nut_usb_logerror_result (r : Z) (desc : string) :
  result (nut_usb_logerror r desc) = Ret r.
Proof.
  unfold nut_usb_logerror.
  destruct (r >=? 0); [reflexivity|].
  match goal with |- context [if ?b then _ else _] => destruct b end;
    reflexivity.
Qed.

(** C9. The error classifier returns its status code unchanged.  A
    non-negative code produces no output; the codes INVALID_PARAM,
    INTERRUPTED, NO_MEM, TIMEOUT and OVERFLOW produce one message on the
    level-2 debug channel [upsdebugx] and nothing else; the codes BUSY,
    NO_DEVICE, ACCESS, IO, NOT_FOUND, PIPE, NOT_SUPPORTED and OTHER, like any
    other negative code, produce one message through [upslogx] at
    [LOG_DEBUG] and nothing else. *)
Theorem nut_usb_logerror_classifies (r : Z) (desc : string) :
  result (nut_usb_logerror r desc) = Ret r /\
  (0 <= r -> trace (nut_usb_logerror r desc) = []) /\
  (In r low_severity_codes ->
   trace (nut_usb_logerror r desc) = [EvDebugx 2 "%s: %s."]) /\
  (In r always_on_codes ->
   trace (nut_usb_logerror r desc) = [EvLogx LOG_DEBUG "%s: %s."]) /\
  (r < 0 -> ~ In r low_severity_codes ->
   trace (nut_usb_logerror r desc) = [EvLogx LOG_DEBUG "%s: %s."]).
Proof.
  split; [apply nut_usb_logerror_result|].
  unfold nut_usb_logerror, low_severity_codes, always_on_codes.
  repeat split.
  - intros H. destruct (Z.geb_spec r 0); [reflexivity|lia].
  - intros H. simpl in H.
    repeat (destruct H as [H|H]; [subst r; reflexivity|]). contradiction.
  - intros H. simpl in H.
    repeat (destruct H as [H|H]; [subst r; reflexivity|]). contradiction.
  - intros Hneg Hlow. destruct (Z.geb_spec r 0); [lia|].
    match goal with |- context [if ?b then _ else _] => destruct b eqn:E end;
      [|reflexivity].
    exfalso. apply Hlow. simpl.
    repeat (apply orb_prop in E; destruct E as [E|E]);
      apply Z.eqb_eq in E; auto 6.
Qed.

Lemma nut_usb_logerror_classifies_witness :
  trace (nut_usb_logerror 5 "f") = [] /\
  trace (nut_usb_logerror LIBUSB_ERROR_TIMEOUT "f") = [EvDebugx 2 "%s: %s."] /\
  trace (nut_usb_logerror LIBUSB_ERROR_NO_DEVICE "f")
  = [EvLogx LOG_DEBUG "%s: %s."] /\
  trace (nut_usb_logerror (-42) "f") = [EvLogx LOG_DEBUG "%s: %s."].
Proof.
  split.
  { apply (proj1 (proj2 (nut_usb_logerror_classifies 5 "f"))). lia. }
  split.
  { apply (proj1 (proj2 (proj2
             (nut_usb_logerror_classifies LIBUSB_ERROR_TIMEOUT "f")))).
    simpl. tauto. }
  split.
  { apply (proj1 (proj2 (proj2 (proj2
             (nut_usb_logerror_classifies LIBUSB_ERROR_NO_DEVICE "f"))))).
    simpl. tauto. }
  apply (proj2 (proj2 (proj2 (proj2
           (nut_usb_logerror_classifies (-42) "f"))))).
  - lia.
  - simpl. unfold LIBUSB_ERROR_INVALID_PARAM, LIBUSB_ERROR_INTERRUPTED,
      LIBUSB_ERROR_NO_MEM, LIBUSB_ERROR_TIMEOUT, LIBUSB_ERROR_OVERFLOW.
    intros H. repeat (destruct H as [H|H]; [discriminate H|]). exact H.
Defined.

(** ** Transfer primitives *)

(** C4. On a live handle, a feature-report request answered by a protocol
    stall makes [nut_libusb_get_report] and [nut_libusb_set_report] return 0
    (no byte, no error code); the classifier is not called, nothing is
    logged for the stall. *)
Theorem feature_report_stall_is_empty_success (h : handle)
  (ReportId ReportSize : Z) :
  (get_report_stalls h ReportId ->
   result (nut_libusb_get_report (Some h) ReportId ReportSize) = Ret (0, [])
   /\ trace (nut_libusb_get_report (Some h) ReportId ReportSize)
      = [EvDebugx 4 "Entering libusb_get_report";
         EvControl (h_id h) IN_CLASS_INTERFACE 0x01
           (to_uint16 (ReportId + Z.shiftl 0x03 8)) usb_if_num
           (to_uint16 ReportSize)]) /\
  (set_report_stalls h ReportId ->
   result (nut_libusb_set_report (Some h) ReportId ReportSize) = Ret 0
   /\ trace (nut_libusb_set_report (Some h) ReportId ReportSize)
      = [EvControl (h_id h) OUT_CLASS_INTERFACE 0x09
           (to_uint16 (ReportId + Z.shiftl 0x03 8)) usb_if_num
           (to_uint16 ReportSize)]).
Proof.
  unfold get_report_stalls, set_report_stalls, nut_libusb_get_report,
    nut_libusb_set_report, libusb_control_transfer.
  fold IN_CLASS_INTERFACE OUT_CLASS_INTERFACE.
  unfold bind, emit, upsdebugx, ret, trace, result.
  split; intros H; cbn [fst snd app]; rewrite H; cbn [fst snd app];
    split; reflexivity.
Qed.

Lemma feature_report_stall_is_empty_success_witness :
  result (nut_libusb_get_report (Some (mkHandle 0 busy_device)) 0x10 8)
  = Ret (0, []) /\
  result (nut_libusb_set_report (Some (mkHandle 0 busy_device)) 0x10 8)
  = Ret 0.
Proof.
  split.
  - apply (proj1 (feature_report_stall_is_empty_success
                    (mkHandle 0 busy_device) 0x10 8)).
    reflexivity.
  - apply (proj2 (feature_report_stall_is_empty_success
                    (mkHandle 0 busy_device) 0x10 8)).
    reflexivity.
Defined.

(** ** Interrupt read *)

(** C3. When the interrupt transfer of [nut_libusb_get_interrupt] returns
    the stall status, [libusb_clear_halt] is called on endpoint 0x81 and
    the status it returns is given to the classifier and returned. *)
Theorem get_interrupt_stall_clears_halt (h : handle) (bufsize timeout : Z)
  (data : list byte) :
  dev_interrupt (h_dev h) = (LIBUSB_ERROR_PIPE, data) ->
  trace (nut_libusb_get_interrupt (Some h) bufsize timeout)
  = [EvInterrupt (h_id h) 0x81 bufsize timeout; EvClearHalt (h_id h) 0x81]
    ++ trace (nut_usb_logerror (dev_clear_halt (h_dev h))
                "nut_libusb_get_interrupt")
  /\ result (nut_libusb_get_interrupt (Some h) bufsize timeout)
     = Ret (dev_clear_halt (h_dev h), firstn (Z.to_nat bufsize) data).
Proof.
  intros H.
  unfold nut_libusb_get_interrupt, libusb_interrupt_transfer,
    libusb_clear_halt.
  rewrite H.
  pose proof (nut_usb_logerror_result (dev_clear_halt (h_dev h))
                "nut_libusb_get_interrupt") as Hr.
  unfold result in Hr.
  unfold bind, emit, ret, trace, result; cbn [fst snd app].
  change (LIBUSB_ERROR_PIPE =? LIBUSB_SUCCESS) with false.
  rewrite Z.eqb_refl. cbn [fst snd app]. rewrite Hr. cbn [fst snd app].
  rewrite app_nil_r. split; reflexivity.
Qed.

Lemma get_interrupt_stall_clears_halt_witness :
  trace (nut_libusb_get_interrupt (Some (mkHandle 0 busy_device)) 8 250)
  = [EvInterrupt 0 0x81 8 250; EvClearHalt 0 0x81]
  /\ result (nut_libusb_get_interrupt (Some (mkHandle 0 busy_device)) 8 250)
     = Ret (LIBUSB_SUCCESS, []).
Proof.
  apply (get_interrupt_stall_clears_halt (mkHandle 0 busy_device) 8 250 []).
  reflexivity.
Defined.

(** ** Interface acquisition *)

Lemma claim_retry_spec (udev : handle) (retries : nat) :
  forall attempt : nat,
  exists (r : Z) (k : nat),
    result (claim_retry udev retries attempt) = Ret r /\
    (k <= retries)%nat /\
    filter is_claim (trace (claim_retry udev retries attempt))
    = map (EvClaim (h_id udev)) (seq attempt (S k)) /\
    filter is_detach (trace (claim_retry udev retries attempt))
    = map (EvDetach (h_id udev)) (seq attempt k) /\
    (r <> LIBUSB_SUCCESS ->
     k = retries /\ r = dev_claim (h_dev udev) (attempt + retries)) /\
    (r = LIBUSB_SUCCESS -> dev_claim (h_dev udev) (attempt + k) = LIBUSB_SUCCESS).
Proof.
  induction retries as [|n IH]; intros a.
  - exists (dev_claim (h_dev udev) a), 0%nat.
    rewrite Nat.add_0_r.
    unfold claim_retry, libusb_claim_interface, upsdebugx, emit, ret, bind,
      trace, result; cbn [fst snd].
    destruct (Z.eqb_spec (dev_claim (h_dev udev) a) LIBUSB_SUCCESS) as [E|E];
      cbn [negb fst snd app filter is_claim is_detach map seq];
      repeat split; auto; try lia; try congruence.
  - destruct (IH (S a)) as (r & k & Hr & Hk & Hc & Hd & Hf & Hs).
    unfold trace, result in *.
    destruct (Z.eqb_spec (dev_claim (h_dev udev) a) LIBUSB_SUCCESS) as [E|E].
    + exists LIBUSB_SUCCESS, 0%nat.
      rewrite Nat.add_0_r.
      cbn [claim_retry]. unfold libusb_claim_interface, emit, ret, bind.
      cbn [fst snd]. rewrite E. cbn.
      repeat split; auto; try lia; try congruence.
    + exists r, (S k).
      cbn [claim_retry].
      unfold libusb_claim_interface, libusb_detach_kernel_driver, upsdebugx,
        emit, ret, bind; cbn [fst snd].
      destruct (Z.eqb_spec (dev_claim (h_dev udev) a) LIBUSB_SUCCESS);
        [contradiction|].
      cbn [negb fst snd].
      replace (a + S n)%nat with (S a + n)%nat by lia.
      replace (a + S k)%nat with (S a + k)%nat by lia.
      destruct (dev_detach (h_dev udev) a =? LIBUSB_SUCCESS);
        [|destruct (dev_detach (h_dev udev) a =? LIBUSB_ERROR_NOT_FOUND)];
        cbn [fst snd]; rewrite Hr;
        cbn [app filter is_claim is_detach]; rewrite Hc, Hd;
        (repeat split; auto; try lia;
         intros Hne; destruct (Hf Hne) as [-> ->]; reflexivity).
Qed.

(** C5. On the explicit-detach path [nut_usb_claim_interface] returns: its
    claim attempts are numbered 0, 1, ..., k and its detach calls
    0, ..., k-1 with k <= 3, so at most 3 detach-and-retry cycles follow a
    failing claim; a result other than success is the status of the fourth
    and last claim attempt, after exactly 3 cycles. *)
Theorem claim_interface_bounded_retries (cfg : config) (udev : handle) :
  HAVE_LIBUSB_DETACH_KERNEL_DRIVER cfg = true ->
  exists (r : Z) (k : nat),
    result (nut_usb_claim_interface cfg udev) = Ret r /\
    (k <= 3)%nat /\
    filter is_claim (trace (nut_usb_claim_interface cfg udev))
    = map (EvClaim (h_id udev)) (seq 0 (S k)) /\
    filter is_detach (trace (nut_usb_claim_interface cfg udev))
    = map (EvDetach (h_id udev)) (seq 0 k) /\
    (r <> LIBUSB_SUCCESS -> k = 3%nat /\ r = dev_claim (h_dev udev) 3) /\
    (r = LIBUSB_SUCCESS -> dev_claim (h_dev udev) k = LIBUSB_SUCCESS).
Proof.
  intros Hcfg.
  destruct (claim_retry_spec udev 3 0) as (r & k & Hr & Hk & Hc & Hd & Hf & Hs).
  exists r, k.
  unfold nut_usb_claim_interface. rewrite Hcfg.
  set (pre := if HAVE_LIBUSB_KERNEL_DRIVER_ACTIVE cfg
                 && HAVE_LIBUSB_SET_AUTO_DETACH_KERNEL_DRIVER cfg
              then _ else _).
  assert (Hpre : result pre = Ret tt /\ filter is_claim (trace pre) = []
                 /\ filter is_detach (trace pre) = []).
  { unfold pre, libusb_kernel_driver_active,
      libusb_set_auto_detach_kernel_driver, upsdebugx, emit, ret, bind,
      trace, result.
    destruct (_ && _); cbn [fst snd]; [|auto].
    destruct (_ =? 1); cbn [fst snd]; [|auto].
    destruct (negb _); cbn; auto. }
  destruct Hpre as (Hp1 & Hp2 & Hp3).
  rewrite (result_bind_ret _ _ tt Hp1), (trace_bind_ret _ _ tt Hp1).
  rewrite !filter_app, Hp2, Hp3. cbn [app].
  split; [exact Hr|]. split; [exact Hk|]. split; [exact Hc|].
  split; [exact Hd|]. split; [exact Hf|exact Hs].
Qed.

Lemma claim_interface_bounded_retries_witness :
  exists (r : Z) (k : nat),
    result (nut_usb_claim_interface sample_config (mkHandle 0 busy_device))
    = Ret r /\
    (k <= 3)%nat /\
    filter is_claim
      (trace (nut_usb_claim_interface sample_config (mkHandle 0 busy_device)))
    = map (EvClaim 0) (seq 0 (S k)) /\
    filter is_detach
      (trace (nut_usb_claim_interface sample_config (mkHandle 0 busy_device)))
    = map (EvDetach 0) (seq 0 k) /\
    (r <> LIBUSB_SUCCESS -> k = 3%nat /\ r = LIBUSB_ERROR_BUSY) /\
    (r = LIBUSB_SUCCESS -> LIBUSB_ERROR_BUSY = LIBUSB_SUCCESS).
Proof.
  apply (claim_interface_bounded_retries sample_config
           (mkHandle 0 busy_device)).
  reflexivity.
Defined.

(** ** Matcher chain *)




(** ** Stepping through the code *)

Lemma result_bind_emit {B : Type} (e : event) (f : unit -> M B) :
  result (bind (emit e) f) = result (f tt).
Proof. reflexivity. Qed.

Lemma trace_bind_emit {B : Type} (e : event) (f : unit -> M B) :
  trace (bind (emit e) f) = e :: trace (f tt).
Proof. reflexivity. Qed.

Lemma result_bind_pure {A B : Type} (a : A) (f : A -> M B) :
  result (bind (ret a) f) = result (f a).
Proof. reflexivity. Qed.

Lemma trace_bind_pure {A B : Type} (a : A) (f : A -> M B) :
  trace (bind (ret a) f) = trace (f a).
Proof. reflexivity. Qed.

Lemma result_bind_exit {A B : Type} (m : M A) (f : A -> M B) (s : Z) :
  result m = Exit s -> result (bind m f) = Exit s.
Proof. intros H. rewrite result_bind, H. reflexivity. Qed.

Lemma trace_bind_exit {A B : Type} (m : M A) (f : A -> M B) (s : Z) :
  result m = Exit s -> trace (bind m f) = trace m.
Proof. intros H. rewrite trace_bind, H. reflexivity. Qed.

Ltac mstep :=
  unfold upsdebugx, upslogx, upsdebug_hex, libusb_free_device_list,
    libusb_close;
  repeat (rewrite ?result_bind_emit, ?trace_bind_emit, ?result_bind_pure,
            ?trace_bind_pure; cbv beta).

(** ** The events of each block *)

Lemma Forall_trace_exit {A : Type} (P : event -> Prop) (e : event) (s : Z) :
  P e -> Forall P (trace (([e], Exit s) : M A)).
Proof. intros H. repeat constructor. exact H. Qed.

Ltac trace_forall :=
  cbv zeta;
  unfold upsdebugx, upslogx, upsdebug_hex, libusb_free_device_list,
    libusb_close, oom_error, fatalx, fatal_with_errno;
  repeat first
    [ apply Forall_trace_ret
    | apply Forall_trace_emit; reflexivity
    | apply Forall_trace_exit; reflexivity
    | apply Forall_trace_bind; [|intros]
    | match goal with
      | |- Forall _ (trace (if ?b then _ else _)) => destruct b
      | |- Forall _ (trace (match ?x with _ => _ end)) => destruct x
      end
    | assumption ].

Lemma read_identity_string_events (udev : handle) (index : Z) (site : nat) :
  Forall (fun e => pre_discovery_event e = true)
    (trace (read_identity_string udev index site)).
Proof.
  unfold read_identity_string, libusb_get_string_descriptor_ascii.
  trace_forall.
Qed.

Lemma collect_identity_events (udev : handle) (devnum : nat)
  (dev_desc : libusb_device_descriptor) (cur : USBDevice_t) :
  Forall (fun e => pre_discovery_event e = true)
    (trace (collect_identity udev devnum dev_desc cur)).
Proof.
  pose proof (read_identity_string_events udev) as Hs.
  unfold collect_identity, libusb_get_bus_number.
  trace_forall; apply Hs.
Qed.

Lemma match_chain_events (cur : USBDevice_t) (m : list USBDeviceMatcher_t) :
  forall node : nat,
  Forall (fun e => pre_discovery_event e = true)
    (trace (match_chain m node cur)).
Proof.
  induction m as [|n next IH]; intros node; cbn [match_chain].
  - trace_forall.
  - specialize (IH (S node)). trace_forall.
Qed.

Lemma claim_retry_events (udev : handle) (retries : nat) :
  forall attempt : nat,
  Forall (fun e => pre_discovery_event e = true)
    (trace (claim_retry udev retries attempt)).
Proof.
  induction retries as [|n IH]; intros attempt; cbn [claim_retry];
    unfold libusb_claim_interface, libusb_detach_kernel_driver.
  - trace_forall.
  - specialize (IH (S attempt)). trace_forall.
Qed.

Lemma nut_usb_claim_interface_events (cfg : config) (udev : handle) :
  Forall (fun e => pre_discovery_event e = true)
    (trace (nut_usb_claim_interface cfg udev)).
Proof.
  pose proof (claim_retry_events udev 3 0) as Hc.
  unfold nut_usb_claim_interface, libusb_kernel_driver_active,
    libusb_set_auto_detach_kernel_driver, libusb_claim_interface.
  trace_forall.
Qed.

Lemma nut_usb_set_altinterface_events (cfg : config) (udev : handle) :
  Forall (fun e => pre_discovery_event e = true)
    (trace (nut_usb_set_altinterface cfg udev)).
Proof.
  unfold nut_usb_set_altinterface, libusb_set_interface_alt_setting.
  trace_forall.
Qed.

Ltac case_if :=
  match goal with
  | |- context [if ?b then _ else _] => destruct b
  end.

Lemma returns_ret {A : Type} (a : A) : returns (ret a).
Proof. exists a. reflexivity. Qed.

Lemma returns_emit (e : event) : returns (emit e).
Proof. exists tt. reflexivity. Qed.

Lemma returns_bind {A B : Type} (m : M A) (f : A -> M B) :
  returns m -> (forall a, returns (f a)) -> returns (bind m f).
Proof.
  intros [a Ha] Hf. destruct (Hf a) as [b Hb]. exists b.
  rewrite (result_bind_ret _ _ _ Ha). exact Hb.
Qed.

Ltac returns_tac :=
  cbv zeta;
  unfold upsdebugx, upslogx, upsdebug_hex, libusb_free_device_list,
    libusb_close;
  repeat first
    [ apply returns_ret
    | apply returns_emit
    | apply returns_bind; [|intros]
    | match goal with
      | |- returns (if ?b then _ else _) => destruct b
      | |- returns (match ?x with _ => _ end) => destruct x
      end
    | assumption ].

Lemma nut_usb_set_altinterface_returns (cfg : config) (udev : handle) :
  returns (nut_usb_set_altinterface cfg udev).
Proof.
  unfold nut_usb_set_altinterface, libusb_set_interface_alt_setting.
  returns_tac.
Qed.

(** ** Descriptor discovery, block by block *)

Lemma choose_hid_desc_index_spec (cur : USBDevice_t) :
  exists idx : Z,
    result (choose_hid_desc_index cur) = Ret idx /\ (idx = 0 \/ idx = 1) /\
    Forall (fun e => pre_discovery_event e = true)
      (trace (choose_hid_desc_index cur)).
Proof.
  unfold choose_hid_desc_index.
  destruct (_ && _).
  - exists 1. split; [reflexivity|]. split; [auto|]. trace_forall.
  - exists 0. split; [reflexivity|]. split; [auto|]. trace_forall.
Qed.

Lemma libusb_control_transfer_returns (udev : handle)
  (bmRequestType bRequest wValue wIndex wLength : Z) :
  returns (libusb_control_transfer udev bmRequestType bRequest wValue wIndex
             wLength).
Proof. unfold libusb_control_transfer. returns_tac. Qed.

Lemma hid_method1_returns (udev : handle) (idx : Z) :
  returns (hid_method1 udev idx).
Proof.
  unfold hid_method1. returns_tac.
Qed.

(** The first method asks for the HID descriptor: none of its events is a
    fetch of the report descriptor or a read of the configuration. *)
Lemma hid_method1_events (udev : handle) (idx : Z) :
  idx = 0 \/ idx = 1 ->
  Forall (fun e => discovery_event e = true /\ is_report_fetch e = false
                   /\ is_get_config e = false /\ is_callback e = false)
    (trace (hid_method1 udev idx)).
Proof.
  intros Hidx.
  unfold hid_method1, libusb_control_transfer.
  trace_forall;
    try (apply Forall_trace_emit; repeat split; try reflexivity;
         destruct Hidx; subst idx; reflexivity);
    try (apply Forall_trace_emit; repeat split; reflexivity).
Qed.

Lemma byte_at_nonneg (p : list byte) (i : Z) : 0 <= byte_at p i.
Proof. unfold byte_at, byte_val. lia. Qed.

Lemma scan_extra_events (extra : list byte) (fuel : nat) :
  forall i : Z, Forall quiet (trace (scan_extra fuel extra i)).
Proof.
  induction fuel as [|fuel IH]; intros i; cbn [scan_extra].
  - constructor.
  - pose proof (IH (i + byte_at extra i)) as IH'.
    trace_forall;
      apply Forall_trace_emit; repeat split; reflexivity.
Qed.

(** With no length byte 0 at a position the loop can visit, the loop of
    the second method ends. *)
Lemma scan_extra_returns (extra : list byte) (fuel : nat) :
  (forall j, 0 <= j <= Z.of_nat (List.length extra) - 9 ->
             byte_at extra j <> 0) ->
  forall i : Z,
  0 <= i ->
  Z.max 0 (Z.of_nat (List.length extra) - 8 - i) < Z.of_nat fuel ->
  returns (scan_extra fuel extra i).
Proof.
  intros Hnz.
  induction fuel as [|fuel IH]; intros i Hi Hfuel; [lia|].
  cbn [scan_extra].
  destruct (Z.leb_spec i (Z.of_nat (List.length extra) - 9)) as [Hle|Hgt].
  - pose proof (byte_at_nonneg extra i) as Hb.
    pose proof (Hnz i (conj Hi Hle)) as Hs.
    assert (Hrec : returns (scan_extra fuel extra (i + byte_at extra i))).
    { apply IH; lia. }
    returns_tac.
  - returns_tac.
Qed.

Lemma scan_hid_descriptor_returns (extra : list byte) :
  (forall j, 0 <= j <= Z.of_nat (List.length extra) - 9 ->
             byte_at extra j <> 0) ->
  returns (scan_hid_descriptor extra).
Proof.
  intros Hnz. unfold scan_hid_descriptor.
  apply scan_extra_returns; [exact Hnz|lia|lia].
Qed.

(** The loop of the second method from a position with length byte 0 and
    no HID descriptor to stop at: it never ends. *)
Lemma scan_extra_zero_stride (extra : list byte) (i : Z) :
  i <= Z.of_nat (List.length extra) - 9 ->
  byte_at extra i = 0 ->
  forall fuel : nat, result (scan_extra fuel extra i) = Spin.
Proof.
  intros Hi Hz fuel. induction fuel as [|fuel IH]; [reflexivity|].
  cbn [scan_extra].
  destruct (Z.leb_spec i (Z.of_nat (List.length extra) - 9)); [|lia].
  mstep. rewrite Hz. cbn [Z.ltb Z.compare]. rewrite Z.add_0_r. exact IH.
Qed.

(** [Spin] is the model of a loop that does not end, never of a lack of
    fuel: when the loop started with the fuel of [scan_hid_descriptor]
    spins, it spins with any fuel. *)
Lemma scan_extra_spin_forever (extra : list byte) (fuel : nat) :
  forall i : Z,
  0 <= i ->
  Z.max 0 (Z.of_nat (List.length extra) - 8 - i) < Z.of_nat fuel ->
  result (scan_extra fuel extra i) = Spin ->
  forall fuel' : nat, result (scan_extra fuel' extra i) = Spin.
Proof.
  induction fuel as [|fuel IH]; intros i Hi Hfuel Hs; [lia|].
  cbn [scan_extra] in Hs.
  destruct (Z.leb_spec i (Z.of_nat (List.length extra) - 9)) as [Hle|Hgt];
    [|discriminate Hs].
  pose proof (byte_at_nonneg extra i) as Hb.
  destruct (Z.eq_dec (byte_at extra i) 0) as [Hz|Hnz].
  { apply scan_extra_zero_stride; assumption. }
  assert (Hnext : result (scan_extra fuel extra (i + byte_at extra i)) = Spin
                  -> forall fuel', result (scan_extra fuel' extra i) = Spin).
  { intros Hs' fuel'. destruct fuel' as [|fuel']; [reflexivity|].
    cbn [scan_extra].
    destruct (Z.leb_spec i (Z.of_nat (List.length extra) - 9)); [|lia].
    mstep.
    revert Hs. mstep. 
    destruct (byte_at extra i <? 9).
    - intros _. apply IH; [lia|lia|exact Hs'].
    - destruct (negb (byte_at extra (i + 1) =? LIBUSB_DT_HID)).
      + intros _. apply IH; [lia|lia|exact Hs'].
      + mstep. discriminate. }
  apply Hnext. revert Hs. mstep.
  destruct (byte_at extra i <? 9); [auto|].
  destruct (negb (byte_at extra (i + 1) =? LIBUSB_DT_HID)); [auto|].
  mstep. discriminate.
Qed.

Lemma scan_hid_descriptor_spin_forever (extra : list byte) :
  result (scan_hid_descriptor extra) = Spin ->
  forall fuel : nat, result (scan_extra fuel extra 0) = Spin.
Proof.
  unfold scan_hid_descriptor. apply scan_extra_spin_forever; lia.
Qed.

(** A length byte 0 in front of the extra bytes: the loop of the second
    method never ends. *)
Example scan_hid_descriptor_spins :
  result (scan_hid_descriptor
            [x00; x21; x10; x01; x00; x01; x22; x1b; x00]) = Spin.
Proof. reflexivity. Qed.

Example scan_hid_descriptor_finds :
  result (scan_hid_descriptor
            [x03; x0b; x00; x09; x21; x10; x01; x00; x01; x22; x1b; x02])
  = Ret (Some 539).
Proof. reflexivity. Qed.

Lemma hid_method2_skipped (devnum : nat) (device : usb_device)
  (cur : USBDevice_t) :
  skips_method2 cur = true ->
  hid_method2 devnum device cur
  = ([EvDebugx 2 "Eaton device v2.02. Skipping method 2 for retrieving HID descriptor."],
     Ret None).
Proof.
  unfold skips_method2, hid_method2. intros ->. reflexivity.
Qed.

Lemma hid_method2_attempted (devnum : nat) (device : usb_device)
  (cur : USBDevice_t) :
  skips_method2 cur = false ->
  exists t,
    trace (hid_method2 devnum device cur) = EvGetConfigDescriptor devnum :: t
    /\ Forall quiet t.
Proof.
  unfold skips_method2, hid_method2, libusb_get_config_descriptor.
  intros ->. cbn [negb andb].
  rewrite trace_bind_ret with (a := dev_config device) by reflexivity.
  eexists. split; [reflexivity|].
  pose proof (scan_extra_events) as Hscan.
  unfold scan_hid_descriptor.
  trace_forall; try apply Hscan;
    apply Forall_trace_emit; repeat split; reflexivity.
Qed.

Lemma is_report_fetch_report (h : nat) (idx len : Z) :
  idx = 0 \/ idx = 1 ->
  is_report_fetch (EvControl h IN_STANDARD_INTERFACE
     LIBUSB_REQUEST_GET_DESCRIPTOR (Z.shiftl LIBUSB_DT_REPORT 8 + idx)
     usb_if_num len) = true.
Proof. intros [->| ->]; reflexivity. Qed.

(** The fetches of the report descriptor that [fetch_report] issues: one,
    of the reconciled length, unless that length is missing or larger than
    the report buffer. *)
Lemma fetch_report_fetches (udev : handle) (cur : USBDevice_t) (idx : Z)
  (cb : callback_t) (g1 g2 : option Z) :
  idx = 0 \/ idx = 1 ->
  filter is_report_fetch (trace (fetch_report udev cur idx cb g1 g2)) =
  match choose_rdlen g1 g2 with
  | Some rdlen =>
      if rdlen >? MAX_REPORT_SIZE then []
      else [EvControl (h_id udev) IN_STANDARD_INTERFACE
              LIBUSB_REQUEST_GET_DESCRIPTOR
              (Z.shiftl LIBUSB_DT_REPORT 8 + idx) usb_if_num rdlen]
  | None => []
  end.
Proof.
  intros Hidx.
  pose proof (is_report_fetch_report (h_id udev) idx) as Hf.
  unfold fetch_report.
  destruct (choose_rdlen g1 g2) as [rdlen|]; [|reflexivity].
  set (warn := match g1 with Some _ => _ | None => _ end).
  assert (Hw : result warn = Ret tt
               /\ filter is_report_fetch (trace warn) = []).
  { unfold warn. destruct g1, g2; try (split; reflexivity).
    case_if; split; reflexivity. }
  destruct Hw as [Hw1 Hw2].
  rewrite (trace_bind_ret _ _ _ Hw1), filter_app, Hw2. cbn [app].
  mstep. cbn [filter is_report_fetch].
  destruct (rdlen >? MAX_REPORT_SIZE); [reflexivity|].
  unfold libusb_control_transfer.
  destruct (dev_control (h_dev udev) IN_STANDARD_INTERFACE
              LIBUSB_REQUEST_GET_DESCRIPTOR
              (Z.shiftl LIBUSB_DT_REPORT 8 + idx) usb_if_num) eqn:E;
    unfold bind, emit, ret, trace, result; cbn [fst snd app filter];
    rewrite Hf by assumption;
    repeat (case_if; cbn [fst snd app filter is_report_fetch]);
    reflexivity.
Qed.

Lemma fetch_report_none (udev : handle) (cur : USBDevice_t) (idx : Z)
  (cb : callback_t) (g1 g2 : option Z) :
  choose_rdlen g1 g2 = None ->
  fetch_report udev cur idx cb g1 g2
  = ([EvDebugx 2 "Unable to retrieve any HID descriptor"],
     Ret (NextDevice udev)).
Proof. unfold fetch_report. intros ->. reflexivity. Qed.

Lemma fetch_report_oversize (udev : handle) (cur : USBDevice_t) (idx : Z)
  (cb : callback_t) (g1 g2 : option Z) (rdlen : Z) :
  choose_rdlen g1 g2 = Some rdlen ->
  MAX_REPORT_SIZE < rdlen ->
  result (fetch_report udev cur idx cb g1 g2) = Ret (NextDevice udev) /\
  filter is_callback (trace (fetch_report udev cur idx cb g1 g2)) = [].
Proof.
  intros Hc Hlen. unfold fetch_report. rewrite Hc.
  set (warn := match g1 with Some _ => _ | None => _ end).
  assert (Hw : result warn = Ret tt /\ filter is_callback (trace warn) = []).
  { unfold warn. destruct g1, g2; try (split; reflexivity).
    case_if; split; reflexivity. }
  destruct Hw as [Hw1 Hw2].
  rewrite (result_bind_ret _ _ _ Hw1), (trace_bind_ret _ _ _ Hw1), filter_app,
    Hw2.
  mstep.
  destruct (Z.gtb_spec rdlen MAX_REPORT_SIZE); [|lia].
  split; reflexivity.
Qed.

Lemma fetch_report_events (udev : handle) (cur : USBDevice_t) (idx : Z)
  (cb : callback_t) (g1 g2 : option Z) :
  Forall (fun e => discovery_event e = true /\ is_get_config e = false)
    (trace (fetch_report udev cur idx cb g1 g2)).
Proof.
  unfold fetch_report, libusb_control_transfer.
  trace_forall; apply Forall_trace_emit; split; reflexivity.
Qed.

(** [fetch_report] ends with [goto next_device] or with
    [return LIBUSB_SUCCESS]. *)
Lemma fetch_report_verdict (udev : handle) (cur : USBDevice_t) (idx : Z)
  (cb : callback_t) (g1 g2 : option Z) :
  result (fetch_report udev cur idx cb g1 g2) = Ret (NextDevice udev) \/
  result (fetch_report udev cur idx cb g1 g2) = Ret (Return LIBUSB_SUCCESS).
Proof.
  unfold fetch_report.
  destruct (choose_rdlen g1 g2) as [rdlen|]; [|left; reflexivity].
  set (warn := match g1 with Some _ => _ | None => _ end).
  assert (Hw : result warn = Ret tt).
  { unfold warn. destruct g1, g2; try reflexivity. case_if; reflexivity. }
  rewrite (result_bind_ret _ _ _ Hw). mstep.
  destruct (rdlen >? MAX_REPORT_SIZE); [left; reflexivity|].
  unfold libusb_control_transfer.
  destruct (dev_control (h_dev udev) IN_STANDARD_INTERFACE
              LIBUSB_REQUEST_GET_DESCRIPTOR
              (Z.shiftl LIBUSB_DT_REPORT 8 + idx) usb_if_num) eqn:E;
    unfold bind, emit, ret, trace, result; cbn [fst snd];
    repeat (case_if; cbn [fst snd]); auto.
Qed.

(** ** The loop body, step by step *)

Lemma descriptor_discovery_steps (udev : handle) (devnum : nat)
  (cur : USBDevice_t) (cb : callback_t) (idx : Z) (g1 : option Z) :
  result (choose_hid_desc_index cur) = Ret idx ->
  result (hid_method1 udev idx) = Ret g1 ->
  result (descriptor_discovery udev devnum cur cb)
  = match result (hid_method2 devnum (h_dev udev) cur) with
    | Ret g2 => result (fetch_report udev cur idx cb g1 g2)
    | Exit s => Exit s
    | Spin => Spin
    | Undefined => Undefined
    end /\
  trace (descriptor_discovery udev devnum cur cb)
  = trace (choose_hid_desc_index cur) ++ trace (hid_method1 udev idx)
    ++ match result (hid_method2 devnum (h_dev udev) cur) with
       | Ret g2 => trace (hid_method2 devnum (h_dev udev) cur)
                   ++ trace (fetch_report udev cur idx cb g1 g2)
       | _ => trace (hid_method2 devnum (h_dev udev) cur)
       end.
Proof.
  intros Hi H1. unfold descriptor_discovery.
  rewrite (result_bind_ret _ _ _ Hi), (trace_bind_ret _ _ _ Hi).
  rewrite (result_bind_ret _ _ _ H1), (trace_bind_ret _ _ _ H1).
  rewrite result_bind, trace_bind.
  split; [reflexivity|].
  destruct (result (hid_method2 devnum (h_dev udev) cur)); reflexivity.
Qed.

Lemma examine_discovery (cfg : config) (chain : list USBDeviceMatcher_t)
  (cb : callback_t) (devnum : nat) (device : usb_device) (c : caller)
  (cur : USBDevice_t) :
  reaches_discovery cfg chain devnum device c cur ->
  exists pre,
    Forall (fun e => pre_discovery_event e = true) pre /\
    trace (examine cfg chain (Some cb) devnum device c)
    = [EvDebugx 2 "Checking device %lu of %lu.";
       EvGetDeviceDescriptor devnum; EvOpen devnum 0]
      ++ pre
      ++ trace (descriptor_discovery (mkHandle devnum device) devnum cur cb)
    /\
    result (examine cfg chain (Some cb) devnum device c)
    = match result (descriptor_discovery (mkHandle devnum device) devnum cur
                      cb) with
      | Ret v => Ret (v, mkCaller (Some (mkHandle devnum device)) cur)
      | Exit s => Exit s
      | Spin => Spin
      | Undefined => Undefined
      end.
Proof.
  intros ((Hd & Ho & Hi) & Hm & Hc).
  destruct (nut_usb_set_altinterface_returns cfg (mkHandle devnum device))
    as [ra Ha].
  exists (trace (collect_identity (mkHandle devnum device) devnum
                   (snd (dev_descriptor device)) (curDevice c))
          ++ [EvDebugx 2 "Trying to match device"]
          ++ trace (match_chain chain 0 cur)
          ++ [EvDebugx 2 "Device matches"]
          ++ trace (nut_usb_claim_interface cfg (mkHandle devnum device))
          ++ [EvDebugx 2 "Claimed interface %d successfully"]
          ++ trace (nut_usb_set_altinterface cfg (mkHandle devnum device))).
  split.
  { apply Forall_app; split; [apply collect_identity_events|].
    apply Forall_app; split; [repeat constructor|].
    apply Forall_app; split; [apply match_chain_events|].
    apply Forall_app; split; [repeat constructor|].
    apply Forall_app; split; [apply nut_usb_claim_interface_events|].
    apply Forall_app; split; [repeat constructor|].
    apply nut_usb_set_altinterface_events. }
  unfold examine. mstep. rewrite Hd, Ho.
  change (negb (LIBUSB_SUCCESS =? LIBUSB_SUCCESS)) with false.
  change (negb (0 =? 0)) with false. cbv iota. mstep.
  rewrite (result_bind_ret _ _ _ Hi), (trace_bind_ret _ _ _ Hi). mstep.
  rewrite (result_bind_ret _ _ _ Hm), (trace_bind_ret _ _ _ Hm).
  cbn [negb]. mstep.
  rewrite (result_bind_ret _ _ _ Hc), (trace_bind_ret _ _ _ Hc).
  change (negb (LIBUSB_SUCCESS =? LIBUSB_SUCCESS)) with false. cbv iota.
  mstep.
  rewrite (result_bind_ret _ _ _ Ha), (trace_bind_ret _ _ _ Ha).
  rewrite result_bind, trace_bind.
  split.
  - destruct (result (descriptor_discovery _ _ _ _)); cbn [trace ret fst];
      rewrite ?app_nil_r;
      repeat (rewrite <- ?app_assoc; cbn [app]); reflexivity.
  - destruct (result (descriptor_discovery _ _ _ _)); reflexivity.
Qed.

(** What the labels at the end of the loop body do with the verdict of
    [examine]. *)
Lemma loop_body_next_device (cfg : config) (chain : list USBDeviceMatcher_t)
  (cb : option callback_t) (devnum : nat) (device : usb_device) (c c' : caller)
  (udev : handle) :
  result (examine cfg chain cb devnum device c) = Ret (NextDevice udev, c') ->
  result (loop_body cfg chain cb devnum device c) = Ret (None, c') /\
  trace (loop_body cfg chain cb devnum device c)
  = trace (examine cfg chain cb devnum device c) ++ [EvClose (h_id udev)].
Proof.
  intros H. unfold loop_body.
  rewrite (result_bind_ret _ _ _ H), (trace_bind_ret _ _ _ H).
  split; reflexivity.
Qed.

Lemma loop_body_trace (cfg : config) (chain : list USBDeviceMatcher_t)
  (cb : option callback_t) (devnum : nat) (device : usb_device) (c : caller) :
  trace (loop_body cfg chain cb devnum device c)
  = trace (examine cfg chain cb devnum device c)
    ++ match result (examine cfg chain cb devnum device c) with
       | Ret (NextDevice udev, _) => [EvClose (h_id udev)]
       | _ => []
       end.
Proof.
  unfold loop_body. rewrite trace_bind.
  destruct (result (examine cfg chain cb devnum device c))
    as [[[| udev | r] c']| | |]; cbn [fst snd]; rewrite ?app_nil_r; reflexivity.
Qed.

Lemma loop_body_result (cfg : config) (chain : list USBDeviceMatcher_t)
  (cb : option callback_t) (devnum : nat) (device : usb_device) (c : caller) :
  result (loop_body cfg chain cb devnum device c)
  = match result (examine cfg chain cb devnum device c) with
    | Ret (Return r, c') => Ret (Some r, c')
    | Ret (_, c') => Ret (None, c')
    | Exit s => Exit s
    | Spin => Spin
    | Undefined => Undefined
    end.
Proof.
  unfold loop_body. rewrite result_bind.
  destruct (result (examine cfg chain cb devnum device c))
    as [[[| udev | r] c']| | |]; reflexivity.
Qed.

Lemma filter_none {A : Type} (p : A -> bool) (l : list A) :
  Forall (fun x => p x = false) l -> filter p l = [].
Proof.
  induction 1 as [|x l Hx _ IH]; [reflexivity|].
  cbn [filter]. rewrite Hx. exact IH.
Qed.

Lemma pre_discovery_quiet (e : event) :
  pre_discovery_event e = true ->
  is_report_fetch e = false /\ is_callback e = false
  /\ is_get_config e = false.
Proof. destruct e; cbn; intros H; try discriminate H; auto. Qed.

Lemma loop_body_discovery (cfg : config) (chain : list USBDeviceMatcher_t)
  (cb : callback_t) (devnum : nat) (device : usb_device) (c : caller)
  (cur : USBDevice_t) (idx : Z) (g1 g2 : option Z) :
  reaches_discovery cfg chain devnum device c cur ->
  result (choose_hid_desc_index cur) = Ret idx ->
  result (hid_method1 (mkHandle devnum device) idx) = Ret g1 ->
  result (hid_method2 devnum device cur) = Ret g2 ->
  filter is_report_fetch (trace (loop_body cfg chain (Some cb) devnum device c))
  = filter is_report_fetch
      (trace (fetch_report (mkHandle devnum device) cur idx cb g1 g2)) /\
  filter is_callback (trace (loop_body cfg chain (Some cb) devnum device c))
  = filter is_callback
      (trace (fetch_report (mkHandle devnum device) cur idx cb g1 g2)) /\
  (result (fetch_report (mkHandle devnum device) cur idx cb g1 g2)
   = Ret (NextDevice (mkHandle devnum device)) ->
   result (loop_body cfg chain (Some cb) devnum device c)
   = Ret (None, mkCaller (Some (mkHandle devnum device)) cur) /\
   exists t, trace (loop_body cfg chain (Some cb) devnum device c)
             = t ++ [EvClose devnum]).
Proof.
  intros Hreach Hi H1 H2.
  destruct (examine_discovery cfg chain cb devnum device c cur Hreach)
    as (pre & Hpre & Ht & Hr).
  destruct (descriptor_discovery_steps (mkHandle devnum device) devnum cur cb
              idx g1 Hi H1) as [Hdr Hdt].
  cbn [h_dev] in Hdr, Hdt. rewrite H2 in Hdr, Hdt.
  destruct (choose_hid_desc_index_spec cur) as (idx' & Hi' & Hidx & Hie).
  rewrite Hi in Hi'. injection Hi' as <-.
  pose proof (hid_method1_events (mkHandle devnum device) idx Hidx) as H1e.
  assert (H2e : Forall (fun e => is_report_fetch e = false
                                 /\ is_callback e = false)
                  (trace (hid_method2 devnum device cur))).
  { destruct (skips_method2 cur) eqn:Es.
    - rewrite (hid_method2_skipped _ _ _ Es). repeat constructor.
    - destruct (hid_method2_attempted devnum device cur Es) as (t & -> & Hq).
      constructor; [split; reflexivity|].
      eapply Forall_impl; [|exact Hq]. unfold quiet. intros e He. tauto. }
  assert (Hfr : forall p : event -> bool,
     (forall e, pre_discovery_event e = true -> p e = false) ->
     (forall e, quiet e -> p e = false) ->
     Forall (fun e => p e = false) (trace (hid_method2 devnum device cur)) ->
     p (EvDebugx 2 "Checking device %lu of %lu.") = false ->
     p (EvGetDeviceDescriptor devnum) = false ->
     p (EvOpen devnum 0) = false ->
     p (EvClose devnum) = false ->
     filter p (trace (loop_body cfg chain (Some cb) devnum device c))
     = filter p (trace (fetch_report (mkHandle devnum device) cur idx cb g1
                          g2))).
  { intros p Hp Hq Hm2 Pa Pb Pc Pd.
    rewrite loop_body_trace, Hr, Hdr, Ht, Hdt.
    rewrite !filter_app. cbn [filter]. rewrite Pa, Pb, Pc.
    rewrite (filter_none p pre)
      by (eapply Forall_impl; [|exact Hpre]; exact Hp).
    rewrite (filter_none p (trace (choose_hid_desc_index cur)))
      by (eapply Forall_impl; [|exact Hie]; exact Hp).
    rewrite (filter_none p (trace (hid_method1 _ _)))
      by (eapply Forall_impl; [|exact H1e]; exact Hq).
    rewrite (filter_none p _ Hm2). cbn [app].
    destruct (fetch_report_verdict (mkHandle devnum device) cur idx cb g1 g2)
      as [E|E]; rewrite E; cbn [filter h_id app];
      rewrite ?filter_app; cbn [filter]; rewrite ?Pd, ?app_nil_r;
      reflexivity. }
  split; [apply Hfr; try reflexivity|].
  - intros e He. apply pre_discovery_quiet. exact He.
  - intros e He. apply He.
  - eapply Forall_impl; [|exact H2e]. intros e He. apply He.
  - split; [apply Hfr; try reflexivity|].
    + intros e He. apply pre_discovery_quiet. exact He.
    + intros e He. apply He.
    + eapply Forall_impl; [|exact H2e]. intros e He. apply He.
    + intros E. rewrite E in Hdr. rewrite Hdr in Hr.
      destruct (loop_body_next_device _ _ _ _ _ _ _ _ Hr) as [Hlr Hlt].
      split; [exact Hlr|]. eexists. exact Hlt.
Qed.

(** ** Descriptor discovery *)

(** C6. A matched and claimed candidate whose reconciled report length is
    larger than [MAX_REPORT_SIZE] is skipped: the loop body closes its
    handle and goes on with the next device, and its trace has neither the
    control transfer that fills the report buffer nor a call of the
    callback. *)
Theorem oversize_report_is_skipped (cfg : config)
  (chain : list USBDeviceMatcher_t) (cb : callback_t) (devnum : nat)
  (device : usb_device) (c : caller) (cur : USBDevice_t) (idx : Z)
  (g1 g2 : option Z) (rdlen : Z) :
  reaches_discovery cfg chain devnum device c cur ->
  result (choose_hid_desc_index cur) = Ret idx ->
  result (hid_method1 (mkHandle devnum device) idx) = Ret g1 ->
  result (hid_method2 devnum device cur) = Ret g2 ->
  choose_rdlen g1 g2 = Some rdlen ->
  MAX_REPORT_SIZE < rdlen ->
  result (loop_body cfg chain (Some cb) devnum device c)
  = Ret (None, mkCaller (Some (mkHandle devnum device)) cur) /\
  filter is_report_fetch
    (trace (loop_body cfg chain (Some cb) devnum device c)) = [] /\
  filter is_callback
    (trace (loop_body cfg chain (Some cb) devnum device c)) = [] /\
  exists t, trace (loop_body cfg chain (Some cb) devnum device c)
            = t ++ [EvClose devnum].
Proof.
  intros Hreach Hi H1 H2 Hc Hlen.
  destruct (loop_body_discovery cfg chain cb devnum device c cur idx g1 g2
              Hreach Hi H1 H2) as (Hf & Hcb & Hnext).
  destruct (fetch_report_oversize (mkHandle devnum device) cur idx cb g1 g2
              rdlen Hc Hlen) as [Hr Hnocb].
  destruct (choose_hid_desc_index_spec cur) as (idx' & Hi' & Hidx & _).
  rewrite Hi in Hi'. injection Hi' as <-.
  destruct (Hnext Hr) as [Hlr Hlt].
  split; [exact Hlr|].
  split.
  { rewrite Hf, (fetch_report_fetches _ _ _ _ _ _ Hidx), Hc.
    destruct (Z.gtb_spec rdlen MAX_REPORT_SIZE); [reflexivity|lia]. }
  split; [rewrite Hcb; exact Hnocb|exact Hlt].
Qed.

Lemma oversize_report_is_skipped_witness :
  result (loop_body sample_config [] (Some accept_all) 0 oversize_device
            fresh_caller)
  = Ret (None, mkCaller (Some (mkHandle 0 oversize_device))
                 (sample_identity 0x051d 0x0106)) /\
  filter is_report_fetch
    (trace (loop_body sample_config [] (Some accept_all) 0 oversize_device
              fresh_caller)) = [] /\
  filter is_callback
    (trace (loop_body sample_config [] (Some accept_all) 0 oversize_device
              fresh_caller)) = [] /\
  exists t, trace (loop_body sample_config [] (Some accept_all) 0
                     oversize_device fresh_caller)
            = t ++ [EvClose 0].
Proof.
  apply (oversize_report_is_skipped sample_config [] accept_all 0
           oversize_device fresh_caller (sample_identity 0x051d 0x0106) 0
           (Some 8192) None 8192).
  - repeat split; reflexivity.
  - reflexivity.
  - reflexivity.
  - reflexivity.
  - reflexivity.
  - reflexivity.
Defined.

(** C2. For a matched and claimed candidate for which the two methods end:
    with a length from the first method only, the report descriptor is
    fetched with that length; with two different lengths, it is fetched
    with the length of the second method (in both cases no fetch at all is
    issued when the length is larger than the report buffer); with no
    length, nothing is fetched, the handle is closed and the loop goes on
    with the next device. *)
Theorem report_length_reconciliation (cfg : config)
  (chain : list USBDeviceMatcher_t) (cb : callback_t) (devnum : nat)
  (device : usb_device) (c : caller) (cur : USBDevice_t) (idx : Z)
  (g1 g2 : option Z) :
  reaches_discovery cfg chain devnum device c cur ->
  result (choose_hid_desc_index cur) = Ret idx ->
  result (hid_method1 (mkHandle devnum device) idx) = Ret g1 ->
  result (hid_method2 devnum device cur) = Ret g2 ->
  (forall rdlen1 : Z,
     g1 = Some rdlen1 -> g2 = None ->
     filter is_report_fetch
       (trace (loop_body cfg chain (Some cb) devnum device c))
     = if rdlen1 >? MAX_REPORT_SIZE then []
       else [report_fetch devnum idx rdlen1]) /\
  (forall rdlen1 rdlen2 : Z,
     g1 = Some rdlen1 -> g2 = Some rdlen2 -> rdlen1 <> rdlen2 ->
     filter is_report_fetch
       (trace (loop_body cfg chain (Some cb) devnum device c))
     = if rdlen2 >? MAX_REPORT_SIZE then []
       else [report_fetch devnum idx rdlen2]) /\
  (g1 = None -> g2 = None ->
   result (loop_body cfg chain (Some cb) devnum device c)
   = Ret (None, mkCaller (Some (mkHandle devnum device)) cur) /\
   filter is_report_fetch
     (trace (loop_body cfg chain (Some cb) devnum device c)) = [] /\
   exists t, trace (loop_body cfg chain (Some cb) devnum device c)
             = t ++ [EvClose devnum]).
Proof.
  intros Hreach Hi H1 H2.
  destruct (loop_body_discovery cfg chain cb devnum device c cur idx g1 g2
              Hreach Hi H1 H2) as (Hf & _ & Hnext).
  destruct (choose_hid_desc_index_spec cur) as (idx' & Hi' & Hidx & _).
  rewrite Hi in Hi'. injection Hi' as <-.
  rewrite Hf, (fetch_report_fetches _ _ _ _ _ _ Hidx).
  split; [|split].
  - intros rdlen1 -> ->. reflexivity.
  - intros rdlen1 rdlen2 -> -> _. reflexivity.
  - intros -> ->. cbn [choose_rdlen].
    rewrite fetch_report_none in Hnext by reflexivity.
    destruct (Hnext eq_refl) as [Hlr Hlt].
    split; [exact Hlr|]. split; [reflexivity|exact Hlt].
Qed.

Lemma report_length_reconciliation_witness :
  filter is_report_fetch
    (trace (loop_body sample_config [] (Some accept_all) 0 apc_device
              fresh_caller))
  = [report_fetch 0 0 4] /\
  filter is_report_fetch
    (trace (loop_body sample_config [] (Some accept_all) 0 eaton_202_device
              fresh_caller))
  = [report_fetch 0 1 4] /\
  result (loop_body sample_config [] (Some accept_all) 0 mute_device
            fresh_caller)
  = Ret (None, mkCaller (Some (mkHandle 0 mute_device))
                 (sample_identity 0x051d 0x0106)).
Proof.
  split; [|split].
  - apply (proj1 (report_length_reconciliation sample_config [] accept_all 0
                    apc_device fresh_caller (sample_identity 0x051d 0x0106)
                    0 (Some 4) None
                    (conj (conj eq_refl (conj eq_refl eq_refl))
                          (conj eq_refl eq_refl))
                    eq_refl eq_refl eq_refl) 4 eq_refl eq_refl).
  - apply (proj1 (proj2 (report_length_reconciliation sample_config []
                    accept_all 0 eaton_202_device fresh_caller
                    (sample_identity 0x463 0x0202) 1 (Some 3) (Some 4)
                    (conj (conj eq_refl (conj eq_refl eq_refl))
                          (conj eq_refl eq_refl))
                    eq_refl eq_refl eq_refl)) 3 4 eq_refl eq_refl).
    discriminate.
  - apply (proj2 (proj2 (report_length_reconciliation sample_config []
                    accept_all 0 mute_device fresh_caller
                    (sample_identity 0x051d 0x0106) 0 None None
                    (conj (conj eq_refl (conj eq_refl eq_refl))
                          (conj eq_refl eq_refl))
                    eq_refl eq_refl eq_refl)) eq_refl eq_refl).
Defined.





(** ** Matching inside the enumeration *)


(** A fatal exit inside the loop body ends the enumeration: no further
    device is looked at. *)
Lemma for_devices_exit (cfg : config) (chain : list USBDeviceMatcher_t)
  (cb : option callback_t) (device : usb_device) (rest : list usb_device)
  (devnum : nat) (c : caller) (s : Z) :
  result (examine cfg chain cb devnum device c) = Exit s ->
  result (for_devices cfg chain cb (device :: rest) devnum c) = Exit s /\
  trace (for_devices cfg chain cb (device :: rest) devnum c)
  = trace (examine cfg chain cb devnum device c).
Proof.
  intros H.
  assert (Hl : result (loop_body cfg chain cb devnum device c) = Exit s).
  { rewrite loop_body_result, H. reflexivity. }
  cbn [for_devices].
  rewrite (result_bind_exit _ _ _ Hl), (trace_bind_exit _ _ _ Hl).
  rewrite loop_body_trace, H, app_nil_r. split; reflexivity.
Qed.



(** ** Identity of a candidate *)

Lemma collect_identity_shape (udev : handle) (devnum : nat)
  (dev_desc : libusb_device_descriptor) (cur : USBDevice_t) :
  collect_identity udev devnum dev_desc cur
  = ([EvFree (Vendor cur); EvFree (Product cur); EvFree (Serial cur);
      EvFree (Bus cur); EvMemset]
     ++ skipn 5 (trace (collect_identity udev devnum dev_desc zero_device)),
     result (collect_identity udev devnum dev_desc zero_device)).
Proof. reflexivity. Qed.

(** C8. Whatever the caller's record holds when a candidate is examined
    (the identity of the previous candidate, for one), the calls of the
    matcher nodes and their arguments are the same, and so is the record
    collected; for a candidate that is opened the four string fields are
    given to [free] and the record zeroed right after [libusb_open], before
    anything is read from the device. *)
Theorem identity_is_rewritten (cfg : config) (chain : list USBDeviceMatcher_t)
  (cb : option callback_t) (devnum : nat) (device : usb_device)
  (c c' : caller) :
  filter is_match_call (trace (examine cfg chain cb devnum device c))
  = filter is_match_call (trace (examine cfg chain cb devnum device c')) /\
  (forall cur : USBDevice_t,
     reaches_matching devnum device c cur ->
     reaches_matching devnum device c' cur) /\
  (fst (dev_descriptor device) = LIBUSB_SUCCESS ->
   dev_open device = 0 ->
   exists t,
     trace (examine cfg chain cb devnum device c)
     = [EvDebugx 2 "Checking device %lu of %lu.";
        EvGetDeviceDescriptor devnum; EvOpen devnum 0;
        EvFree (Vendor (curDevice c)); EvFree (Product (curDevice c));
        EvFree (Serial (curDevice c)); EvFree (Bus (curDevice c)); EvMemset]
       ++ t).
Proof.
  split; [|split].
  - unfold examine. mstep.
    destruct (negb (fst (dev_descriptor device) =? LIBUSB_SUCCESS));
      [reflexivity|].
    mstep.
    destruct (negb (dev_open device =? 0)); [reflexivity|].
    mstep. rewrite !trace_bind.
    rewrite (collect_identity_shape _ _ _ (curDevice c)),
      (collect_identity_shape _ _ _ (curDevice c')).
    cbn [result trace fst snd app].
    destruct (result (collect_identity _ _ _ zero_device));
      cbn [filter is_match_call app]; reflexivity.
  - intros cur (Hd & Ho & Hi).
    split; [exact Hd|]. split; [exact Ho|].
    rewrite collect_identity_shape. rewrite collect_identity_shape in Hi.
    exact Hi.
  - intros Hd Ho. unfold examine. mstep. rewrite Hd, Ho.
    change (negb (LIBUSB_SUCCESS =? LIBUSB_SUCCESS)) with false.
    change (negb (0 =? 0)) with false. cbv iota. mstep.
    rewrite trace_bind, collect_identity_shape. cbn [result trace fst snd].
    destruct (result (collect_identity _ _ _ zero_device));
      cbn [app]; eexists; reflexivity.
Qed.

Lemma identity_is_rewritten_witness :
  reaches_matching 0 apc_device fresh_caller (sample_identity 0x051d 0x0106)
  /\
  exists t,
    trace (examine sample_config [vendor_matcher 0x463] None 0 apc_device
             stale_caller)
    = [EvDebugx 2 "Checking device %lu of %lu.";
       EvGetDeviceDescriptor 0; EvOpen 0 0;
       EvFree (Some "EATON"); EvFree (Some "Ellipse ECO");
       EvFree (Some "000000000"); EvFree (Some "002"); EvMemset]
      ++ t.
Proof.
  split.
  - apply (proj1 (proj2 (identity_is_rewritten sample_config
                           [vendor_matcher 0x463] None 0 apc_device
                           stale_caller fresh_caller))).
    repeat split; reflexivity.
  - apply (proj2 (proj2 (identity_is_rewritten sample_config
                           [vendor_matcher 0x463] None 0 apc_device
                           stale_caller fresh_caller)));
      reflexivity.
Defined.

(** ** Handles along the enumeration *)

Lemma ends_with_ret {A : Type} (Q : A -> Prop) (a : A) :
  Q a -> ends_with Q (ret a).
Proof. intros H b Hb. injection Hb as <-. exact H. Qed.

Lemma ends_with_exit {A : Type} (Q : A -> Prop) (t : list event) (s : Z) :
  ends_with Q ((t, Exit s) : M A).
Proof. intros b Hb. discriminate Hb. Qed.

Lemma ends_with_bind {A B : Type} (Q : B -> Prop) (m : M A) (f : A -> M B) :
  (forall a, ends_with Q (f a)) -> ends_with Q (bind m f).
Proof.
  intros Hf b. rewrite result_bind.
  destruct (result m) as [a| | |]; try discriminate. apply Hf.
Qed.

Lemma ends_with_bind_from {A B : Type} (P : A -> Prop) (Q : B -> Prop)
  (m : M A) (f : A -> M B) :
  ends_with P m -> (forall a, P a -> ends_with Q (f a)) ->
  ends_with Q (bind m f).
Proof.
  intros Hm Hf b. rewrite result_bind.
  destruct (result m) as [a| | |] eqn:E; try discriminate.
  apply Hf. apply Hm. exact E.
Qed.

Lemma pre_discovery_no_handle (e : event) :
  pre_discovery_event e = true -> is_handle_event e = false.
Proof. destruct e; cbn; intros H; try discriminate H; reflexivity. Qed.

Lemma discovery_no_handle (e : event) :
  discovery_event e = true -> is_handle_event e = false.
Proof. destruct e; cbn; intros H; try discriminate H; reflexivity. Qed.

Lemma descriptor_discovery_events (udev : handle) (devnum : nat)
  (cur : USBDevice_t) (cb : callback_t) :
  Forall (fun e => discovery_event e = true)
    (trace (descriptor_discovery udev devnum cur cb)).
Proof.
  unfold descriptor_discovery.
  apply Forall_trace_bind; [unfold choose_hid_desc_index; trace_forall|].
  intros idx.
  apply Forall_trace_bind.
  { unfold hid_method1, libusb_control_transfer. trace_forall. }
  intros g1.
  apply Forall_trace_bind.
  { destruct (skips_method2 cur) eqn:Es.
    - rewrite (hid_method2_skipped _ _ _ Es). repeat constructor.
    - destruct (hid_method2_attempted devnum (h_dev udev) cur Es)
        as (t & -> & Hq).
      constructor; [reflexivity|].
      eapply Forall_impl; [|exact Hq]. intros e He. apply He. }
  intros g2.
  eapply Forall_impl; [|apply fetch_report_events]. intros e He. apply He.
Qed.

Lemma descriptor_discovery_verdict (udev : handle) (devnum : nat)
  (cur : USBDevice_t) (cb : callback_t) :
  ends_with (fun v => v = NextDevice udev \/ v = Return LIBUSB_SUCCESS)
    (descriptor_discovery udev devnum cur cb).
Proof.
  unfold descriptor_discovery.
  apply ends_with_bind. intros idx.
  apply ends_with_bind. intros g1.
  apply ends_with_bind. intros g2.
  intros v Hv.
  destruct (fetch_report_verdict udev cur idx cb g1 g2) as [E|E];
    rewrite E in Hv; injection Hv as <-; auto.
Qed.

(** The loop body after a successful [libusb_open]. *)
Lemma examine_opened (cfg : config) (chain : list USBDeviceMatcher_t)
  (cb : option callback_t) (devnum : nat) (device : usb_device) (c : caller) :
  fst (dev_descriptor device) = LIBUSB_SUCCESS ->
  dev_open device = 0 ->
  exists inner,
    trace (examine cfg chain cb devnum device c)
    = [EvDebugx 2 "Checking device %lu of %lu.";
       EvGetDeviceDescriptor devnum; EvOpen devnum 0] ++ inner /\
    Forall (fun e => is_handle_event e = false) inner /\
    ends_with (fun vc => fst vc = NextDevice (mkHandle devnum device)
                         \/ fst vc = Return LIBUSB_SUCCESS)
      (examine cfg chain cb devnum device c).
Proof.
  intros Hd Ho.
  unfold examine. mstep. rewrite Hd, Ho.
  change (negb (LIBUSB_SUCCESS =? LIBUSB_SUCCESS)) with false.
  change (negb (0 =? 0)) with false. cbv iota. mstep.
  eexists. split; [reflexivity|]. split.
  - apply Forall_trace_bind.
    { eapply Forall_impl; [|apply collect_identity_events].
      exact pre_discovery_no_handle. }
    intros cur. cbv zeta.
    apply Forall_trace_bind; [apply Forall_trace_emit; reflexivity|].
    intros _.
    apply Forall_trace_bind.
    { eapply Forall_impl; [|apply match_chain_events].
      exact pre_discovery_no_handle. }
    intros matched.
    destruct (negb matched); [apply Forall_trace_ret|].
    apply Forall_trace_bind; [apply Forall_trace_emit; reflexivity|].
    intros _.
    apply Forall_trace_bind.
    { eapply Forall_impl; [|apply nut_usb_claim_interface_events].
      exact pre_discovery_no_handle. }
    intros r.
    destruct (negb (r =? LIBUSB_SUCCESS)); [trace_forall|].
    apply Forall_trace_bind; [apply Forall_trace_emit; reflexivity|].
    intros _.
    apply Forall_trace_bind.
    { eapply Forall_impl; [|apply nut_usb_set_altinterface_events].
      exact pre_discovery_no_handle. }
    intros _.
    destruct cb as [cb|]; [|trace_forall].
    apply Forall_trace_bind; [|intros v; apply Forall_trace_ret].
    eapply Forall_impl; [|apply descriptor_discovery_events].
    exact discovery_no_handle.
  - unfold ends_with. intros vc. mstep. revert vc.
    apply ends_with_bind. intros cur. cbv zeta.
    apply ends_with_bind. intros _.
    apply ends_with_bind. intros matched.
    destruct (negb matched); [apply ends_with_ret; left; reflexivity|].
    apply ends_with_bind. intros _.
    apply ends_with_bind. intros r.
    destruct (negb (r =? LIBUSB_SUCCESS)).
    { unfold libusb_free_device_list, fatalx. apply ends_with_bind. intros _.
      apply ends_with_exit. }
    apply ends_with_bind. intros _.
    apply ends_with_bind. intros _.
    destruct cb as [cb|].
    + eapply ends_with_bind_from; [apply descriptor_discovery_verdict|].
      intros v Hv. apply ends_with_ret. exact Hv.
    + apply ends_with_bind. intros _. apply ends_with_ret. right. reflexivity.
Qed.

Lemma handles_closed_neutral (t1 t2 : list event) (held : option nat) :
  Forall (fun e => is_handle_event e = false) t1 ->
  handles_closed held (t1 ++ t2) = handles_closed held t2.
Proof.
  induction 1 as [|e t1 He _ IH]; [reflexivity|].
  cbn [app]. destruct e; cbn in He; try discriminate He; cbn; exact IH.
Qed.

(** The verdict of [examine] when the candidate cannot be opened. *)
Lemma examine_not_opened (cfg : config) (chain : list USBDeviceMatcher_t)
  (cb : option callback_t) (devnum : nat) (device : usb_device) (c : caller) :
  fst (dev_descriptor device) <> LIBUSB_SUCCESS \/ dev_open device <> 0 ->
  result (examine cfg chain cb devnum device c) = Ret (Continue, c) /\
  forall t, handles_closed None (trace (examine cfg chain cb devnum device c)
                                   ++ t)
            = handles_closed None t.
Proof.
  intros H. unfold examine. mstep.
  destruct (Z.eqb_spec (fst (dev_descriptor device)) LIBUSB_SUCCESS)
    as [Ed|Ed]; cbn [negb].
  - destruct H as [H|H]; [contradiction|].
    mstep.
    destruct (Z.eqb_spec (dev_open device) 0) as [Eo|Eo]; [contradiction|].
    cbn [negb]. mstep. split; [reflexivity|]. intros t.
    cbn [trace ret fst app handles_closed].
    destruct (Z.eqb_spec (dev_open device) 0); [contradiction|reflexivity].
  - mstep. split; reflexivity.
Qed.

(** A candidate that is not accepted leaves no handle open. *)
Lemma loop_body_handles (cfg : config) (chain : list USBDeviceMatcher_t)
  (cb : option callback_t) (devnum : nat) (device : usb_device)
  (c c' : caller) :
  result (loop_body cfg chain cb devnum device c) = Ret (None, c') ->
  forall t,
    handles_closed None (trace (loop_body cfg chain cb devnum device c) ++ t)
    = handles_closed None t.
Proof.
  intros Hr t.
  destruct (Z.eq_dec (fst (dev_descriptor device)) LIBUSB_SUCCESS) as [Hd|Hd];
    [destruct (Z.eq_dec (dev_open device) 0) as [Ho|Ho]|].
  - destruct (examine_opened cfg chain cb devnum device c Hd Ho)
      as (inner & Ht & Hn & Hv).
    rewrite loop_body_result in Hr. rewrite loop_body_trace.
    destruct (result (examine cfg chain cb devnum device c))
      as [[v c'']| | |] eqn:E; try discriminate Hr.
    destruct (Hv _ E) as [Ev|Ev]; cbn [fst] in Ev; subst v;
      [|discriminate Hr].
    rewrite Ht. cbn [h_id app handles_closed Z.eqb].
    rewrite <- !app_assoc. rewrite (handles_closed_neutral _ _ _ Hn).
    cbn [app handles_closed]. rewrite Nat.eqb_refl. reflexivity.
  - destruct (examine_not_opened cfg chain cb devnum device c (or_intror Ho))
      as [Hx Hh].
    rewrite loop_body_trace, Hx, app_nil_r. apply Hh.
  - destruct (examine_not_opened cfg chain cb devnum device c (or_introl Hd))
      as [Hx Hh].
    rewrite loop_body_trace, Hx, app_nil_r. apply Hh.
Qed.

(** [nut_libusb_open] returns from inside the loop with success only. *)
Lemma loop_body_return (cfg : config) (chain : list USBDeviceMatcher_t)
  (cb : option callback_t) (devnum : nat) (device : usb_device)
  (c c' : caller) (r : Z) :
  result (loop_body cfg chain cb devnum device c) = Ret (Some r, c') ->
  r = LIBUSB_SUCCESS.
Proof.
  intros Hr. rewrite loop_body_result in Hr.
  destruct (Z.eq_dec (fst (dev_descriptor device)) LIBUSB_SUCCESS) as [Hd|Hd];
    [destruct (Z.eq_dec (dev_open device) 0) as [Ho|Ho]|].
  - destruct (examine_opened cfg chain cb devnum device c Hd Ho)
      as (inner & _ & _ & Hv).
    destruct (result (examine cfg chain cb devnum device c))
      as [[v c'']| | |] eqn:E; try discriminate Hr.
    destruct (Hv _ E) as [Ev|Ev]; cbn [fst] in Ev; subst v;
      [discriminate Hr|]. injection Hr as <- _. reflexivity.
  - destruct (examine_not_opened cfg chain cb devnum device c (or_intror Ho))
      as [Hx _].
    rewrite Hx in Hr. discriminate Hr.
  - destruct (examine_not_opened cfg chain cb devnum device c (or_introl Hd))
      as [Hx _].
    rewrite Hx in Hr. discriminate Hr.
Qed.

Lemma for_devices_not_found (cfg : config) (chain : list USBDeviceMatcher_t)
  (cb : option callback_t) (devlist : list usb_device) :
  forall (devnum : nat) (c c' : caller) (r : Z),
  result (for_devices cfg chain cb devlist devnum c) = Ret (r, c') ->
  r = LIBUSB_ERROR_NOT_FOUND ->
  udevp c' = None /\
  handles_closed None (trace (for_devices cfg chain cb devlist devnum c))
  = true.
Proof.
  induction devlist as [|device rest IH]; intros devnum c c' r Hr Hnf.
  - cbn in Hr. injection Hr as <- <-. split; reflexivity.
  - cbn [for_devices] in Hr |- *.
    rewrite result_bind in Hr. rewrite trace_bind.
    destruct (result (loop_body cfg chain cb devnum device c))
      as [[[r'|] c'']| | |] eqn:El; try discriminate Hr; cbn [fst snd] in *.
    + cbn in Hr. injection Hr as <- <-.
      apply loop_body_return in El. subst r'. discriminate Hnf.
    + destruct (IH _ _ _ _ Hr Hnf) as [Hu Hh].
      split; [exact Hu|].
      rewrite (loop_body_handles _ _ _ _ _ _ _ El). exact Hh.
Qed.

Lemma for_devices_status (cfg : config) (chain : list USBDeviceMatcher_t)
  (cb : option callback_t) (devlist : list usb_device) :
  forall (devnum : nat) (c c' : caller) (r : Z),
  result (for_devices cfg chain cb devlist devnum c) = Ret (r, c') ->
  r = LIBUSB_SUCCESS \/ r = LIBUSB_ERROR_NOT_FOUND.
Proof.
  induction devlist as [|device rest IH]; intros devnum c c' r Hr.
  - cbn in Hr. injection Hr as <- _. right. reflexivity.
  - cbn [for_devices] in Hr. rewrite result_bind in Hr.
    destruct (result (loop_body cfg chain cb devnum device c))
      as [[[r'|] c'']| | |] eqn:El; try discriminate Hr; cbn [fst snd] in *.
    + cbn in Hr. injection Hr as <- _.
      left. apply (loop_body_return _ _ _ _ _ _ _ _ El).
    + apply (IH _ _ _ _ Hr).
Qed.

Lemma for_devices_exhausted (cfg : config) (chain : list USBDeviceMatcher_t)
  (cb : option callback_t) (devlist : list usb_device) :
  forall (devnum : nat) (c c_last : caller),
  scans_without_acceptance cfg chain cb devlist devnum c = Some c_last ->
  result (for_devices cfg chain cb devlist devnum c)
  = Ret (LIBUSB_ERROR_NOT_FOUND, mkCaller None (curDevice c_last)).
Proof.
  induction devlist as [|device rest IH]; intros devnum c c_last Hs.
  - cbn in Hs. injection Hs as <-. reflexivity.
  - cbn [scans_without_acceptance] in Hs. cbn [for_devices].
    rewrite result_bind, loop_body_result.
    destruct (result (examine cfg chain cb devnum device c))
      as [[[| udev | r] c'']| | |]; cbn [rejected] in Hs;
      try discriminate Hs; cbn [fst snd]; apply IH; exact Hs.
Qed.

Lemma for_devices_not_found_exhausted (cfg : config)
  (chain : list USBDeviceMatcher_t) (cb : option callback_t)
  (devlist : list usb_device) :
  forall (devnum : nat) (c c' : caller),
  result (for_devices cfg chain cb devlist devnum c)
  = Ret (LIBUSB_ERROR_NOT_FOUND, c') ->
  exists c_last : caller,
    scans_without_acceptance cfg chain cb devlist devnum c = Some c_last /\
    c' = mkCaller None (curDevice c_last).
Proof.
  induction devlist as [|device rest IH]; intros devnum c c' Hr.
  - cbn in Hr. injection Hr as <-. exists c. split; reflexivity.
  - cbn [for_devices] in Hr. rewrite result_bind in Hr.
    cbn [scans_without_acceptance].
    destruct (result (loop_body cfg chain cb devnum device c))
      as [[[r'|] c'']| | |] eqn:El; try discriminate Hr; cbn [fst snd] in Hr.
    + cbn in Hr. injection Hr as Hr' _.
      apply loop_body_return in El. rewrite El in Hr'. discriminate Hr'.
    + rewrite loop_body_result in El.
      destruct (result (examine cfg chain cb devnum device c))
        as [[[| udev | r] c3]| | |]; try discriminate El;
        injection El as <-; cbn [rejected]; apply IH; exact Hr.
Qed.

(** C10. When the device list was obtained and the loop of
    [nut_libusb_open] looks at every device without accepting one (each
    candidate ends in [continue] or at [next_device]), the function returns
    [LIBUSB_ERROR_NOT_FOUND] with the null pointer in the caller's [*udevp],
    and every handle that was opened has been closed before the next
    candidate is looked at and before the function returns.  Conversely,
    whenever the function returns, the status is success or not-found, and
    not-found is returned only in that way: with the null pointer in
    [*udevp], every handle closed, and no candidate accepted. *)
Theorem open_not_found_clears_handle (cfg : config) (bus : usb_bus)
  (c : caller) (chain : list USBDeviceMatcher_t) (cb : option callback_t) :
  (forall (devlist : list usb_device) (c_last : caller),
     bus_init bus = LIBUSB_SUCCESS ->
     bus_device_list bus = ListDevices devlist ->
     scans_without_acceptance cfg chain cb devlist 0 c = Some c_last ->
     result (nut_libusb_open cfg bus c chain cb)
     = Ret (LIBUSB_ERROR_NOT_FOUND, mkCaller None (curDevice c_last)) /\
     handles_closed None
       (after_device_list (trace (nut_libusb_open cfg bus c chain cb)))
     = true) /\
  (forall (r : Z) (c' : caller),
     result (nut_libusb_open cfg bus c chain cb) = Ret (r, c') ->
     (r = LIBUSB_SUCCESS \/ r = LIBUSB_ERROR_NOT_FOUND) /\
     (r = LIBUSB_ERROR_NOT_FOUND ->
      udevp c' = None /\
      handles_closed None
        (after_device_list (trace (nut_libusb_open cfg bus c chain cb)))
      = true /\
      exists (devlist : list usb_device) (c_last : caller),
        bus_device_list bus = ListDevices devlist /\
        scans_without_acceptance cfg chain cb devlist 0 c = Some c_last /\
        c' = mkCaller None (curDevice c_last))).
Proof.
  unfold nut_libusb_open. mstep.
  set (old := if negb (on_linux cfg) then _ else _).
  assert (Hold : result old = Ret tt
                 /\ forall t, after_device_list (trace old ++ t)
                              = after_device_list t).
  { unfold old. destruct (negb (on_linux cfg)); [|split; reflexivity].
    destruct (udevp c); split; reflexivity. }
  destruct Hold as [Ho1 Ho2].
  split.
  - intros devlist c_last Hinit Hlist Hscan. rewrite Hinit, Hlist.
    change (negb (LIBUSB_SUCCESS =? LIBUSB_SUCCESS)) with false. cbv iota.
    rewrite (result_bind_ret _ _ _ Ho1), (trace_bind_ret _ _ _ Ho1).
    mstep. cbn [after_device_list]. rewrite Ho2. cbn [after_device_list].
    pose proof (for_devices_exhausted _ _ _ _ _ _ _ Hscan) as Hr.
    split; [exact Hr|].
    apply (for_devices_not_found _ _ _ _ _ _ _ _ Hr). reflexivity.
  - intros r c'.
    destruct (negb (bus_init bus =? LIBUSB_SUCCESS)); [discriminate|].
    rewrite (result_bind_ret _ _ _ Ho1), (trace_bind_ret _ _ _ Ho1).
    mstep. cbn [after_device_list]. rewrite Ho2. cbn [after_device_list].
    destruct (bus_device_list bus) as [code|devlist]; intros Hr;
      [discriminate Hr|].
    split; [apply (for_devices_status _ _ _ _ _ _ _ _ Hr)|].
    intros Hnf.
    destruct (for_devices_not_found _ _ _ _ _ _ _ _ Hr Hnf) as [Hu Hh].
    split; [exact Hu|]. split; [exact Hh|].
    subst r.
    destruct (for_devices_not_found_exhausted _ _ _ _ _ _ _ Hr)
      as [c_last [Hs Hc]].
    exists devlist, c_last. split; [reflexivity|]. split; assumption.
Qed.

(** A device without HID descriptor and one with an oversize report
    descriptor are both given up; the record of a caller that holds the
    identity of an earlier device comes back with the identity of the last
    candidate and the null pointer. *)
Lemma open_not_found_clears_handle_witness :
  result (nut_libusb_open sample_config
            (mkBus LIBUSB_SUCCESS
               (ListDevices [mute_device; oversize_device]))
            stale_caller [] (Some accept_all))
  = Ret (LIBUSB_ERROR_NOT_FOUND,
         mkCaller None (sample_identity 0x051d 0x0106)) /\
  handles_closed None
    (after_device_list
       (trace (nut_libusb_open sample_config
                 (mkBus LIBUSB_SUCCESS
                    (ListDevices [mute_device; oversize_device]))
                 stale_caller [] (Some accept_all))))
  = true.
Proof.
  apply (proj1 (open_not_found_clears_handle sample_config
                  (mkBus LIBUSB_SUCCESS
                     (ListDevices [mute_device; oversize_device]))
                  stale_caller [] (Some accept_all))
           [mute_device; oversize_device]
           (mkCaller (Some (mkHandle 1 oversize_device))
              (sample_identity 0x051d 0x0106))).
  - reflexivity.
  - reflexivity.
  - reflexivity.
Defined.

(** ** The whole of [nut_libusb_open] on concrete buses *)

Example open_accepts_second_device :
  result (nut_libusb_open sample_config
            (mkBus LIBUSB_SUCCESS (ListDevices [mute_device; eaton_202_device]))
            fresh_caller [] (Some accept_all))
  = Ret (LIBUSB_SUCCESS,
         mkCaller (Some (mkHandle 1 eaton_202_device))
           (sample_identity 0x463 0x0202)).
Proof. reflexivity. Qed.

Example open_claim_failure_is_fatal :
  result (nut_libusb_open sample_config
            (mkBus LIBUSB_SUCCESS (ListDevices [busy_device; apc_device]))
            fresh_caller [] (Some accept_all))
  = Exit EXIT_FAILURE.
Proof. reflexivity. Qed.

(** * Further properties *)

(** ** Transfer primitives *)

(** X1. Without a handle the four transfer primitives return
    LIBUSB_ERROR_INVALID_PARAM at once: nothing is sent to the bus, and the
    error does not go through the classifier (nothing is logged for it). *)
Theorem primitives_without_handle (ReportId ReportSize StringIdx bufsize
  timeout : Z) :
  (result (nut_libusb_get_report None ReportId ReportSize)
   = Ret (LIBUSB_ERROR_INVALID_PARAM, []) /\
   result (nut_libusb_set_report None ReportId ReportSize)
   = Ret LIBUSB_ERROR_INVALID_PARAM /\
   result (nut_libusb_get_string None StringIdx)
   = Ret (LIBUSB_ERROR_INVALID_PARAM, EmptyString) /\
   result (nut_libusb_get_interrupt None bufsize timeout)
   = Ret (LIBUSB_ERROR_INVALID_PARAM, [])) /\
  filter is_bus_event
    (trace (nut_libusb_get_report None ReportId ReportSize)
     ++ trace (nut_libusb_set_report None ReportId ReportSize)
     ++ trace (nut_libusb_get_string None StringIdx)
     ++ trace (nut_libusb_get_interrupt None bufsize timeout)) = [] /\
  trace (nut_libusb_get_report None ReportId ReportSize)
  = [EvDebugx 4 "Entering libusb_get_report"] /\
  trace (nut_libusb_set_report None ReportId ReportSize) = [] /\
  trace (nut_libusb_get_string None StringIdx) = [] /\
  trace (nut_libusb_get_interrupt None bufsize timeout) = [].
Proof. repeat split; reflexivity. Qed.

Lemma firstn_length_bound {A : Type} (n : Z) (l : list A) :
  0 <= Z.of_nat (List.length (firstn (Z.to_nat n) l)) <= Z.max 0 n /\
  (List.length (firstn (Z.to_nat n) l) <= List.length l)%nat.
Proof.
  rewrite length_firstn. split; lia.
Qed.

(** X2. A successful interrupt read returns the number of bytes
    transferred, between 0 and the size of the buffer and never more than
    the device sent; the halt is not cleared and nothing is logged. *)
Theorem get_interrupt_success (h : handle) (bufsize timeout : Z)
  (data : list byte) :
  dev_interrupt (h_dev h) = (LIBUSB_SUCCESS, data) ->
  exists (n : Z) (buf : list byte),
    result (nut_libusb_get_interrupt (Some h) bufsize timeout) = Ret (n, buf)
    /\ buf = firstn (Z.to_nat bufsize) data
    /\ n = Z.of_nat (List.length buf)
    /\ 0 <= n <= Z.max 0 bufsize
    /\ n <= Z.of_nat (List.length data)
    /\ trace (nut_libusb_get_interrupt (Some h) bufsize timeout)
       = [EvInterrupt (h_id h) 0x81 bufsize timeout].
Proof.
  intros H.
  exists (Z.of_nat (List.length (firstn (Z.to_nat bufsize) data))),
    (firstn (Z.to_nat bufsize) data).
  destruct (firstn_length_bound bufsize data) as [Hb Hl].
  unfold nut_libusb_get_interrupt, libusb_interrupt_transfer.
  rewrite H.
  unfold bind, emit, ret, trace, result; cbn [fst snd app].
  change (LIBUSB_SUCCESS =? LIBUSB_SUCCESS) with true. cbn [fst snd app].
  repeat split; try reflexivity; lia.
Qed.

Lemma get_interrupt_success_witness :
  exists (n : Z) (buf : list byte),
    result (nut_libusb_get_interrupt (Some (mkHandle 0 talking_device)) 4 250)
    = Ret (n, buf)
    /\ buf = firstn (Z.to_nat 4) [x01; x02; x03; x04; x05; x06]
    /\ n = Z.of_nat (List.length buf)
    /\ 0 <= n <= Z.max 0 4
    /\ n <= Z.of_nat (List.length [x01; x02; x03; x04; x05; x06])
    /\ trace (nut_libusb_get_interrupt (Some (mkHandle 0 talking_device)) 4
                250)
       = [EvInterrupt 0 0x81 4 250].
Proof.
  apply (get_interrupt_success (mkHandle 0 talking_device) 4 250
           [x01; x02; x03; x04; x05; x06]).
  reflexivity.
Defined.

(** X3. An interrupt read that fails with a status other than the stall
    returns that status, after the classifier has seen it; the halt is not
    cleared. *)
Theorem get_interrupt_failure (h : handle) (bufsize timeout status : Z)
  (data : list byte) :
  dev_interrupt (h_dev h) = (status, data) ->
  status <> LIBUSB_SUCCESS ->
  status <> LIBUSB_ERROR_PIPE ->
  result (nut_libusb_get_interrupt (Some h) bufsize timeout)
  = Ret (status, firstn (Z.to_nat bufsize) data) /\
  trace (nut_libusb_get_interrupt (Some h) bufsize timeout)
  = EvInterrupt (h_id h) 0x81 bufsize timeout
    :: trace (nut_usb_logerror status "nut_libusb_get_interrupt") /\
  filter is_clear_halt
    (trace (nut_libusb_get_interrupt (Some h) bufsize timeout)) = [].
Proof.
  intros H Hs Hp.
  pose proof (nut_usb_logerror_result status "nut_libusb_get_interrupt") as Hr.
  assert (Hl : filter is_clear_halt
                 (trace (nut_usb_logerror status "nut_libusb_get_interrupt"))
               = []).
  { unfold nut_usb_logerror. destruct (status >=? 0); [reflexivity|].
    case_if; reflexivity. }
  unfold trace, result in *.
  unfold nut_libusb_get_interrupt, libusb_interrupt_transfer.
  rewrite H.
  unfold bind, emit, ret; cbn [fst snd app].
  destruct (Z.eqb_spec status LIBUSB_SUCCESS); [contradiction|].
  destruct (Z.eqb_spec status LIBUSB_ERROR_PIPE); [contradiction|].
  cbn [fst snd app]. rewrite Hr. cbn [fst snd app filter is_clear_halt].
  rewrite app_nil_r, Hl. repeat split; reflexivity.
Qed.

Lemma get_interrupt_failure_witness :
  result (nut_libusb_get_interrupt (Some (mkHandle 0 silent_device)) 8 250)
  = Ret (LIBUSB_ERROR_TIMEOUT, []) /\
  trace (nut_libusb_get_interrupt (Some (mkHandle 0 silent_device)) 8 250)
  = [EvInterrupt 0 0x81 8 250; EvDebugx 2 "%s: %s."] /\
  filter is_clear_halt
    (trace (nut_libusb_get_interrupt (Some (mkHandle 0 silent_device)) 8 250))
  = [].
Proof.
  apply (get_interrupt_failure (mkHandle 0 silent_device) 8 250
           LIBUSB_ERROR_TIMEOUT []).
  - reflexivity.
  - discriminate.
  - discriminate.
Defined.

(** X4. A feature report that is transferred: the request goes out once,
    with [wValue] and [wLength] being [ReportId + 0x0300] and [ReportSize]
    converted to [uint16_t]; [nut_libusb_get_report] returns the number of
    bytes received and [nut_libusb_set_report] the number of bytes sent,
    which is at most the converted length (so below 65536, and for a
    negative [ReportSize] possibly more than the caller asked for) and at
    most what the device transfers; the classifier has nothing to log. *)
Theorem feature_report_transferred (h : handle) (ReportId ReportSize : Z)
  (data : list byte) :
  (dev_control (h_dev h) IN_CLASS_INTERFACE 0x01
     (to_uint16 (ReportId + Z.shiftl 0x03 8)) usb_if_num = XferData data ->
   exists (n : Z) (buf : list byte),
     result (nut_libusb_get_report (Some h) ReportId ReportSize)
     = Ret (n, buf)
     /\ buf = firstn (Z.to_nat (to_uint16 ReportSize)) data
     /\ n = Z.of_nat (List.length buf)
     /\ 0 <= n <= to_uint16 ReportSize /\ to_uint16 ReportSize < 65536
     /\ n <= Z.of_nat (List.length data)
     /\ trace (nut_libusb_get_report (Some h) ReportId ReportSize)
        = [EvDebugx 4 "Entering libusb_get_report";
           EvControl (h_id h) IN_CLASS_INTERFACE 0x01
             (to_uint16 (ReportId + Z.shiftl 0x03 8)) usb_if_num
             (to_uint16 ReportSize)]) /\
  (dev_control (h_dev h) OUT_CLASS_INTERFACE 0x09
     (to_uint16 (ReportId + Z.shiftl 0x03 8)) usb_if_num = XferData data ->
   exists n : Z,
     result (nut_libusb_set_report (Some h) ReportId ReportSize) = Ret n
     /\ n = Z.of_nat
             (List.length (firstn (Z.to_nat (to_uint16 ReportSize)) data))
     /\ 0 <= n <= to_uint16 ReportSize /\ to_uint16 ReportSize < 65536
     /\ n <= Z.of_nat (List.length data)
     /\ trace (nut_libusb_set_report (Some h) ReportId ReportSize)
        = [EvControl (h_id h) OUT_CLASS_INTERFACE 0x09
             (to_uint16 (ReportId + Z.shiftl 0x03 8)) usb_if_num
             (to_uint16 ReportSize)]).
Proof.
  destruct (firstn_length_bound (to_uint16 ReportSize) data) as [Hb Hd].
  assert (Hw : 0 <= to_uint16 ReportSize < 65536).
  { unfold to_uint16. apply Z.mod_pos_bound. lia. }
  assert (Hpipe : forall n : nat, (Z.of_nat n =? LIBUSB_ERROR_PIPE) = false).
  { intros n. apply Z.eqb_neq. unfold LIBUSB_ERROR_PIPE. lia. }
  assert (Hlog : forall (n : nat) (desc : string),
            nut_usb_logerror (Z.of_nat n) desc = ([], Ret (Z.of_nat n))).
  { intros n desc. unfold nut_usb_logerror.
    destruct (Z.geb_spec (Z.of_nat n) 0); [reflexivity|lia]. }
  unfold nut_libusb_get_report, nut_libusb_set_report,
    libusb_control_transfer.
  fold IN_CLASS_INTERFACE OUT_CLASS_INTERFACE.
  unfold bind, emit, upsdebugx, ret, trace, result.
  split; intros H; cbn [fst snd app]; rewrite H; cbn [fst snd app];
    rewrite Hpipe; cbn [fst snd app]; rewrite Hlog; cbn [fst snd app].
  - eexists. eexists. repeat split; try reflexivity; lia.
  - eexists. repeat split; try reflexivity; lia.
Qed.

(** A caller that passes [ReportSize = -1] asks the device for 65535 bytes
    and is told that 3 were received; a report id of 0x10c is sent as
    [wValue = 0x040c]. *)
Lemma feature_report_transferred_witness :
  (exists (n : Z) (buf : list byte),
     result (nut_libusb_get_report (Some (mkHandle 0 talking_device))
               0x10c (-1))
     = Ret (n, buf)
     /\ buf = firstn (Z.to_nat (to_uint16 (-1))) [x0c; x64; x00]
     /\ n = Z.of_nat (List.length buf)
     /\ 0 <= n <= to_uint16 (-1) /\ to_uint16 (-1) < 65536
     /\ n <= Z.of_nat (List.length [x0c; x64; x00])
     /\ trace (nut_libusb_get_report (Some (mkHandle 0 talking_device))
                 0x10c (-1))
        = [EvDebugx 4 "Entering libusb_get_report";
           EvControl 0 IN_CLASS_INTERFACE 0x01 0x040c usb_if_num 65535]) /\
  (exists n : Z,
     result (nut_libusb_set_report (Some (mkHandle 0 talking_device)) 0x0c 1)
     = Ret n
     /\ n = Z.of_nat (List.length (firstn (Z.to_nat (to_uint16 1))
                                     [x0c; x01]))
     /\ 0 <= n <= to_uint16 1 /\ to_uint16 1 < 65536
     /\ n <= Z.of_nat (List.length [x0c; x01])
     /\ trace (nut_libusb_set_report (Some (mkHandle 0 talking_device)) 0x0c 1)
        = [EvControl 0 OUT_CLASS_INTERFACE 0x09 0x030c usb_if_num 1]).
Proof.
  split.
  - apply (proj1 (feature_report_transferred (mkHandle 0 talking_device)
                    0x10c (-1) [x0c; x64; x00])).
    reflexivity.
  - apply (proj2 (feature_report_transferred (mkHandle 0 talking_device)
                    0x0c 1 [x0c; x01])).
    reflexivity.
Defined.

Example get_report_negative_size :
  result (nut_libusb_get_report (Some (mkHandle 0 talking_device)) 0x0c (-1))
  = Ret (3, [x0c; x64; x00]).
Proof. reflexivity. Qed.

(** X5. A feature-report request that fails with a status other than the
    stall: both primitives return the status itself, after the classifier
    has seen it. *)
Theorem feature_report_failure (h : handle) (ReportId ReportSize code : Z) :
  code <> LIBUSB_ERROR_PIPE ->
  (dev_control (h_dev h) IN_CLASS_INTERFACE 0x01
     (to_uint16 (ReportId + Z.shiftl 0x03 8)) usb_if_num = XferErr code ->
   result (nut_libusb_get_report (Some h) ReportId ReportSize)
   = Ret (code, []) /\
   trace (nut_libusb_get_report (Some h) ReportId ReportSize)
   = [EvDebugx 4 "Entering libusb_get_report";
      EvControl (h_id h) IN_CLASS_INTERFACE 0x01
        (to_uint16 (ReportId + Z.shiftl 0x03 8)) usb_if_num
        (to_uint16 ReportSize)]
     ++ trace (nut_usb_logerror code "nut_libusb_get_report")) /\
  (dev_control (h_dev h) OUT_CLASS_INTERFACE 0x09
     (to_uint16 (ReportId + Z.shiftl 0x03 8)) usb_if_num = XferErr code ->
   result (nut_libusb_set_report (Some h) ReportId ReportSize) = Ret code /\
   trace (nut_libusb_set_report (Some h) ReportId ReportSize)
   = [EvControl (h_id h) OUT_CLASS_INTERFACE 0x09
        (to_uint16 (ReportId + Z.shiftl 0x03 8)) usb_if_num
        (to_uint16 ReportSize)]
     ++ trace (nut_usb_logerror code "nut_libusb_set_report")).
Proof.
  intros Hp.
  pose proof (nut_usb_logerror_result code "nut_libusb_get_report") as Hg.
  pose proof (nut_usb_logerror_result code "nut_libusb_set_report") as Hs.
  unfold trace, result in *.
  unfold nut_libusb_get_report, nut_libusb_set_report,
    libusb_control_transfer.
  fold IN_CLASS_INTERFACE OUT_CLASS_INTERFACE.
  unfold bind, emit, upsdebugx, ret.
  split; intros H; cbn [fst snd app]; rewrite H; cbn [fst snd app];
    (destruct (Z.eqb_spec code LIBUSB_ERROR_PIPE); [contradiction|]);
    cbn [fst snd app]; rewrite ?Hg, ?Hs; cbn [fst snd app];
    rewrite ?app_nil_r; split; reflexivity.
Qed.

Lemma feature_report_failure_witness :
  (result (nut_libusb_get_report (Some (mkHandle 0 silent_device)) 0x0c 2)
   = Ret (LIBUSB_ERROR_TIMEOUT, []) /\
   trace (nut_libusb_get_report (Some (mkHandle 0 silent_device)) 0x0c 2)
   = [EvDebugx 4 "Entering libusb_get_report";
      EvControl 0 IN_CLASS_INTERFACE 0x01 (0x0c + Z.shiftl 0x03 8)
        usb_if_num 2]
     ++ [EvDebugx 2 "%s: %s."]) /\
  (result (nut_libusb_set_report (Some (mkHandle 0 silent_device)) 0x0c 2)
   = Ret LIBUSB_ERROR_TIMEOUT /\
   trace (nut_libusb_set_report (Some (mkHandle 0 silent_device)) 0x0c 2)
   = [EvControl 0 OUT_CLASS_INTERFACE 0x09 (0x0c + Z.shiftl 0x03 8)
        usb_if_num 2]
     ++ [EvDebugx 2 "%s: %s."]).
Proof.
  split.
  - apply (proj1 (feature_report_failure (mkHandle 0 silent_device) 0x0c 2
                    LIBUSB_ERROR_TIMEOUT ltac:(discriminate))).
    reflexivity.
  - apply (proj2 (feature_report_failure (mkHandle 0 silent_device) 0x0c 2
                    LIBUSB_ERROR_TIMEOUT ltac:(discriminate))).
    reflexivity.
Defined.

(** X6. [nut_libusb_get_string] makes one request and returns what libusb
    returned, the length of the string or the error status (a stall
    included), together with the string; an error goes through the
    classifier. *)
Theorem get_string_passthrough (h : handle) (StringIdx : Z) :
  (forall s : string,
     dev_string (h_dev h) StringIdx = StrData s ->
     nut_libusb_get_string (Some h) StringIdx
     = ([EvGetString (h_id h) StringIdx],
        Ret (Z.of_nat (String.length s), s))) /\
  (forall code : Z,
     dev_string (h_dev h) StringIdx = StrErr code ->
     result (nut_libusb_get_string (Some h) StringIdx)
     = Ret (code, EmptyString) /\
     trace (nut_libusb_get_string (Some h) StringIdx)
     = EvGetString (h_id h) StringIdx
       :: trace (nut_usb_logerror code "nut_libusb_get_string")).
Proof.
  unfold nut_libusb_get_string, libusb_get_string_descriptor_ascii.
  split.
  - intros s H.
    assert (Hlog : nut_usb_logerror (Z.of_nat (String.length s))
                     "nut_libusb_get_string"
                   = ([], Ret (Z.of_nat (String.length s)))).
    { unfold nut_usb_logerror.
      destruct (Z.geb_spec (Z.of_nat (String.length s)) 0);
        [reflexivity|lia]. }
    unfold bind, emit, ret. cbn [fst snd app]. rewrite H. cbn [fst snd app].
    rewrite Hlog. reflexivity.
  - intros code H.
    pose proof (nut_usb_logerror_result code "nut_libusb_get_string") as Hr.
    unfold trace, result in *.
    unfold bind, emit, ret. cbn [fst snd app]. rewrite H. cbn [fst snd app].
    rewrite Hr. cbn [fst snd app]. rewrite app_nil_r. split; reflexivity.
Qed.

Lemma get_string_passthrough_witness :
  nut_libusb_get_string (Some (mkHandle 0 talking_device)) 2
  = ([EvGetString 0 2], Ret (8, "Back-UPS")) /\
  result (nut_libusb_get_string (Some (mkHandle 0 silent_device)) 2)
  = Ret (LIBUSB_ERROR_TIMEOUT, EmptyString).
Proof.
  split.
  - apply (proj1 (get_string_passthrough (mkHandle 0 talking_device) 2)
             "Back-UPS").
    reflexivity.
  - apply (proj2 (get_string_passthrough (mkHandle 0 silent_device) 2)
             LIBUSB_ERROR_TIMEOUT).
    reflexivity.
Defined.

(** ** Interface acquisition *)

Lemma auto_detach_prologue (cfg : config) (udev : handle) (k : unit -> M Z) :
  exists pre : list event,
    filter is_claim pre = [] /\ filter is_detach pre = [] /\
    trace (bind
             (if HAVE_LIBUSB_KERNEL_DRIVER_ACTIVE cfg
                 && HAVE_LIBUSB_SET_AUTO_DETACH_KERNEL_DRIVER cfg
              then
                r <- libusb_kernel_driver_active udev ;;
                if r =? 1 then
                  upsdebugx 3 "%s: libusb_kernel_driver_active() returned 1 (driver active)." ;;
                  r' <- libusb_set_auto_detach_kernel_driver udev ;;
                  if negb (r' =? LIBUSB_SUCCESS) then
                    upsdebugx 1 "%s: failed to set kernel driver auto-detach driver flag for USB device (%s)."
                  else
                    upsdebugx 2 "%s: successfully set kernel driver auto-detach flag."
                else
                  upsdebugx 3 "%s: libusb_kernel_driver_active() returned %d (%s)."
              else ret tt) k)
    = pre ++ trace (k tt) /\
    result (bind
             (if HAVE_LIBUSB_KERNEL_DRIVER_ACTIVE cfg
                 && HAVE_LIBUSB_SET_AUTO_DETACH_KERNEL_DRIVER cfg
              then
                r <- libusb_kernel_driver_active udev ;;
                if r =? 1 then
                  upsdebugx 3 "%s: libusb_kernel_driver_active() returned 1 (driver active)." ;;
                  r' <- libusb_set_auto_detach_kernel_driver udev ;;
                  if negb (r' =? LIBUSB_SUCCESS) then
                    upsdebugx 1 "%s: failed to set kernel driver auto-detach driver flag for USB device (%s)."
                  else
                    upsdebugx 2 "%s: successfully set kernel driver auto-detach flag."
                else
                  upsdebugx 3 "%s: libusb_kernel_driver_active() returned %d (%s)."
              else ret tt) k)
    = result (k tt).
Proof.
  set (pre := if _ && _ then _ else _).
  assert (Hpre : result pre = Ret tt /\ filter is_claim (trace pre) = []
                 /\ filter is_detach (trace pre) = []).
  { unfold pre, libusb_kernel_driver_active,
      libusb_set_auto_detach_kernel_driver, upsdebugx, emit, ret, bind,
      trace, result.
    destruct (_ && _); cbn [fst snd]; [|auto].
    destruct (_ =? 1); cbn [fst snd]; [|auto].
    destruct (negb _); cbn; auto. }
  destruct Hpre as (Hp1 & Hp2 & Hp3).
  exists (trace pre).
  rewrite (result_bind_ret _ _ tt Hp1), (trace_bind_ret _ _ tt Hp1). auto.
Qed.

(** X7. Built without [libusb_detach_kernel_driver], interface acquisition
    makes exactly one claim attempt, never detaches, and returns the status
    of that attempt. *)
Theorem claim_interface_single_attempt (cfg : config) (udev : handle) :
  HAVE_LIBUSB_DETACH_KERNEL_DRIVER cfg = false ->
  result (nut_usb_claim_interface cfg udev) = Ret (dev_claim (h_dev udev) 0)
  /\ filter is_claim (trace (nut_usb_claim_interface cfg udev))
     = [EvClaim (h_id udev) 0]
  /\ filter is_detach (trace (nut_usb_claim_interface cfg udev)) = [].
Proof.
  intros Hcfg. unfold nut_usb_claim_interface.
  destruct (auto_detach_prologue cfg udev
              (fun _ : unit =>
                 if HAVE_LIBUSB_DETACH_KERNEL_DRIVER cfg
                 then claim_retry udev 3 0
                 else r <- libusb_claim_interface udev 0 ;;
                      if negb (r =? LIBUSB_SUCCESS) then ret r
                      else ret LIBUSB_SUCCESS))
    as (pre & Hc & Hd & Ht & Hr).
  rewrite Ht, Hr, Hcfg, !filter_app, Hc, Hd.
  unfold libusb_claim_interface, bind, emit, ret, trace, result.
  cbn [fst snd app].
  destruct (Z.eqb_spec (dev_claim (h_dev udev) 0) LIBUSB_SUCCESS) as [E|E];
    cbn [negb fst snd app filter is_claim is_detach]; rewrite ?E;
    repeat split; reflexivity.
Qed.

Lemma claim_interface_single_attempt_witness :
  result (nut_usb_claim_interface plain_config (mkHandle 0 busy_device))
  = Ret LIBUSB_ERROR_BUSY
  /\ filter is_claim
       (trace (nut_usb_claim_interface plain_config (mkHandle 0 busy_device)))
     = [EvClaim 0 0]
  /\ filter is_detach
       (trace (nut_usb_claim_interface plain_config (mkHandle 0 busy_device)))
     = [].
Proof.
  apply (claim_interface_single_attempt plain_config (mkHandle 0 busy_device)).
  reflexivity.
Defined.

Lemma claim_retry_first_success (udev : handle) (retries : nat) :
  forall attempt : nat,
  exists k : nat,
    (k <= retries)%nat /\
    (forall j : nat, (j < k)%nat ->
       dev_claim (h_dev udev) (attempt + j) <> LIBUSB_SUCCESS) /\
    (dev_claim (h_dev udev) (attempt + k) <> LIBUSB_SUCCESS -> k = retries) /\
    result (claim_retry udev retries attempt)
    = Ret (dev_claim (h_dev udev) (attempt + k)) /\
    filter is_claim (trace (claim_retry udev retries attempt))
    = map (EvClaim (h_id udev)) (seq attempt (S k)) /\
    filter is_detach (trace (claim_retry udev retries attempt))
    = map (EvDetach (h_id udev)) (seq attempt k).
Proof.
  induction retries as [|n IH]; intros a.
  - exists 0%nat. rewrite Nat.add_0_r.
    unfold claim_retry, libusb_claim_interface, upsdebugx, emit, ret, bind,
      trace, result; cbn [fst snd].
    destruct (Z.eqb_spec (dev_claim (h_dev udev) a) LIBUSB_SUCCESS) as [E|E];
      cbn [negb fst snd app filter is_claim is_detach map seq]; rewrite ?E;
      repeat split; auto; intros; lia.
  - destruct (Z.eqb_spec (dev_claim (h_dev udev) a) LIBUSB_SUCCESS) as [E|E].
    + exists 0%nat. rewrite Nat.add_0_r.
      unfold trace, result.
      cbn [claim_retry]. unfold libusb_claim_interface, emit, ret, bind.
      cbn [fst snd]. rewrite E. cbn.
      repeat split; auto; intros; try lia.
    + destruct (IH (S a)) as (k & Hk & Hfail & Hlast & Hr & Hc & Hd).
      exists (S k).
      replace (a + S k)%nat with (S a + k)%nat by lia.
      unfold trace, result in *.
      cbn [claim_retry].
      unfold libusb_claim_interface, libusb_detach_kernel_driver, upsdebugx,
        emit, ret, bind; cbn [fst snd].
      destruct (Z.eqb_spec (dev_claim (h_dev udev) a) LIBUSB_SUCCESS);
        [contradiction|].
      cbn [negb fst snd].
      assert (Hj : forall j : nat, (j < S k)%nat ->
                dev_claim (h_dev udev) (a + j) <> LIBUSB_SUCCESS).
      { intros [|j] Hlt; [rewrite Nat.add_0_r; exact E|].
        replace (a + S j)%nat with (S a + j)%nat by lia.
        apply Hfail. lia. }
      destruct (dev_detach (h_dev udev) a =? LIBUSB_SUCCESS);
        [|destruct (dev_detach (h_dev udev) a =? LIBUSB_ERROR_NOT_FOUND)];
        cbn [fst snd]; rewrite Hr;
        cbn [app filter is_claim is_detach]; rewrite Hc, Hd;
        (split; [lia|]); (split; [exact Hj|]);
        (split; [intros Hne; rewrite (Hlast Hne); reflexivity|]);
        repeat split; reflexivity.
Qed.

(** X8. On the explicit-detach path the claim is attempted until it
    succeeds or four attempts have failed, whatever the detach calls
    return: attempts 0..k are made, k being the first attempt that succeeds
    (or 3), one detach follows each failed attempt before k, and the
    function returns the status of attempt k. *)
Theorem claim_interface_first_success (cfg : config) (udev : handle) :
  HAVE_LIBUSB_DETACH_KERNEL_DRIVER cfg = true ->
  exists k : nat,
    (k <= 3)%nat /\
    (forall j : nat, (j < k)%nat ->
       dev_claim (h_dev udev) j <> LIBUSB_SUCCESS) /\
    (dev_claim (h_dev udev) k <> LIBUSB_SUCCESS -> k = 3%nat) /\
    result (nut_usb_claim_interface cfg udev)
    = Ret (dev_claim (h_dev udev) k) /\
    filter is_claim (trace (nut_usb_claim_interface cfg udev))
    = map (EvClaim (h_id udev)) (seq 0 (S k)) /\
    filter is_detach (trace (nut_usb_claim_interface cfg udev))
    = map (EvDetach (h_id udev)) (seq 0 k).
Proof.
  intros Hcfg.
  destruct (claim_retry_first_success udev 3 0)
    as (k & Hk & Hfail & Hlast & Hr & Hc & Hd).
  exists k. unfold nut_usb_claim_interface.
  destruct (auto_detach_prologue cfg udev
              (fun _ : unit =>
                 if HAVE_LIBUSB_DETACH_KERNEL_DRIVER cfg
                 then claim_retry udev 3 0
                 else r <- libusb_claim_interface udev 0 ;;
                      if negb (r =? LIBUSB_SUCCESS) then ret r
                      else ret LIBUSB_SUCCESS))
    as (pre & Hpc & Hpd & Ht & Hres).
  rewrite Ht, Hres, Hcfg, !filter_app, Hpc, Hpd, Hr, Hc, Hd.
  repeat split; auto.
Qed.

Lemma claim_interface_first_success_witness :
  exists k : nat,
    (k <= 3)%nat /\
    (forall j : nat, (j < k)%nat ->
       dev_claim (h_dev (mkHandle 0 stubborn_device)) j <> LIBUSB_SUCCESS) /\
    (dev_claim (h_dev (mkHandle 0 stubborn_device)) k <> LIBUSB_SUCCESS
     -> k = 3%nat) /\
    result (nut_usb_claim_interface sample_config (mkHandle 0 stubborn_device))
    = Ret (dev_claim (h_dev (mkHandle 0 stubborn_device)) k) /\
    filter is_claim
      (trace (nut_usb_claim_interface sample_config
                (mkHandle 0 stubborn_device)))
    = map (EvClaim (h_id (mkHandle 0 stubborn_device))) (seq 0 (S k)) /\
    filter is_detach
      (trace (nut_usb_claim_interface sample_config
                (mkHandle 0 stubborn_device)))
    = map (EvDetach (h_id (mkHandle 0 stubborn_device))) (seq 0 k).
Proof.
  apply (claim_interface_first_success sample_config
           (mkHandle 0 stubborn_device)).
  reflexivity.
Defined.

(** The explicit-detach path on a device claimed at the third attempt,
    with detach calls that fail. *)
Example claim_interface_third_attempt :
  result (nut_usb_claim_interface sample_config (mkHandle 0 stubborn_device))
  = Ret LIBUSB_SUCCESS /\
  filter is_claim
    (trace (nut_usb_claim_interface sample_config (mkHandle 0 stubborn_device)))
  = [EvClaim 0 0; EvClaim 0 1; EvClaim 0 2] /\
  filter is_detach
    (trace (nut_usb_claim_interface sample_config (mkHandle 0 stubborn_device)))
  = [EvDetach 0 0; EvDetach 0 1].
Proof. repeat split; reflexivity. Qed.

Lemma claim_retry_no_auto_detach (udev : handle) (retries : nat) :
  forall attempt : nat,
  Forall (fun e => is_auto_detach_query e = false)
    (trace (claim_retry udev retries attempt)).
Proof.
  induction retries as [|n IH]; intros attempt; cbn [claim_retry];
    unfold libusb_claim_interface, libusb_detach_kernel_driver.
  - trace_forall.
  - specialize (IH (S attempt)). trace_forall.
Qed.

(** X9. The kernel driver is asked about only in a build that has both
    [libusb_kernel_driver_active] and
    [libusb_set_auto_detach_kernel_driver]; the auto-detach flag is then set
    exactly when the answer is 1, any other answer (0, an error, not
    implemented) counting as "no driver". *)
Theorem auto_detach_only_for_active_driver (cfg : config) (udev : handle) :
  filter is_auto_detach_query (trace (nut_usb_claim_interface cfg udev))
  = if HAVE_LIBUSB_KERNEL_DRIVER_ACTIVE cfg
       && HAVE_LIBUSB_SET_AUTO_DETACH_KERNEL_DRIVER cfg
    then
      if dev_kernel_driver_active (h_dev udev) =? 1
      then [EvKernelDriverActive (h_id udev); EvSetAutoDetach (h_id udev)]
      else [EvKernelDriverActive (h_id udev)]
    else [].
Proof.
  unfold nut_usb_claim_interface.
  set (k := fun _ : unit => if HAVE_LIBUSB_DETACH_KERNEL_DRIVER cfg
                            then _ else _).
  assert (Hk : filter is_auto_detach_query (trace (k tt)) = []).
  { apply filter_none. unfold k.
    destruct (HAVE_LIBUSB_DETACH_KERNEL_DRIVER cfg).
    - apply claim_retry_no_auto_detach.
    - unfold libusb_claim_interface. trace_forall. }
  set (pre := if HAVE_LIBUSB_KERNEL_DRIVER_ACTIVE cfg
                 && HAVE_LIBUSB_SET_AUTO_DETACH_KERNEL_DRIVER cfg
              then _ else _).
  assert (Hpre : result pre = Ret tt /\
            filter is_auto_detach_query (trace pre)
            = if HAVE_LIBUSB_KERNEL_DRIVER_ACTIVE cfg
                 && HAVE_LIBUSB_SET_AUTO_DETACH_KERNEL_DRIVER cfg
              then
                if dev_kernel_driver_active (h_dev udev) =? 1
                then [EvKernelDriverActive (h_id udev);
                      EvSetAutoDetach (h_id udev)]
                else [EvKernelDriverActive (h_id udev)]
              else []).
  { unfold pre, libusb_kernel_driver_active,
      libusb_set_auto_detach_kernel_driver, upsdebugx, emit, ret, bind,
      trace, result.
    destruct (_ && _); cbn [fst snd]; [|auto].
    destruct (_ =? 1); cbn [fst snd]; [|auto].
    destruct (negb _); cbn; auto. }
  destruct Hpre as [Hp1 Hp2].
  rewrite (trace_bind_ret _ _ tt Hp1), filter_app, Hp2, Hk.
  apply app_nil_r.
Qed.

(** ** Alternate-setting negotiation *)

(** X10. Without the option [usb_set_altinterface] nothing is sent to the
    device and the result is success.  With the option, the alternate
    setting is set exactly once, to the integer given (also when it is
    outside 0..255) or to 0 when the option has no value; the status of
    that call is returned, and the notice that the call should not be
    necessary is the last thing logged. *)
Theorem set_altinterface_request (cfg : config) (udev : handle) :
  (usb_set_altinterface cfg = None ->
   result (nut_usb_set_altinterface cfg udev) = Ret LIBUSB_SUCCESS /\
   filter is_bus_event (trace (nut_usb_set_altinterface cfg udev)) = []) /\
  (forall (alt_string : option string) (a : Z),
     usb_set_altinterface cfg = Some alt_string ->
     match alt_string with
     | Some s => str_to_int cfg s = Some a
     | None => a = 0
     end ->
     result (nut_usb_set_altinterface cfg udev)
     = Ret (dev_set_alt (h_dev udev) a)
     /\ filter is_bus_event (trace (nut_usb_set_altinterface cfg udev))
        = [EvSetAlt (h_id udev) a]
     /\ last (trace (nut_usb_set_altinterface cfg udev)) EvInit
        = EvLogx LOG_NOTICE
            "%s: libusb_set_interface_alt_setting() should not be necessary - please email the nut-upsdev list with information about your device.").
Proof.
  unfold nut_usb_set_altinterface, libusb_set_interface_alt_setting.
  split.
  - intros ->. split; reflexivity.
  - intros alt_string a -> Ha.
    unfold upsdebugx, upslogx, bind, emit, ret, trace, result.
    destruct alt_string as [s|]; [rewrite Ha|subst a];
      cbn [fst snd app];
      repeat (case_if; cbn [fst snd app filter is_bus_event last]);
      repeat split; reflexivity.
Qed.

Lemma set_altinterface_request_witness :
  (result (nut_usb_set_altinterface sample_config (mkHandle 0 apc_device))
   = Ret LIBUSB_SUCCESS /\
   filter is_bus_event
     (trace (nut_usb_set_altinterface sample_config (mkHandle 0 apc_device)))
   = []) /\
  (result (nut_usb_set_altinterface altinterface_config
             (mkHandle 0 apc_device))
   = Ret (dev_set_alt apc_device 300)
   /\ filter is_bus_event
        (trace (nut_usb_set_altinterface altinterface_config
                  (mkHandle 0 apc_device)))
      = [EvSetAlt 0 300]
   /\ last (trace (nut_usb_set_altinterface altinterface_config
                     (mkHandle 0 apc_device))) EvInit
      = EvLogx LOG_NOTICE
          "%s: libusb_set_interface_alt_setting() should not be necessary - please email the nut-upsdev list with information about your device.").
Proof.
  split.
  - apply (proj1 (set_altinterface_request sample_config
                    (mkHandle 0 apc_device))).
    reflexivity.
  - apply (proj2 (set_altinterface_request altinterface_config
                    (mkHandle 0 apc_device)) (Some "300") 300).
    + reflexivity.
    + reflexivity.
Defined.

(** ** The two methods of descriptor discovery *)

Lemma byte_at_bound (p : list byte) (i : Z) : 0 <= byte_at p i < 256.
Proof.
  unfold byte_at, byte_val.
  pose proof (Byte.to_N_bounded (nth (Z.to_nat i) p x00)). lia.
Qed.

Lemma lor_shiftl_8 (a b : Z) :
  0 <= a < 256 -> 0 <= b -> Z.lor a (Z.shiftl b 8) = a + 256 * b.
Proof.
  intros Ha Hb.
  assert (Hland : Z.land a (Z.shiftl b 8) = 0).
  { apply Z.bits_inj'. intros n Hn.
    rewrite Z.land_spec, Z.bits_0.
    destruct (Z.lt_ge_cases n 8) as [Hlt|Hge].
    - rewrite (Z.shiftl_spec_low b 8 n Hlt). apply andb_false_r.
    - destruct (Z.eq_dec a 0) as [->|Hnz].
      + rewrite Z.bits_0. reflexivity.
      + rewrite (Z.bits_above_log2 a n); [reflexivity|lia|].
        assert (Z.log2 a < 8); [|lia].
        apply Z.log2_lt_pow2; [lia|]. change (2 ^ 8) with 256. lia. }
  rewrite <- (Z.lxor_lor _ _ Hland), <- (Z.add_nocarry_lxor _ _ Hland).
  rewrite Z.shiftl_mul_pow2 by lia. change (2 ^ 8) with 256. lia.
Qed.

(** The report length of a HID descriptor is its bytes 7 and 8 read as a
    little-endian 16-bit number. *)
Lemma report_length_value (p : list byte) (i : Z) :
  report_length p i = byte_at p (i + 7) + 256 * byte_at p (i + 8) /\
  0 <= report_length p i < 65536.
Proof.
  pose proof (byte_at_bound p (i + 7)) as H7.
  pose proof (byte_at_bound p (i + 8)) as H8.
  unfold report_length, to_uint16.
  rewrite lor_shiftl_8 by lia.
  rewrite Z.mod_small by lia. lia.
Qed.

Lemma byte_at_firstn (n : nat) (p : list byte) (i : Z) :
  0 <= i < Z.of_nat n -> byte_at (firstn n p) i = byte_at p i.
Proof.
  intros Hi. unfold byte_at. f_equal.
  rewrite nth_firstn.
  destruct (Nat.ltb_spec (Z.to_nat i) n); [reflexivity|lia].
Qed.

(** X11. The first method makes one GET_DESCRIPTOR request of 9 bytes for
    the HID descriptor.  An error gives no length; so does an answer of
    fewer than 9 bytes; an answer of 9 bytes or more gives the length
    [byte 7 + 256 * byte 8], which is below 65536. *)
Theorem hid_method1_length (udev : handle) (idx : Z) :
  filter is_control (trace (hid_method1 udev idx))
  = [EvControl (h_id udev) IN_STANDARD_INTERFACE LIBUSB_REQUEST_GET_DESCRIPTOR
       (Z.shiftl LIBUSB_DT_HID 8 + idx) usb_if_num 9] /\
  (forall code : Z,
     dev_control (h_dev udev) IN_STANDARD_INTERFACE
       LIBUSB_REQUEST_GET_DESCRIPTOR (Z.shiftl LIBUSB_DT_HID 8 + idx)
       usb_if_num = XferErr code ->
     code < 0 ->
     result (hid_method1 udev idx) = Ret None) /\
  (forall data : list byte,
     dev_control (h_dev udev) IN_STANDARD_INTERFACE
       LIBUSB_REQUEST_GET_DESCRIPTOR (Z.shiftl LIBUSB_DT_HID 8 + idx)
       usb_if_num = XferData data ->
     ((List.length data < 9)%nat ->
      result (hid_method1 udev idx) = Ret None) /\
     ((9 <= List.length data)%nat ->
      result (hid_method1 udev idx)
      = Ret (Some (byte_at data 7 + 256 * byte_at data 8)) /\
      0 <= byte_at data 7 + 256 * byte_at data 8 < 65536)).
Proof.
  unfold hid_method1, libusb_control_transfer.
  split; [|split].
  - unfold bind, emit, upsdebugx, upsdebug_hex, ret, trace, result.
    cbn [fst snd app].
    destruct (dev_control _ _ _ _ _); cbn [fst snd app];
      repeat (case_if; cbn [fst snd app filter is_control]); reflexivity.
  - intros code H Hneg.
    unfold bind, emit, upsdebugx, upsdebug_hex, ret, trace, result.
    cbn [fst snd app]. rewrite H. cbn [fst snd app].
    destruct (Z.ltb_spec code 0); [reflexivity|lia].
  - intros data H.
    pose proof (length_firstn 9 data) as Hlen.
    change (Z.to_nat 9) with 9%nat.
    unfold bind, emit, upsdebugx, upsdebug_hex, ret, trace, result.
    cbn [fst snd app]. rewrite H. cbn [fst snd app].
    split; intros Hd.
    + destruct (Z.ltb_spec (Z.of_nat (List.length (firstn 9 data))) 0);
        [reflexivity|].
      destruct (Z.ltb_spec (Z.of_nat (List.length (firstn 9 data))) 9);
        [reflexivity|lia].
    + destruct (Z.ltb_spec (Z.of_nat (List.length (firstn 9 data))) 0);
        [lia|].
      destruct (Z.ltb_spec (Z.of_nat (List.length (firstn 9 data))) 9);
        [lia|].
      cbn [fst snd app].
      destruct (report_length_value (firstn 9 data) 0) as [Hv Hb].
      rewrite Hv in *. cbn [Z.add] in *.
      rewrite !byte_at_firstn in * by lia.
      split; [reflexivity|exact Hb].
Qed.

Lemma hid_method1_length_witness :
  result (hid_method1 (mkHandle 0 silent_device) 0) = Ret None /\
  result (hid_method1 (mkHandle 0 short_hid_device) 0) = Ret None /\
  result (hid_method1 (mkHandle 0 eaton_202_device) 1)
  = Ret (Some (byte_at (hid_header x03 x00) 7
               + 256 * byte_at (hid_header x03 x00) 8)).
Proof.
  split; [|split].
  - apply (proj1 (proj2 (hid_method1_length (mkHandle 0 silent_device) 0))
             LIBUSB_ERROR_TIMEOUT).
    + reflexivity.
    + reflexivity.
  - apply (proj1 (proj2 (proj2 (hid_method1_length
                                  (mkHandle 0 short_hid_device) 0))
                    [x09; x21; x10; x01] eq_refl)).
    cbn. lia.
  - apply (proj2 (proj2 (proj2 (hid_method1_length
                                  (mkHandle 0 eaton_202_device) 1))
                    (hid_header x03 x00) eq_refl)).
    cbn. lia.
Defined.

Lemma scan_extra_sound (extra : list byte) (fuel : nat) :
  forall (i r : Z),
  0 <= i ->
  result (scan_extra fuel extra i) = Ret (Some r) ->
  exists j : Z,
    i <= j <= Z.of_nat (List.length extra) - 9 /\
    9 <= byte_at extra j /\
    byte_at extra (j + 1) = LIBUSB_DT_HID /\
    r = byte_at extra (j + 7) + 256 * byte_at extra (j + 8).
Proof.
  induction fuel as [|fuel IH]; intros i r Hi Hr; [discriminate Hr|].
  cbn [scan_extra] in Hr.
  destruct (Z.leb_spec i (Z.of_nat (List.length extra) - 9)) as [Hle|Hgt];
    [|discriminate Hr].
  pose proof (byte_at_bound extra i) as Hb.
  revert Hr. mstep.
  destruct (Z.ltb_spec (byte_at extra i) 9) as [Hs|Hs].
  - intros Hr. destruct (IH (i + byte_at extra i) r ltac:(lia) Hr) as (j & Hj & Hrest).
    exists j. split; [lia|exact Hrest].
  - destruct (Z.eqb_spec (byte_at extra (i + 1)) LIBUSB_DT_HID) as [Ht|Ht];
      cbn [negb].
    + mstep. intros Hr. injection Hr as <-.
      exists i. destruct (report_length_value extra i) as [Hv _].
      repeat split; auto; lia.
    + intros Hr. destruct (IH (i + byte_at extra i) r ltac:(lia) Hr) as (j & Hj & Hrest).
      exists j. split; [lia|exact Hrest].
Qed.

(** X12. What the scan of the second method finds is a HID descriptor
    inside the extra bytes: a position [j] with at least 9 bytes left, a
    length byte of 9 or more and the type byte 0x21, the result being bytes
    [j+7] and [j+8] little-endian.  Extra bytes shorter than 9 give
    nothing, without a single iteration. *)
Theorem scan_hid_descriptor_sound (extra : list byte) :
  (forall r : Z,
     result (scan_hid_descriptor extra) = Ret (Some r) ->
     exists j : Z,
       0 <= j <= Z.of_nat (List.length extra) - 9 /\
       9 <= byte_at extra j /\
       byte_at extra (j + 1) = LIBUSB_DT_HID /\
       r = byte_at extra (j + 7) + 256 * byte_at extra (j + 8)) /\
  ((List.length extra < 9)%nat ->
   scan_hid_descriptor extra = ([], Ret None)).
Proof.
  split.
  - intros r Hr.
    apply (scan_extra_sound extra (S (List.length extra)) 0 r);
      [lia|exact Hr].
  - intros Hshort. unfold scan_hid_descriptor. cbn [scan_extra].
    destruct (Z.leb_spec 0 (Z.of_nat (List.length extra) - 9));
      [lia|reflexivity].
Qed.

Lemma scan_hid_descriptor_sound_witness :
  (exists j : Z,
     0 <= j <= Z.of_nat (List.length (x03 :: x0b :: x00 :: hid_header x1b x02))
               - 9 /\
     9 <= byte_at (x03 :: x0b :: x00 :: hid_header x1b x02) j /\
     byte_at (x03 :: x0b :: x00 :: hid_header x1b x02) (j + 1)
     = LIBUSB_DT_HID /\
     539 = byte_at (x03 :: x0b :: x00 :: hid_header x1b x02) (j + 7)
           + 256 * byte_at (x03 :: x0b :: x00 :: hid_header x1b x02) (j + 8))
  /\ scan_hid_descriptor [x09; x21; x10] = ([], Ret None).
Proof.
  split.
  - apply (proj1 (scan_hid_descriptor_sound
                    (x03 :: x0b :: x00 :: hid_header x1b x02)) 539).
    reflexivity.
  - apply (proj2 (scan_hid_descriptor_sound [x09; x21; x10])).
    cbn. lia.
Defined.

Lemma byte_at_app_r (l1 l2 : list byte) (k : Z) :
  0 <= k ->
  byte_at (l1 ++ l2) (Z.of_nat (List.length l1) + k) = byte_at l2 k.
Proof.
  intros Hk. unfold byte_at. f_equal.
  replace (Z.to_nat (Z.of_nat (List.length l1) + k))
    with (List.length l1 + Z.to_nat k)%nat by lia.
  apply app_nth2_plus.
Qed.

Lemma byte_at_app_l (l1 l2 : list byte) (k : Z) :
  0 <= k < Z.of_nat (List.length l1) ->
  byte_at (l1 ++ l2) k = byte_at l1 k.
Proof.
  intros Hk. unfold byte_at. f_equal. apply app_nth1. lia.
Qed.

Lemma scan_extra_chain (pre : list (list byte)) (d rest : list byte) :
  forall (fuel : nat) (done : list byte),
  Forall well_formed_descriptor pre ->
  forallb (fun x => negb (is_hid_descriptor x)) pre = true ->
  well_formed_descriptor d ->
  is_hid_descriptor d = true ->
  (List.length pre < fuel)%nat ->
  result (scan_extra fuel (done ++ List.concat pre ++ d ++ rest)
            (Z.of_nat (List.length done)))
  = Ret (Some (byte_at d 7 + 256 * byte_at d 8)).
Proof.
  induction pre as [|p pre IH];
    intros fuel done Hwf Hnot Hd Hhid Hfuel.
  - destruct fuel as [|fuel]; [cbn in Hfuel; lia|].
    cbn [List.concat app scan_extra].
    unfold is_hid_descriptor in Hhid.
    apply andb_prop in Hhid. destruct Hhid as [Hl Ht].
    apply Nat.leb_le in Hl. apply Z.eqb_eq in Ht.
    destruct Hd as [Hne Hlen].
    rewrite !length_app.
    destruct (Z.leb_spec (Z.of_nat (List.length done))
                (Z.of_nat (List.length done
                           + (List.length d + List.length rest)) - 9));
      [|lia].
    mstep.
    pose proof (byte_at_app_r done (d ++ rest) 0 ltac:(lia)) as H0.
    rewrite Z.add_0_r in H0. rewrite H0.
    rewrite (byte_at_app_l d rest 0) by lia. rewrite Hlen.
    destruct (Z.ltb_spec (Z.of_nat (List.length d)) 9); [lia|].
    rewrite (byte_at_app_r done (d ++ rest) 1) by lia.
    rewrite (byte_at_app_l d rest 1) by lia. rewrite Ht.
    change (negb (LIBUSB_DT_HID =? LIBUSB_DT_HID)) with false. cbv iota.
    mstep. cbn [result ret snd].
    destruct (report_length_value (done ++ d ++ rest)
                (Z.of_nat (List.length done))) as [Hv _].
    rewrite Hv.
    rewrite (byte_at_app_r done (d ++ rest) 7) by lia.
    rewrite (byte_at_app_r done (d ++ rest) 8) by lia.
    rewrite (byte_at_app_l d rest 7) by lia.
    rewrite (byte_at_app_l d rest 8) by lia.
    reflexivity.
  - destruct fuel as [|fuel]; [cbn in Hfuel; lia|].
    cbn [List.length] in Hfuel.
    inversion Hwf as [|? ? Hp Hwf']; subst.
    cbn [forallb] in Hnot. apply andb_prop in Hnot.
    destruct Hnot as [Hpn Hnot].
    destruct Hp as [Hpne Hplen].
    assert (Hpl : (1 <= List.length p)%nat).
    { destruct p; [contradiction|cbn; lia]. }
    unfold is_hid_descriptor in Hhid.
    pose proof Hhid as Hhid'.
    apply andb_prop in Hhid'. destruct Hhid' as [Hl _].
    apply Nat.leb_le in Hl.
    cbn [List.concat scan_extra].
    rewrite <- !app_assoc.
    rewrite !length_app.
    destruct (Z.leb_spec (Z.of_nat (List.length done))
                (Z.of_nat (List.length done
                           + (List.length p
                              + (List.length (List.concat pre)
                                 + (List.length d + List.length rest)))) - 9));
      [|lia].
    mstep.
    pose proof (byte_at_app_r done (p ++ List.concat pre ++ d ++ rest) 0
                  ltac:(lia)) as H0.
    rewrite Z.add_0_r in H0. rewrite H0.
    rewrite (byte_at_app_l p _ 0) by lia. rewrite Hplen.
    assert (Hnext :
      result (scan_extra fuel (done ++ p ++ List.concat pre ++ d ++ rest)
                (Z.of_nat (List.length done) + Z.of_nat (List.length p)))
      = Ret (Some (byte_at d 7 + 256 * byte_at d 8))).
    { specialize (IH fuel (done ++ p) Hwf' Hnot Hd Hhid ltac:(lia)).
      rewrite <- !app_assoc in IH. rewrite length_app, Nat2Z.inj_add in IH.
      exact IH. }
    revert Hnext.
    generalize (scan_extra fuel (done ++ p ++ List.concat pre ++ d ++ rest)
                  (Z.of_nat (List.length done) + Z.of_nat (List.length p))).
    intros m Hm.
    destruct (Z.ltb_spec (Z.of_nat (List.length p)) 9); [exact Hm|].
    rewrite (byte_at_app_r done (p ++ List.concat pre ++ d ++ rest) 1) by lia.
    rewrite (byte_at_app_l p _ 1) by lia.
    unfold is_hid_descriptor in Hpn.
    destruct (Nat.leb_spec 9 (List.length p)); [|lia].
    cbn [andb negb] in Hpn.
    destruct (byte_at p 1 =? LIBUSB_DT_HID); [discriminate Hpn|].
    exact Hm.
Qed.

Lemma concat_length_ge (pre : list (list byte)) :
  Forall well_formed_descriptor pre ->
  (List.length pre <= List.length (List.concat pre))%nat.
Proof.
  induction 1 as [|p pre [Hne _] _ IH]; [reflexivity|].
  cbn [List.concat List.length]. rewrite length_app.
  destruct p; [contradiction|cbn [List.length]; lia].
Qed.

(** X13. On extra bytes that are a list of well-formed descriptors (each
    starting with its own length), the scan of the second method finds the
    first descriptor that has 9 bytes or more and the type HID, whatever
    follows it, and gives its bytes 7 and 8 as the length. *)
Theorem scan_finds_first_hid_descriptor (pre : list (list byte))
  (d rest : list byte) :
  Forall well_formed_descriptor pre ->
  forallb (fun x => negb (is_hid_descriptor x)) pre = true ->
  well_formed_descriptor d ->
  is_hid_descriptor d = true ->
  result (scan_hid_descriptor (List.concat pre ++ d ++ rest))
  = Ret (Some (byte_at d 7 + 256 * byte_at d 8)).
Proof.
  intros Hwf Hnot Hd Hhid.
  pose proof (concat_length_ge pre Hwf) as Hlen.
  unfold scan_hid_descriptor.
  apply (scan_extra_chain pre d rest _ [] Hwf Hnot Hd Hhid).
  rewrite length_app. lia.
Qed.

Lemma scan_finds_first_hid_descriptor_witness :
  result (scan_hid_descriptor
            (List.concat [[x03; x0b; x00];
                          [x09; x24; x01; x00; x01; x19; x00; x01; x01]]
             ++ hid_header x1b x02 ++ [x07; x05; x81; x03; x08; x00; x0a]))
  = Ret (Some (byte_at (hid_header x1b x02) 7
               + 256 * byte_at (hid_header x1b x02) 8)).
Proof.
  apply (scan_finds_first_hid_descriptor
           [[x03; x0b; x00]; [x09; x24; x01; x00; x01; x19; x00; x01; x01]]
           (hid_header x1b x02) [x07; x05; x81; x03; x08; x00; x0a]).
  - repeat constructor; discriminate.
  - reflexivity.
  - split; [discriminate|reflexivity].
  - reflexivity.
Defined.

Lemma scan_extra_spin_zero (extra : list byte) (fuel : nat) :
  forall i : Z,
  0 <= i ->
  Z.max 0 (Z.of_nat (List.length extra) - 8 - i) < Z.of_nat fuel ->
  result (scan_extra fuel extra i) = Spin ->
  exists j : Z,
    i <= j <= Z.of_nat (List.length extra) - 9 /\ byte_at extra j = 0.
Proof.
  induction fuel as [|fuel IH]; intros i Hi Hfuel Hs; [lia|].
  cbn [scan_extra] in Hs.
  destruct (Z.leb_spec i (Z.of_nat (List.length extra) - 9)) as [Hle|Hgt];
    [|discriminate Hs].
  pose proof (byte_at_bound extra i) as Hb.
  destruct (Z.eq_dec (byte_at extra i) 0) as [Hz|Hnz].
  { exists i. split; [lia|exact Hz]. }
  assert (Hnext : result (scan_extra fuel extra (i + byte_at extra i)) = Spin
                  -> exists j : Z,
                       i <= j <= Z.of_nat (List.length extra) - 9
                       /\ byte_at extra j = 0).
  { intros Hs'.
    destruct (IH (i + byte_at extra i) ltac:(lia) ltac:(lia) Hs')
      as (j & Hj & Hz).
    exists j. split; [lia|exact Hz]. }
  revert Hs. mstep.
  destruct (byte_at extra i <? 9); [exact Hnext|].
  destruct (negb (byte_at extra (i + 1) =? LIBUSB_DT_HID)); [exact Hnext|].
  mstep. discriminate.
Qed.

(** X14. The scan of the second method ends when no length byte 0 is at a
    position from 0 to [extra_length - 9].  When it does not end, there is
    such a byte, and no number of iterations is enough: the process hangs in
    [nut_libusb_open]. *)
Theorem scan_hid_descriptor_ends_or_hangs (extra : list byte) :
  ((forall j : Z, 0 <= j <= Z.of_nat (List.length extra) - 9 ->
                  byte_at extra j <> 0) ->
   returns (scan_hid_descriptor extra)) /\
  (result (scan_hid_descriptor extra) = Spin ->
   (exists j : Z, 0 <= j <= Z.of_nat (List.length extra) - 9
                  /\ byte_at extra j = 0) /\
   forall fuel : nat, result (scan_extra fuel extra 0) = Spin).
Proof.
  split.
  - apply scan_hid_descriptor_returns.
  - intros Hs. split.
    + apply (scan_extra_spin_zero extra (S (List.length extra)) 0);
        [lia|lia|exact Hs].
    + apply scan_hid_descriptor_spin_forever. exact Hs.
Qed.

Lemma scan_hid_descriptor_ends_or_hangs_witness :
  returns (scan_hid_descriptor (hid_header x1b x02)) /\
  forall fuel : nat,
    result (scan_extra fuel [x00; x21; x10; x01; x00; x01; x22; x1b; x00] 0)
    = Spin.
Proof.
  split.
  - apply (proj1 (scan_hid_descriptor_ends_or_hangs (hid_header x1b x02))).
    intros j Hj. cbn in Hj. assert (j = 0) as -> by lia. discriminate.
  - apply (proj2 (scan_hid_descriptor_ends_or_hangs
                    [x00; x21; x10; x01; x00; x01; x22; x1b; x00])).
    reflexivity.
Defined.

(** X15. A candidate for which the second method runs and whose extra
    bytes, 9 or more, start with a length byte 0 makes descriptor discovery
    hang: it never reaches the fetch of the report descriptor. *)
Theorem zero_length_descriptor_hangs_discovery (udev : handle) (devnum : nat)
  (cur : USBDevice_t) (cb : callback_t) (extra : list byte) :
  skips_method2 cur = false ->
  dev_config (h_dev udev) = CfgExtra extra ->
  (9 <= List.length extra)%nat ->
  byte_at extra 0 = 0 ->
  result (descriptor_discovery udev devnum cur cb) = Spin /\
  filter is_report_fetch (trace (descriptor_discovery udev devnum cur cb))
  = [].
Proof.
  intros Hskip Hcfg Hlen Hz.
  destruct (choose_hid_desc_index_spec cur) as (idx & Hi & Hidx & Hie).
  destruct (hid_method1_returns udev idx) as [g1 H1].
  destruct (descriptor_discovery_steps udev devnum cur cb idx g1 Hi H1)
    as [Hr Ht].
  assert (Hspin : result (hid_method2 devnum (h_dev udev) cur) = Spin).
  { unfold hid_method2, libusb_get_config_descriptor.
    unfold skips_method2 in Hskip. rewrite Hskip.
    rewrite result_bind_ret with (a := dev_config (h_dev udev))
      by reflexivity.
    rewrite Hcfg.
    assert (Hscan : result (scan_hid_descriptor extra) = Spin).
    { unfold scan_hid_descriptor.
      apply scan_extra_zero_stride; [lia|exact Hz]. }
    rewrite result_bind.
    rewrite (result_bind _ (fun g => emit (EvFreeConfigDescriptor devnum) ;;
                                     ret g)).
    rewrite Hscan. reflexivity. }
  rewrite Hr, Ht, Hspin. split; [reflexivity|].
  rewrite !filter_app.
  rewrite (filter_none is_report_fetch (trace (choose_hid_desc_index cur)))
    by (eapply Forall_impl; [|exact Hie];
        intros e He; apply pre_discovery_quiet; exact He).
  rewrite (filter_none is_report_fetch (trace (hid_method1 udev idx)))
    by (eapply Forall_impl; [|apply (hid_method1_events udev idx Hidx)];
        intros e He; apply He).
  destruct (hid_method2_attempted devnum (h_dev udev) cur Hskip)
    as (t & Et & Hq).
  rewrite Et. cbn [filter is_report_fetch app].
  apply filter_none. eapply Forall_impl; [|exact Hq]. intros e He. apply He.
Qed.

Lemma zero_length_descriptor_hangs_discovery_witness :
  result (descriptor_discovery (mkHandle 0 hanging_device) 0
            (sample_identity 0x463 0x0202) accept_all) = Spin /\
  filter is_report_fetch
    (trace (descriptor_discovery (mkHandle 0 hanging_device) 0
              (sample_identity 0x463 0x0202) accept_all))
  = [].
Proof.
  apply (zero_length_descriptor_hangs_discovery (mkHandle 0 hanging_device) 0
           (sample_identity 0x463 0x0202) accept_all
           [x00; x21; x10; x01; x00; x01; x22; x1b; x00]).
  - reflexivity.
  - reflexivity.
  - cbn. lia.
  - reflexivity.
Defined.

Lemma to_uint16_range (z : Z) : 0 <= to_uint16 z < 65536.
Proof. unfold to_uint16. apply Z.mod_pos_bound. lia. Qed.

(** ** The fetch of the report descriptor and the callback *)

Lemma hid_method1_range (udev : handle) (idx : Z) :
  ends_with (fun g => forall r, g = Some r -> 0 <= r < 65536)
    (hid_method1 udev idx).
Proof.
  unfold hid_method1.
  apply ends_with_bind. intros r.
  eapply ends_with_bind_from
    with (P := fun g : option Z => forall r, g = Some r -> 0 <= r < 65536).
  - destruct (fst r <? 0).
    { apply ends_with_bind. intros _. apply ends_with_ret. discriminate. }
    destruct (fst r <? 9).
    { apply ends_with_bind. intros _. apply ends_with_ret. discriminate. }
    apply ends_with_bind. intros _. apply ends_with_bind. intros _.
    apply ends_with_ret. intros x Hx. injection Hx as <-.
    apply to_uint16_range.
  - intros g Hg. destruct g as [x|].
    + apply ends_with_ret. exact Hg.
    + apply ends_with_bind. intros _. apply ends_with_ret. discriminate.
Qed.

Lemma scan_extra_range (extra : list byte) (fuel : nat) :
  forall i : Z,
  ends_with (fun g => forall r, g = Some r -> 0 <= r < 65536)
    (scan_extra fuel extra i).
Proof.
  induction fuel as [|fuel IH]; intros i; cbn [scan_extra].
  - intros g Hg. discriminate Hg.
  - destruct (i <=? Z.of_nat (List.length extra) - 9).
    + apply ends_with_bind. intros _.
      destruct (byte_at extra i <? 9); [apply IH|].
      destruct (negb _); [apply IH|].
      apply ends_with_bind. intros _. apply ends_with_bind. intros _.
      apply ends_with_ret. intros x Hx. injection Hx as <-.
      apply to_uint16_range.
    + apply ends_with_ret. discriminate.
Qed.

Lemma hid_method2_range (devnum : nat) (device : usb_device)
  (cur : USBDevice_t) :
  ends_with (fun g => forall r, g = Some r -> 0 <= r < 65536)
    (hid_method2 devnum device cur).
Proof.
  unfold hid_method2.
  destruct (_ && _).
  { apply ends_with_bind. intros _. apply ends_with_ret. discriminate. }
  apply ends_with_bind. intros c.
  eapply ends_with_bind_from
    with (P := fun g : option Z => forall r, g = Some r -> 0 <= r < 65536).
  - destruct c as [code|extra].
    + apply ends_with_bind. intros _. apply ends_with_ret. discriminate.
    + eapply ends_with_bind_from; [apply scan_extra_range|].
      intros g Hg. apply ends_with_bind. intros _. apply ends_with_ret.
      exact Hg.
  - intros g Hg. destruct g as [x|].
    + apply ends_with_ret. exact Hg.
    + apply ends_with_bind. intros _. apply ends_with_ret. discriminate.
Qed.

Lemma fetch_report_callback (udev : handle) (cur : USBDevice_t) (idx : Z)
  (cb : callback_t) (g1 g2 : option Z) :
  (forall bm rq v i code,
     dev_control (h_dev udev) bm rq v i = XferErr code -> code < 0) ->
  (forall r, choose_rdlen g1 g2 = Some r -> 0 <= r < 65536) ->
  forall e : event,
    In e (trace (fetch_report udev cur idx cb g1 g2)) ->
    is_callback e = true ->
    exists (rdlen : Z) (data buf : list byte) (n : Z),
      In (report_fetch (h_id udev) idx rdlen)
        (trace (fetch_report udev cur idx cb g1 g2)) /\
      0 <= rdlen <= MAX_REPORT_SIZE /\
      dev_control (h_dev udev) IN_STANDARD_INTERFACE
        LIBUSB_REQUEST_GET_DESCRIPTOR (Z.shiftl LIBUSB_DT_REPORT 8 + idx)
        usb_if_num = XferData data /\
      buf = firstn (Z.to_nat rdlen) data /\
      n = Z.of_nat (List.length buf) /\
      e = EvCallback (h_id udev) buf n /\
      result (fetch_report udev cur idx cb g1 g2)
      = Ret (if cb udev cur buf n <? 1 then NextDevice udev
             else Return LIBUSB_SUCCESS).
Proof.
  intros Hneg Hrange e.
  unfold fetch_report.
  destruct (choose_rdlen g1 g2) as [rdlen|].
  2:{ cbn. intros [<-|[]]. discriminate. }
  specialize (Hrange rdlen eq_refl).
  set (warn := match g1 with Some _ => _ | None => _ end).
  assert (Hw : result warn = Ret tt
               /\ Forall (fun x => is_callback x = false) (trace warn)).
  { unfold warn. destruct g1, g2; try (split; [reflexivity|constructor]).
    case_if; split; try reflexivity; repeat constructor. }
  destruct Hw as [Hw1 Hw2].
  rewrite (result_bind_ret _ _ _ Hw1), (trace_bind_ret _ _ _ Hw1).
  intros Hin Hcb. apply in_app_or in Hin. destruct Hin as [Hin|Hin].
  { rewrite Forall_forall in Hw2. rewrite (Hw2 e Hin) in Hcb.
    discriminate Hcb. }
  revert Hin. mstep. intros [<-|Hin]; [discriminate Hcb|]. revert Hin.
  destruct (Z.gtb_spec rdlen MAX_REPORT_SIZE) as [Hbig|Hfit].
  { mstep. cbn. intros [<-|[]]. discriminate Hcb. }
  unfold libusb_control_transfer.
  pose proof (@length_firstn byte (Z.to_nat rdlen)) as Hfl.
  destruct (dev_control (h_dev udev) IN_STANDARD_INTERFACE
              LIBUSB_REQUEST_GET_DESCRIPTOR
              (Z.shiftl LIBUSB_DT_REPORT 8 + idx) usb_if_num) as [code|data]
    eqn:E.
  - specialize (Hneg _ _ _ _ _ E).
    unfold bind, emit, ret, trace, result; cbn [fst snd app].
    destruct (Z.ltb_spec code 0); [|lia].
    cbn. intros [<-|[<-|[]]]; discriminate Hcb.
  - specialize (Hfl data).
    assert (Hfetch : forall t1 t2 : list event,
              In (report_fetch (h_id udev) idx rdlen)
                (t1 ++ EvDebugx 2 "HID descriptor length %d"
                 :: report_fetch (h_id udev) idx rdlen :: t2)).
    { intros t1 t2. apply in_or_app. right. right. left. reflexivity. }
    set (buf := firstn (Z.to_nat rdlen) data) in *.
    unfold bind, emit, ret, trace, result; cbn [fst snd app].
    destruct (Z.ltb_spec (Z.of_nat (List.length buf)) 0); [lia|].
    cbn [fst snd app].
    destruct (Z.ltb_spec (Z.of_nat (List.length buf)) rdlen) as [Hshort|Hfull];
      cbn [fst snd app].
    + assert (Hu : to_uint16 (Z.of_nat (List.length buf))
                   = Z.of_nat (List.length buf)).
      { unfold to_uint16. apply Z.mod_small. lia. }
      rewrite Hu.
      destruct (cb udev cur buf (Z.of_nat (List.length buf)) <? 1) eqn:Ec;
        cbn [fst snd app In];
        intros Hin;
        repeat (destruct Hin as [<-|Hin]; try discriminate Hcb);
        try contradiction;
        exists rdlen, data, buf, (Z.of_nat (List.length buf)); rewrite Ec;
        (split; [apply Hfetch|]);
        repeat split; try reflexivity; lia.
    + assert (Hn : rdlen = Z.of_nat (List.length buf)) by lia.
      destruct (cb udev cur buf rdlen <? 1) eqn:Ec;
        cbn [fst snd app In];
        intros Hin;
        repeat (destruct Hin as [<-|Hin]; try discriminate Hcb);
        try contradiction;
        exists rdlen, data, buf, rdlen; rewrite Ec;
        (split; [apply Hfetch|]);
        repeat split; try reflexivity; lia.
Qed.

Lemma hid_method2_no_callback (devnum : nat) (device : usb_device)
  (cur : USBDevice_t) :
  Forall (fun e => is_callback e = false /\ is_control e = false)
    (trace (hid_method2 devnum device cur)).
Proof.
  assert (Hscan : forall extra fuel i,
            Forall (fun e => is_callback e = false /\ is_control e = false)
              (trace (scan_extra fuel extra i))).
  { intros extra fuel. induction fuel as [|fuel IH]; intros i;
      cbn [scan_extra]; [constructor|].
    pose proof (IH (i + byte_at extra i)) as IH'.
    trace_forall; apply Forall_trace_emit; split; reflexivity. }
  unfold hid_method2, libusb_get_config_descriptor, scan_hid_descriptor.
  trace_forall; try apply Hscan;
    apply Forall_trace_emit; split; reflexivity.
Qed.

(** X16. With libusb's errors negative, every call of the callback in
    descriptor discovery follows the fetch of the report descriptor and is
    given what that fetch received: the handle of the candidate, as
    [rdbuf] the bytes the device sent for the request (cut at the length
    [rdlen] asked for, which is at most [MAX_REPORT_SIZE]), and as length
    their number; and the candidate is accepted exactly when that call
    returns 1 or more. *)
Theorem callback_gets_received_bytes (udev : handle) (devnum : nat)
  (cur : USBDevice_t) (cb : callback_t) :
  (forall bm rq v i code,
     dev_control (h_dev udev) bm rq v i = XferErr code -> code < 0) ->
  forall e : event,
    In e (trace (descriptor_discovery udev devnum cur cb)) ->
    is_callback e = true ->
    exists (rdlen : Z) (data buf : list byte) (n : Z),
      In (report_fetch (h_id udev) (special_index cur) rdlen)
        (trace (descriptor_discovery udev devnum cur cb)) /\
      0 <= rdlen <= MAX_REPORT_SIZE /\
      dev_control (h_dev udev) IN_STANDARD_INTERFACE
        LIBUSB_REQUEST_GET_DESCRIPTOR
        (Z.shiftl LIBUSB_DT_REPORT 8 + special_index cur) usb_if_num
      = XferData data /\
      buf = firstn (Z.to_nat rdlen) data /\
      n = Z.of_nat (List.length buf) /\
      e = EvCallback (h_id udev) buf n /\
      result (descriptor_discovery udev devnum cur cb)
      = Ret (if cb udev cur buf n <? 1 then NextDevice udev
             else Return LIBUSB_SUCCESS).
Proof.
  intros Hneg e Hin Hcb.
  set (idx := special_index cur).
  assert (Hi : result (choose_hid_desc_index cur) = Ret idx).
  { unfold choose_hid_desc_index, idx, special_index.
    destruct (_ && _); reflexivity. }
  assert (Hidx : idx = 0 \/ idx = 1).
  { unfold idx, special_index. destruct (_ && _); auto. }
  destruct (choose_hid_desc_index_spec cur) as (idx' & Hi' & _ & Hie).
  destruct (hid_method1_returns udev idx) as [g1 H1].
  destruct (descriptor_discovery_steps udev devnum cur cb idx g1 Hi H1)
    as [Hr Ht].
  pose proof (hid_method1_events udev idx Hidx) as H1e.
  pose proof (hid_method2_no_callback devnum (h_dev udev) cur) as H2e.
  rewrite Forall_forall in Hie, H1e, H2e.
  rewrite Ht in Hin. rewrite Hr, Ht.
  apply in_app_or in Hin. destruct Hin as [Hin|Hin].
  { destruct (pre_discovery_quiet e (Hie e Hin)) as (_ & Hc & _).
    rewrite Hc in Hcb. discriminate Hcb. }
  apply in_app_or in Hin. destruct Hin as [Hin|Hin].
  { destruct (H1e e Hin) as (_ & _ & _ & Hc).
    rewrite Hc in Hcb. discriminate Hcb. }
  destruct (result (hid_method2 devnum (h_dev udev) cur)) as [g2| | |] eqn:E2;
    try (destruct (H2e e Hin) as [Hc _]; rewrite Hc in Hcb;
         discriminate Hcb).
  apply in_app_or in Hin. destruct Hin as [Hin|Hin].
  { destruct (H2e e Hin) as [Hc _]. rewrite Hc in Hcb. discriminate Hcb. }
  destruct (fetch_report_callback udev cur idx cb g1 g2 Hneg) with (e := e)
    as (rdlen & data & buf & n & Hf & Hrest); auto.
  { intros r Hc. unfold choose_rdlen in Hc.
    destruct g2 as [r2|].
    - injection Hc as <-. apply (hid_method2_range _ _ _ _ E2 r2 eq_refl).
    - apply (hid_method1_range _ _ _ H1 r Hc). }
  exists rdlen, data, buf, n. split; [|exact Hrest].
  apply in_or_app. right. apply in_or_app. right.
  apply in_or_app. right. exact Hf.
Qed.

(** A device that announces a report descriptor of 16 bytes and sends 4:
    the callback is given these 4 bytes, with the length 4. *)
Lemma callback_gets_received_bytes_witness :
  exists (rdlen : Z) (data buf : list byte) (n : Z),
    In (report_fetch 0 (special_index (sample_identity 0x051d 0x0106)) rdlen)
      (trace (descriptor_discovery (mkHandle 0 long_hid_device) 0
                (sample_identity 0x051d 0x0106) accept_all)) /\
    0 <= rdlen <= MAX_REPORT_SIZE /\
    dev_control long_hid_device IN_STANDARD_INTERFACE
      LIBUSB_REQUEST_GET_DESCRIPTOR
      (Z.shiftl LIBUSB_DT_REPORT 8
       + special_index (sample_identity 0x051d 0x0106)) usb_if_num
    = XferData data /\
    buf = firstn (Z.to_nat rdlen) data /\
    n = Z.of_nat (List.length buf) /\
    EvCallback 0 sample_report 4 = EvCallback 0 buf n /\
    result (descriptor_discovery (mkHandle 0 long_hid_device) 0
              (sample_identity 0x051d 0x0106) accept_all)
    = Ret (if accept_all (mkHandle 0 long_hid_device)
                (sample_identity 0x051d 0x0106) buf n <? 1
           then NextDevice (mkHandle 0 long_hid_device)
           else Return LIBUSB_SUCCESS).
Proof.
  apply (callback_gets_received_bytes (mkHandle 0 long_hid_device) 0
           (sample_identity 0x051d 0x0106) accept_all).
  - intros bm rq v i code. cbn. unfold sample_control.
    repeat case_if; try discriminate; intros H; injection H as <-;
      reflexivity.
  - vm_compute. repeat (first [left; reflexivity | right]).
  - reflexivity.
Defined.

Lemma fetch_report_controls (udev : handle) (cur : USBDevice_t) (idx : Z)
  (cb : callback_t) (g1 g2 : option Z) :
  idx = 0 \/ idx = 1 ->
  filter is_control (trace (fetch_report udev cur idx cb g1 g2))
  = filter is_report_fetch (trace (fetch_report udev cur idx cb g1 g2)).
Proof.
  intros Hidx.
  assert (H : Forall (fun e => is_control e = is_report_fetch e)
                (trace (fetch_report udev cur idx cb g1 g2))).
  { pose proof (is_report_fetch_report (h_id udev) idx) as Hf.
    unfold fetch_report, libusb_control_transfer.
    trace_forall.
    apply Forall_trace_emit. cbn [is_control]. symmetry. apply Hf.
    exact Hidx. }
  induction H as [|e l He _ IH]; [reflexivity|].
  cbn [filter]. rewrite He, IH. reflexivity.
Qed.

(** X17. Descriptor discovery sends at most two control transfers, both
    inbound standard GET_DESCRIPTOR requests to interface 0: the one for the
    HID descriptor (9 bytes) and then, unless the candidate is given up
    before, the one for the report descriptor, with a length of at most
    [MAX_REPORT_SIZE].  Both use the same descriptor index, 1 for vendor
    0x463 with release 0x0202 and 0 for any other device. *)
Theorem discovery_control_requests (udev : handle) (devnum : nat)
  (cur : USBDevice_t) (cb : callback_t) :
  filter is_control (trace (descriptor_discovery udev devnum cur cb))
  = [hid_request (h_id udev) (special_index cur)] \/
  exists rdlen : Z,
    rdlen <= MAX_REPORT_SIZE /\
    filter is_control (trace (descriptor_discovery udev devnum cur cb))
    = [hid_request (h_id udev) (special_index cur);
       report_fetch (h_id udev) (special_index cur) rdlen].
Proof.
  set (idx := special_index cur).
  assert (Hi : result (choose_hid_desc_index cur) = Ret idx
               /\ filter is_control (trace (choose_hid_desc_index cur)) = []
               /\ (idx = 0 \/ idx = 1)).
  { unfold choose_hid_desc_index, idx, special_index.
    destruct (_ && _); repeat split; auto. }
  destruct Hi as (Hi & Hic & Hidx).
  destruct (hid_method1_returns udev idx) as [g1 H1].
  destruct (descriptor_discovery_steps udev devnum cur cb idx g1 Hi H1)
    as [_ Ht].
  assert (H1c : filter is_control (trace (hid_method1 udev idx))
                = [hid_request (h_id udev) idx]).
  { unfold hid_method1, libusb_control_transfer.
    unfold bind, emit, upsdebugx, upsdebug_hex, ret, trace, result.
    cbn [fst snd app].
    destruct (dev_control _ _ _ _ _); cbn [fst snd app];
      repeat (case_if; cbn [fst snd app filter is_control]); reflexivity. }
  assert (H2c : filter is_control (trace (hid_method2 devnum (h_dev udev) cur))
                = []).
  { apply filter_none.
    eapply Forall_impl; [|apply hid_method2_no_callback].
    intros e He. apply He. }
  rewrite Ht, !filter_app, Hic, H1c.
  destruct (result (hid_method2 devnum (h_dev udev) cur)) as [g2| | |];
    rewrite ?filter_app, H2c; cbn [app]; [|left; reflexivity..].
  rewrite (fetch_report_controls _ _ _ _ _ _ Hidx),
    (fetch_report_fetches _ _ _ _ _ _ Hidx).
  destruct (choose_rdlen g1 g2) as [rdlen|]; [|left; reflexivity].
  destruct (Z.gtb_spec rdlen MAX_REPORT_SIZE); [left; reflexivity|].
  right. exists rdlen. split; [assumption|reflexivity].
Qed.

(** ** Acceptance and fatal exits of the loop body *)

Lemma collect_identity_quiet (udev : handle) (devnum : nat)
  (dev_desc : libusb_device_descriptor) (cur : USBDevice_t) :
  Forall (fun e => no_set_alt_event e = true)
    (trace (collect_identity udev devnum dev_desc cur)).
Proof.
  unfold collect_identity, libusb_get_bus_number, read_identity_string,
    libusb_get_string_descriptor_ascii.
  trace_forall.
Qed.

Lemma match_chain_quiet (cur : USBDevice_t) (m : list USBDeviceMatcher_t) :
  forall node : nat,
  Forall (fun e => no_set_alt_event e = true)
    (trace (match_chain m node cur)).
Proof.
  induction m as [|n next IH]; intros node; cbn [match_chain].
  - trace_forall.
  - specialize (IH (S node)). trace_forall.
Qed.

Lemma nut_usb_claim_interface_quiet (cfg : config) (udev : handle) :
  Forall (fun e => no_set_alt_event e = true)
    (trace (nut_usb_claim_interface cfg udev)).
Proof.
  assert (Hc : forall retries attempt,
            Forall (fun e => no_set_alt_event e = true)
              (trace (claim_retry udev retries attempt))).
  { induction retries as [|n IH]; intros attempt; cbn [claim_retry];
      unfold libusb_claim_interface, libusb_detach_kernel_driver.
    - trace_forall.
    - specialize (IH (S attempt)). trace_forall. }
  specialize (Hc 3%nat 0%nat).
  unfold nut_usb_claim_interface, libusb_kernel_driver_active,
    libusb_set_auto_detach_kernel_driver, libusb_claim_interface.
  trace_forall.
Qed.

Lemma examine_claimed (cfg : config) (chain : list USBDeviceMatcher_t)
  (cb : option callback_t) (devnum : nat) (device : usb_device) (c : caller)
  (cur : USBDevice_t) (r : Z) :
  reaches_matching devnum device c cur ->
  result (match_chain chain 0 cur) = Ret true ->
  result (nut_usb_claim_interface cfg (mkHandle devnum device)) = Ret r ->
  exists pre,
    Forall (fun e => pre_discovery_event e = true) pre /\
    filter is_set_alt pre = [] /\
    trace (examine cfg chain cb devnum device c)
    = [EvDebugx 2 "Checking device %lu of %lu.";
       EvGetDeviceDescriptor devnum; EvOpen devnum 0]
      ++ pre
      ++ trace (if negb (r =? LIBUSB_SUCCESS) then
                  libusb_free_device_list ;;
                  fatalx EXIT_FAILURE "Can't claim USB device %04x:%04x (%s)."
                else
                  upsdebugx 2 "Claimed interface %d successfully" ;;
                  nut_usb_set_altinterface cfg (mkHandle devnum device) ;;
                  match cb with
                  | None =>
                      libusb_free_device_list ;;
                      ret (Return LIBUSB_SUCCESS,
                           mkCaller (Some (mkHandle devnum device)) cur)
                  | Some cb =>
                      v <- descriptor_discovery (mkHandle devnum device)
                             devnum cur cb ;;
                      ret (v, mkCaller (Some (mkHandle devnum device)) cur)
                  end) /\
    result (examine cfg chain cb devnum device c)
    = result (if negb (r =? LIBUSB_SUCCESS) then
                  libusb_free_device_list ;;
                  fatalx EXIT_FAILURE "Can't claim USB device %04x:%04x (%s)."
                else
                  upsdebugx 2 "Claimed interface %d successfully" ;;
                  nut_usb_set_altinterface cfg (mkHandle devnum device) ;;
                  match cb with
                  | None =>
                      libusb_free_device_list ;;
                      ret (Return LIBUSB_SUCCESS,
                           mkCaller (Some (mkHandle devnum device)) cur)
                  | Some cb =>
                      v <- descriptor_discovery (mkHandle devnum device)
                             devnum cur cb ;;
                      ret (v, mkCaller (Some (mkHandle devnum device)) cur)
                  end).
Proof.
  intros (Hd & Ho & Hi) Hm Hc.
  assert (Hna : forall l, Forall (fun e => no_set_alt_event e = true) l ->
                          filter is_set_alt l = []).
  { intros l Hl. apply filter_none. eapply Forall_impl; [|exact Hl].
    intros e. destruct e; cbn; intros H; try discriminate H; reflexivity. }
  exists (trace (collect_identity (mkHandle devnum device) devnum
                   (snd (dev_descriptor device)) (curDevice c))
          ++ [EvDebugx 2 "Trying to match device"]
          ++ trace (match_chain chain 0 cur)
          ++ [EvDebugx 2 "Device matches"]
          ++ trace (nut_usb_claim_interface cfg (mkHandle devnum device))).
  split.
  { apply Forall_app; split; [apply collect_identity_events|].
    apply Forall_app; split; [repeat constructor|].
    apply Forall_app; split; [apply match_chain_events|].
    apply Forall_app; split; [repeat constructor|].
    apply nut_usb_claim_interface_events. }
  split.
  { rewrite !filter_app. cbn [filter is_set_alt app].
    rewrite (Hna _ (collect_identity_quiet _ _ _ _)),
      (Hna _ (match_chain_quiet _ _ _)),
      (Hna _ (nut_usb_claim_interface_quiet _ _)).
    reflexivity. }
  unfold examine. mstep. rewrite Hd, Ho.
  change (negb (LIBUSB_SUCCESS =? LIBUSB_SUCCESS)) with false.
  change (negb (0 =? 0)) with false. cbv iota. mstep.
  rewrite (result_bind_ret _ _ _ Hi), (trace_bind_ret _ _ _ Hi). mstep.
  rewrite (result_bind_ret _ _ _ Hm), (trace_bind_ret _ _ _ Hm).
  cbn [negb]. mstep.
  rewrite (result_bind_ret _ _ _ Hc), (trace_bind_ret _ _ _ Hc).
  split; [|reflexivity].
  repeat (rewrite <- ?app_assoc; cbn [app]); reflexivity.
Qed.

Lemma trace_ret_nil {A : Type} (a : A) : trace (ret a) = [].
Proof. reflexivity. Qed.

Lemma pre_discovery_no_control (e : event) :
  pre_discovery_event e = true ->
  is_control e = false /\ is_get_config e = false /\ is_callback e = false.
Proof. destruct e; cbn; intros H; try discriminate H; auto. Qed.

(** X18. Without a callback, a candidate that is matched and claimed is
    accepted at once: [nut_libusb_open] returns success with the handle in
    [*udevp] and the identity in the caller's record, no descriptor is asked
    for, the device list is freed last, and no later device is looked at. *)
Theorem accepted_without_callback (cfg : config)
  (chain : list USBDeviceMatcher_t) (devnum : nat) (device : usb_device)
  (rest : list usb_device) (c : caller) (cur : USBDevice_t) :
  reaches_discovery cfg chain devnum device c cur ->
  result (for_devices cfg chain None (device :: rest) devnum c)
  = Ret (LIBUSB_SUCCESS, mkCaller (Some (mkHandle devnum device)) cur) /\
  trace (for_devices cfg chain None (device :: rest) devnum c)
  = trace (examine cfg chain None devnum device c) /\
  filter is_control (trace (examine cfg chain None devnum device c)) = [] /\
  filter is_get_config (trace (examine cfg chain None devnum device c)) = []
  /\
  last (trace (examine cfg chain None devnum device c)) EvInit
  = EvFreeDeviceList.
Proof.
  intros (Hreach & Hm & Hc).
  destruct (examine_claimed cfg chain None devnum device c cur LIBUSB_SUCCESS
              Hreach Hm Hc) as (pre & Hpre & _ & Ht & Hr).
  change (negb (LIBUSB_SUCCESS =? LIBUSB_SUCCESS)) with false in Ht, Hr.
  cbv iota in Ht, Hr.
  destruct (nut_usb_set_altinterface_returns cfg (mkHandle devnum device))
    as [ra Ha].
  pose proof (nut_usb_set_altinterface_events cfg (mkHandle devnum device))
    as Hae.
  revert Ht Hr. mstep.
  rewrite (result_bind_ret _ _ _ Ha), (trace_bind_ret _ _ _ Ha). mstep.
  rewrite trace_ret_nil. intros Ht Hr.
  assert (Hl : result (loop_body cfg chain None devnum device c)
               = Ret (Some LIBUSB_SUCCESS,
                      mkCaller (Some (mkHandle devnum device)) cur)).
  { rewrite loop_body_result, Hr. reflexivity. }
  split; [|split; [|split; [|split]]].
  - cbn [for_devices]. rewrite (result_bind_ret _ _ _ Hl). reflexivity.
  - cbn [for_devices]. rewrite (trace_bind_ret _ _ _ Hl).
    cbn [fst snd trace ret]. rewrite app_nil_r, loop_body_trace, Hr.
    apply app_nil_r.
  - rewrite Ht. repeat (rewrite ?filter_app; cbn [filter is_control app]).
    rewrite (filter_none is_control pre)
      by (eapply Forall_impl; [|exact Hpre];
          intros e He; apply pre_discovery_no_control; exact He).
    rewrite (filter_none is_control
               (trace (nut_usb_set_altinterface cfg _)))
      by (eapply Forall_impl; [|exact Hae];
          intros e He; apply pre_discovery_no_control; exact He).
    reflexivity.
  - rewrite Ht.
    repeat (rewrite ?filter_app; cbn [filter is_get_config app]).
    rewrite (filter_none is_get_config pre)
      by (eapply Forall_impl; [|exact Hpre];
          intros e He; apply pre_discovery_no_control; exact He).
    rewrite (filter_none is_get_config
               (trace (nut_usb_set_altinterface cfg _)))
      by (eapply Forall_impl; [|exact Hae];
          intros e He; apply pre_discovery_no_control; exact He).
    reflexivity.
  - rewrite Ht.
    change (EvDebugx 2 "Claimed interface %d successfully"
            :: trace (nut_usb_set_altinterface cfg (mkHandle devnum device))
               ++ [EvFreeDeviceList])
      with ((EvDebugx 2 "Claimed interface %d successfully"
             :: trace (nut_usb_set_altinterface cfg (mkHandle devnum device)))
            ++ [EvFreeDeviceList]).
    rewrite !app_assoc. apply last_last.
Qed.

Lemma accepted_without_callback_witness :
  result (for_devices sample_config [vendor_matcher 0x051d] None
            [apc_device; eaton_202_device] 0 fresh_caller)
  = Ret (LIBUSB_SUCCESS,
         mkCaller (Some (mkHandle 0 apc_device))
           (sample_identity 0x051d 0x0106)) /\
  trace (for_devices sample_config [vendor_matcher 0x051d] None
           [apc_device; eaton_202_device] 0 fresh_caller)
  = trace (examine sample_config [vendor_matcher 0x051d] None 0 apc_device
             fresh_caller) /\
  filter is_control
    (trace (examine sample_config [vendor_matcher 0x051d] None 0 apc_device
              fresh_caller)) = [] /\
  filter is_get_config
    (trace (examine sample_config [vendor_matcher 0x051d] None 0 apc_device
              fresh_caller)) = [] /\
  last (trace (examine sample_config [vendor_matcher 0x051d] None 0
                 apc_device fresh_caller)) EvInit
  = EvFreeDeviceList.
Proof.
  apply (accepted_without_callback sample_config [vendor_matcher 0x051d] 0
           apc_device [eaton_202_device] fresh_caller
           (sample_identity 0x051d 0x0106)).
  repeat split; reflexivity.
Defined.

(** X19. A candidate that is matched but whose interface cannot be claimed
    ends the process: the device list is freed, the fatal message printed,
    the exit status is [EXIT_FAILURE]; the alternate setting is not touched,
    no descriptor is asked for and no later device is looked at. *)
Theorem claim_failure_is_fatal (cfg : config)
  (chain : list USBDeviceMatcher_t) (cb : option callback_t) (devnum : nat)
  (device : usb_device) (rest : list usb_device) (c : caller)
  (cur : USBDevice_t) (r : Z) :
  reaches_matching devnum device c cur ->
  result (match_chain chain 0 cur) = Ret true ->
  result (nut_usb_claim_interface cfg (mkHandle devnum device)) = Ret r ->
  r <> LIBUSB_SUCCESS ->
  result (for_devices cfg chain cb (device :: rest) devnum c)
  = Exit EXIT_FAILURE /\
  (exists t,
     trace (for_devices cfg chain cb (device :: rest) devnum c)
     = t ++ [EvFreeDeviceList;
             EvFatal "Can't claim USB device %04x:%04x (%s)."]
     /\ filter is_set_alt t = [] /\ filter is_control t = []).
Proof.
  intros Hreach Hm Hc Hne.
  destruct (examine_claimed cfg chain cb devnum device c cur r Hreach Hm Hc)
    as (pre & Hpre & Hna & Ht & Hr).
  destruct (Z.eqb_spec r LIBUSB_SUCCESS) as [E|_]; [contradiction|].
  cbn [negb] in Ht, Hr. revert Ht Hr. mstep.
  cbn [trace result fatalx fst snd]. intros Ht Hr.
  destruct (for_devices_exit cfg chain cb device rest devnum c _ Hr)
    as [Hfr Hft].
  split; [exact Hfr|].
  exists ([EvDebugx 2 "Checking device %lu of %lu.";
           EvGetDeviceDescriptor devnum; EvOpen devnum 0] ++ pre).
  split; [|split].
  - rewrite Hft, Ht, <- app_assoc. reflexivity.
  - rewrite filter_app, Hna. reflexivity.
  - rewrite filter_app.
    rewrite (filter_none is_control pre)
      by (eapply Forall_impl; [|exact Hpre];
          intros e He; apply pre_discovery_no_control; exact He).
    reflexivity.
Qed.

Lemma claim_failure_is_fatal_witness :
  result (for_devices sample_config [] (Some accept_all)
            [busy_device; apc_device] 0 fresh_caller)
  = Exit EXIT_FAILURE /\
  (exists t,
     trace (for_devices sample_config [] (Some accept_all)
              [busy_device; apc_device] 0 fresh_caller)
     = t ++ [EvFreeDeviceList;
             EvFatal "Can't claim USB device %04x:%04x (%s)."]
     /\ filter is_set_alt t = [] /\ filter is_control t = []).
Proof.
  apply (claim_failure_is_fatal sample_config [] (Some accept_all) 0
           busy_device [apc_device] fresh_caller
           (sample_identity 0x051d 0x0106) LIBUSB_ERROR_BUSY).
  - repeat split; reflexivity.
  - reflexivity.
  - reflexivity.
  - discriminate.
Defined.

(** X20. When the 4 bytes for the Bus string cannot be allocated for a
    candidate that was opened, the process ends with [EXIT_FAILURE] right
    there: the old strings were freed and the record zeroed, the device
    list is freed, but no string descriptor is read, no matcher is called
    and no later device is looked at. *)
Theorem out_of_memory_is_fatal (cfg : config)
  (chain : list USBDeviceMatcher_t) (cb : option callback_t) (devnum : nat)
  (device : usb_device) (rest : list usb_device) (c : caller) :
  fst (dev_descriptor device) = LIBUSB_SUCCESS ->
  dev_open device = 0 ->
  dev_alloc_ok device 0 = false ->
  result (for_devices cfg chain cb (device :: rest) devnum c)
  = Exit EXIT_FAILURE /\
  trace (for_devices cfg chain cb (device :: rest) devnum c)
  = [EvDebugx 2 "Checking device %lu of %lu.";
     EvGetDeviceDescriptor devnum; EvOpen devnum 0;
     EvFree (Vendor (curDevice c)); EvFree (Product (curDevice c));
     EvFree (Serial (curDevice c)); EvFree (Bus (curDevice c)); EvMemset;
     EvGetBusNumber devnum; EvMalloc 4; EvFreeDeviceList;
     EvFatal "Out of memory"].
Proof.
  intros Hd Ho Ha.
  assert (Hcol : collect_identity (mkHandle devnum device) devnum
                   (snd (dev_descriptor device)) (curDevice c)
                 = ([EvFree (Vendor (curDevice c));
                     EvFree (Product (curDevice c));
                     EvFree (Serial (curDevice c));
                     EvFree (Bus (curDevice c)); EvMemset;
                     EvGetBusNumber devnum; EvMalloc 4; EvFreeDeviceList;
                     EvFatal "Out of memory"], Exit EXIT_FAILURE)).
  { unfold collect_identity, libusb_get_bus_number, oom_error,
      libusb_free_device_list, fatal_with_errno.
    cbn [h_dev]. rewrite Ha. reflexivity. }
  assert (Hx : result (examine cfg chain cb devnum device c)
               = Exit EXIT_FAILURE /\
               trace (examine cfg chain cb devnum device c)
               = [EvDebugx 2 "Checking device %lu of %lu.";
                  EvGetDeviceDescriptor devnum; EvOpen devnum 0]
                 ++ fst (collect_identity (mkHandle devnum device) devnum
                           (snd (dev_descriptor device)) (curDevice c))).
  { unfold examine. mstep. rewrite Hd, Ho.
    change (negb (LIBUSB_SUCCESS =? LIBUSB_SUCCESS)) with false.
    change (negb (0 =? 0)) with false. cbv iota. mstep.
    rewrite result_bind, trace_bind. rewrite Hcol. split; reflexivity. }
  destruct Hx as [Hr Ht].
  destruct (for_devices_exit cfg chain cb device rest devnum c _ Hr)
    as [Hfr Hft].
  split; [exact Hfr|]. rewrite Hft, Ht, Hcol. reflexivity.
Qed.

Lemma out_of_memory_is_fatal_witness :
  result (for_devices sample_config [] (Some accept_all)
            [starved_device; apc_device] 0 stale_caller)
  = Exit EXIT_FAILURE /\
  trace (for_devices sample_config [] (Some accept_all)
           [starved_device; apc_device] 0 stale_caller)
  = [EvDebugx 2 "Checking device %lu of %lu.";
     EvGetDeviceDescriptor 0; EvOpen 0 0;
     EvFree (Some "EATON"); EvFree (Some "Ellipse ECO");
     EvFree (Some "000000000"); EvFree (Some "002"); EvMemset;
     EvGetBusNumber 0; EvMalloc 4; EvFreeDeviceList;
     EvFatal "Out of memory"].
Proof.
  apply (out_of_memory_is_fatal sample_config [] (Some accept_all) 0
           starved_device [apc_device] stale_caller); reflexivity.
Defined.

(** ** The identity collected *)

Lemma read_identity_string_result (udev : handle) (index : Z) (site : nat) :
  (forall i code, dev_string (h_dev udev) i = StrErr code -> code <= 0) ->
  result (read_identity_string udev index site)
  = match identity_string udev index with
    | None => Ret None
    | Some s =>
        if dev_alloc_ok (h_dev udev) site then Ret (Some s)
        else Exit EXIT_FAILURE
    end.
Proof.
  intros Herr.
  unfold read_identity_string, identity_string,
    libusb_get_string_descriptor_ascii.
  destruct (index =? 0); cbn [negb]; [reflexivity|].
  unfold bind, emit, ret, oom_error, libusb_free_device_list,
    fatal_with_errno, trace, result. cbn [fst snd].
  destruct (dev_string (h_dev udev) index) as [code|s] eqn:E; cbn [fst snd].
  - specialize (Herr _ _ E).
    destruct (Z.gtb_spec code 0); [lia|]. reflexivity.
  - destruct s as [|ch s]; cbn [String.length fst snd]; [reflexivity|].
    destruct (Z.gtb_spec (Z.of_nat (S (String.length s))) 0); [|lia].
    cbn [fst snd]. destruct (dev_alloc_ok (h_dev udev) site); reflexivity.
Qed.

Lemma collect_identity_result (udev : handle) (devnum : nat)
  (dev_desc : libusb_device_descriptor) (old : USBDevice_t) :
  (forall i code, dev_string (h_dev udev) i = StrErr code -> code <= 0) ->
  result (collect_identity udev devnum dev_desc old)
  = Ret (mkUSBDevice (idVendor dev_desc) (idProduct dev_desc)
           (identity_string udev (iManufacturer dev_desc))
           (identity_string udev (iProduct dev_desc))
           (identity_string udev (iSerialNumber dev_desc))
           (Some (sprintf_03d (dev_bus_number (h_dev udev) mod 256)))
           (bcdDevice_desc dev_desc)) \/
  (result (collect_identity udev devnum dev_desc old) = Exit EXIT_FAILURE /\
   exists site : nat,
     (site <= 3)%nat /\ dev_alloc_ok (h_dev udev) site = false).
Proof.
  intros Herr.
  pose proof (read_identity_string_result udev) as Hs.
  unfold collect_identity, libusb_get_bus_number.
  mstep.
  destruct (dev_alloc_ok (h_dev udev) 0) eqn:E0; cbn [negb].
  2:{ right. split; [reflexivity|]. exists 0%nat. split; [lia|exact E0]. }
  cbv zeta.
  rewrite result_bind_ret with (a := dev_bus_number (h_dev udev) mod 256)
    by reflexivity.
  mstep.
  rewrite result_bind, (Hs _ 1%nat Herr).
  destruct (identity_string udev (iManufacturer dev_desc)) as [v|];
    [destruct (dev_alloc_ok (h_dev udev) 1) eqn:E1|].
  2:{ right. split; [reflexivity|]. exists 1%nat. split; [lia|exact E1]. }
  all: rewrite result_bind, (Hs _ 2%nat Herr);
    (destruct (identity_string udev (iProduct dev_desc)) as [p|];
     [destruct (dev_alloc_ok (h_dev udev) 2) eqn:E2|]);
    try (right; split; [reflexivity|]; exists 2%nat; split; [lia|exact E2]).
  all: rewrite result_bind, (Hs _ 3%nat Herr);
    (destruct (identity_string udev (iSerialNumber dev_desc)) as [s|];
     [destruct (dev_alloc_ok (h_dev udev) 3) eqn:E3|]);
    try (right; split; [reflexivity|]; exists 3%nat; split; [lia|exact E3]).
  all: left; reflexivity.
Qed.

(** X21. With libusb's string errors not positive, collecting the identity
    of a candidate comes to its end whenever the allocations succeed, also
    when a string cannot be read: a string that cannot be read is no error
    for the enumeration.  The identity collected is: the three numbers of
    the device descriptor, the bus number as three decimal digits, and for
    each of Vendor, Product and Serial the string read, or the null pointer
    when its index is 0, the read fails or the string is empty.  The only
    other way the code ends is the exit for a failed allocation. *)
Theorem collect_identity_fields (udev : handle) (devnum : nat)
  (dev_desc : libusb_device_descriptor) (old : USBDevice_t) :
  (forall i code, dev_string (h_dev udev) i = StrErr code -> code <= 0) ->
  ((forall site : nat,
      (site <= 3)%nat -> dev_alloc_ok (h_dev udev) site = true) ->
   result (collect_identity udev devnum dev_desc old)
   = Ret (mkUSBDevice (idVendor dev_desc) (idProduct dev_desc)
            (identity_string udev (iManufacturer dev_desc))
            (identity_string udev (iProduct dev_desc))
            (identity_string udev (iSerialNumber dev_desc))
            (Some (sprintf_03d (dev_bus_number (h_dev udev) mod 256)))
            (bcdDevice_desc dev_desc))) /\
  (forall cur : USBDevice_t,
     result (collect_identity udev devnum dev_desc old) = Ret cur ->
     cur = mkUSBDevice (idVendor dev_desc) (idProduct dev_desc)
             (identity_string udev (iManufacturer dev_desc))
             (identity_string udev (iProduct dev_desc))
             (identity_string udev (iSerialNumber dev_desc))
             (Some (sprintf_03d (dev_bus_number (h_dev udev) mod 256)))
             (bcdDevice_desc dev_desc)) /\
  ((exists cur : USBDevice_t,
      result (collect_identity udev devnum dev_desc old) = Ret cur) \/
   (result (collect_identity udev devnum dev_desc old) = Exit EXIT_FAILURE /\
    exists site : nat,
      (site <= 3)%nat /\ dev_alloc_ok (h_dev udev) site = false)).
Proof.
  intros Herr.
  destruct (collect_identity_result udev devnum dev_desc old Herr)
    as [Hr|[Hr [site [Hle Hsite]]]].
  - split; [intros _; exact Hr|].
    split.
    + intros cur Hc. rewrite Hr in Hc. injection Hc as <-. reflexivity.
    + left. eexists. exact Hr.
  - split.
    + intros Hall. rewrite (Hall site Hle) in Hsite. discriminate Hsite.
    + split.
      * intros cur Hc. rewrite Hr in Hc. discriminate Hc.
      * right. split; [exact Hr|]. exists site. split; assumption.
Qed.

(** A device whose serial number cannot be read (the request fails) and
    whose first two strings can. *)
Lemma collect_identity_fields_witness :
  result (collect_identity (mkHandle 0 talking_device) 0
            (mkDevDesc 0x051d 0x0002 0x0106 1 2 3) (curDevice stale_caller))
  = Ret (mkUSBDevice 0x051d 0x0002
           (identity_string (mkHandle 0 talking_device) 1)
           (identity_string (mkHandle 0 talking_device) 2)
           (identity_string (mkHandle 0 talking_device) 3)
           (Some (sprintf_03d (dev_bus_number talking_device mod 256)))
           0x0106) /\
  identity_string (mkHandle 0 talking_device) 3 = None /\
  dev_string talking_device 3 = StrErr LIBUSB_ERROR_INVALID_PARAM.
Proof.
  split; [|split; reflexivity].
  refine (proj1 (collect_identity_fields (mkHandle 0 talking_device) 0
                   (mkDevDesc 0x051d 0x0002 0x0106 1 2 3)
                   (curDevice stale_caller) _) _).
  - intros i code. cbn.
    repeat case_if; try discriminate. intros H. injection H as <-.
    discriminate.
  - intros site _. reflexivity.
Defined.

(** ** The device list is freed once *)

Lemma frees_app (t1 t2 : list event) :
  frees (t1 ++ t2) = (frees t1 + frees t2)%nat.
Proof. unfold frees. rewrite filter_app, length_app. reflexivity. Qed.

Lemma releases_bind {A B : Type} (n : B -> nat) (m : M A) (f : A -> M B) :
  releases (fun _ => 0%nat) m -> (forall a, releases n (f a)) ->
  releases n (bind m f).
Proof.
  unfold releases. intros Hm Hf. rewrite result_bind, trace_bind.
  destruct (result m) as [a| | |]; [|exact Hm..].
  specialize (Hf a). rewrite frees_app, Hm.
  destruct (result (f a)); exact Hf.
Qed.

Lemma releases_bind_from {A B : Type} (k : A -> nat) (n : B -> nat)
  (m : M A) (f : A -> M B) :
  releases k m ->
  (forall a, match result (f a) with
             | Ret b => (k a + frees (trace (f a)))%nat = n b
             | Exit _ => (k a + frees (trace (f a)))%nat = 1%nat
             | Spin => (k a + frees (trace (f a)))%nat = 0%nat
             | Undefined => (k a + frees (trace (f a)))%nat = 1%nat
             end) ->
  releases n (bind m f).
Proof.
  unfold releases. intros Hm Hf. rewrite result_bind, trace_bind.
  destruct (result m) as [a| | |]; [|exact Hm..].
  specialize (Hf a). rewrite frees_app, Hm. exact Hf.
Qed.

Lemma releases_ret {A : Type} (n : A -> nat) (a : A) :
  n a = 0%nat -> releases n (ret a).
Proof. intros H. unfold releases. cbn. symmetry. exact H. Qed.

Lemma releases_emit (n : unit -> nat) (e : event) :
  is_free_device_list e = false -> n tt = 0%nat -> releases n (emit e).
Proof.
  intros He Hn. unfold releases, frees. cbn. rewrite He, Hn. reflexivity.
Qed.

Lemma releases_free_ret {A : Type} (n : A -> nat) (a : A) :
  n a = 1%nat -> releases n (libusb_free_device_list ;; ret a).
Proof. intros H. unfold releases. cbn. symmetry. exact H. Qed.

Lemma releases_free_exit {A : Type} (n : A -> nat) (t : list event)
  (status : Z) :
  frees t = 0%nat ->
  releases n (libusb_free_device_list ;; ((t, Exit status) : M A)).
Proof. intros H. unfold releases, frees in *. cbn. rewrite H. reflexivity. Qed.

Ltac releases_leaf :=
  first
    [ assumption
    | apply releases_ret; reflexivity
    | apply releases_free_ret; reflexivity
    | apply releases_free_exit; reflexivity
    | apply releases_emit; reflexivity ].

Ltac releases_tac :=
  cbv zeta;
  repeat first
    [ releases_leaf
    | match goal with
      | |- releases _ (if ?b then _ else _) => destruct b
      | |- releases _ (match ?x with _ => _ end) => destruct x
      end
    | apply releases_bind; [|intros] ].

Lemma collect_identity_releases (udev : handle) (devnum : nat)
  (dev_desc : libusb_device_descriptor) (cur : USBDevice_t) :
  releases (fun _ => 0%nat) (collect_identity udev devnum dev_desc cur).
Proof.
  unfold collect_identity, libusb_get_bus_number, read_identity_string,
    libusb_get_string_descriptor_ascii, oom_error, fatal_with_errno,
    upsdebugx, upslogx, upsdebug_hex, libusb_close.
  releases_tac.
Qed.

Lemma match_chain_releases (cur : USBDevice_t) (m : list USBDeviceMatcher_t) :
  forall node : nat, releases (fun _ => 0%nat) (match_chain m node cur).
Proof.
  induction m as [|n next IH]; intros node; cbn [match_chain].
  - releases_tac.
  - specialize (IH (S node)). releases_tac.
Qed.

Lemma nut_usb_claim_interface_releases (cfg : config) (udev : handle) :
  releases (fun _ => 0%nat) (nut_usb_claim_interface cfg udev).
Proof.
  assert (Hc : forall retries attempt,
            releases (fun _ => 0%nat) (claim_retry udev retries attempt)).
  { induction retries as [|n IH]; intros attempt; cbn [claim_retry];
      unfold libusb_claim_interface, libusb_detach_kernel_driver.
    - releases_tac.
    - specialize (IH (S attempt)). releases_tac. }
  specialize (Hc 3%nat 0%nat).
  unfold nut_usb_claim_interface, libusb_kernel_driver_active,
    libusb_set_auto_detach_kernel_driver, libusb_claim_interface.
  releases_tac.
Qed.

Lemma nut_usb_set_altinterface_releases (cfg : config) (udev : handle) :
  releases (fun _ => 0%nat) (nut_usb_set_altinterface cfg udev).
Proof.
  unfold nut_usb_set_altinterface, libusb_set_interface_alt_setting.
  releases_tac.
Qed.

Lemma scan_extra_releases (extra : list byte) (fuel : nat) :
  forall i : Z, releases (fun _ => 0%nat) (scan_extra fuel extra i).
Proof.
  induction fuel as [|fuel IH]; intros i; cbn [scan_extra].
  - reflexivity.
  - pose proof (IH (i + byte_at extra i)) as IH'. releases_tac.
Qed.

Lemma descriptor_discovery_releases (udev : handle) (devnum : nat)
  (cur : USBDevice_t) (cb : callback_t) :
  releases (fun v => match v with Return _ => 1%nat | _ => 0%nat end)
    (descriptor_discovery udev devnum cur cb).
Proof.
  pose proof (scan_extra_releases) as Hscan.
  unfold descriptor_discovery, choose_hid_desc_index, hid_method1,
    hid_method2, libusb_get_config_descriptor, scan_hid_descriptor,
    fetch_report, libusb_control_transfer.
  releases_tac; apply Hscan.
Qed.

Lemma examine_releases (cfg : config) (chain : list USBDeviceMatcher_t)
  (cb : option callback_t) (devnum : nat) (device : usb_device) (c : caller) :
  releases (fun vc => match fst vc with Return _ => 1%nat | _ => 0%nat end)
    (examine cfg chain cb devnum device c).
Proof.
  unfold examine.
  apply releases_bind; [releases_leaf|intros _].
  apply releases_bind; [releases_leaf|intros _].
  destruct (negb (fst (dev_descriptor device) =? LIBUSB_SUCCESS));
    [releases_leaf|].
  cbv zeta.
  apply releases_bind; [releases_leaf|intros _].
  destruct (negb (dev_open device =? 0)); [releases_leaf|].
  apply releases_bind; [apply collect_identity_releases|intros cur].
  apply releases_bind; [releases_leaf|intros _].
  apply releases_bind; [apply match_chain_releases|intros matched].
  destruct (negb matched); [releases_leaf|].
  apply releases_bind; [releases_leaf|intros _].
  apply releases_bind; [apply nut_usb_claim_interface_releases|intros r].
  destruct (negb (r =? LIBUSB_SUCCESS)); [releases_leaf|].
  apply releases_bind; [releases_leaf|intros _].
  apply releases_bind; [apply nut_usb_set_altinterface_releases|intros _].
  destruct cb as [cb|]; [|releases_leaf].
  eapply releases_bind_from; [apply descriptor_discovery_releases|].
  intros v. destruct v; reflexivity.
Qed.

Lemma loop_body_releases (cfg : config) (chain : list USBDeviceMatcher_t)
  (cb : option callback_t) (devnum : nat) (device : usb_device) (c : caller) :
  releases (fun oc => match fst oc with Some _ => 1%nat | None => 0%nat end)
    (loop_body cfg chain cb devnum device c).
Proof.
  unfold loop_body.
  eapply releases_bind_from; [apply examine_releases|].
  intros [[|udev|r] c']; reflexivity.
Qed.

Lemma for_devices_releases (cfg : config) (chain : list USBDeviceMatcher_t)
  (cb : option callback_t) (devlist : list usb_device) :
  forall (devnum : nat) (c : caller),
  releases (fun _ => 1%nat) (for_devices cfg chain cb devlist devnum c).
Proof.
  induction devlist as [|device rest IH]; intros devnum c;
    cbn [for_devices].
  - reflexivity.
  - eapply releases_bind_from; [apply loop_body_releases|].
    intros [[r|] c']; cbn [fst snd].
    + reflexivity.
    + apply IH.
Qed.

(** X22. Once [libusb_init] has succeeded, every way out of
    [nut_libusb_open] (the return with success, the return with not-found
    and each fatal exit) frees the device list exactly once, and so does
    the run in which the list could not be obtained (its one call is the
    one on the unassigned pointer); when [libusb_init] fails the process exits after [libusb_exit] without
    asking for the device list. *)
Theorem device_list_freed_once (cfg : config) (bus : usb_bus) (c : caller)
  (chain : list USBDeviceMatcher_t) (cb : option callback_t) :
  (bus_init bus = LIBUSB_SUCCESS ->
   result (nut_libusb_open cfg bus c chain cb) <> Spin ->
   frees (trace (nut_libusb_open cfg bus c chain cb)) = 1%nat) /\
  (bus_init bus <> LIBUSB_SUCCESS ->
   nut_libusb_open cfg bus c chain cb
   = ([EvInit; EvExit; EvFatal "Failed to init libusb (%s)."],
      Exit EXIT_FAILURE)).
Proof.
  split.
  - intros Hinit Hns.
    assert (Hrel : releases (fun _ => 1%nat)
                     (nut_libusb_open cfg bus c chain cb)).
    { unfold nut_libusb_open. rewrite Hinit.
      change (negb (LIBUSB_SUCCESS =? LIBUSB_SUCCESS)) with false.
      cbv iota.
      apply releases_bind; [releases_leaf|intros _].
      apply releases_bind; [unfold libusb_close; releases_tac|intros _].
      apply releases_bind; [releases_leaf|intros _].
      destruct (bus_device_list bus);
        [reflexivity|apply for_devices_releases]. }
    unfold releases in Hrel.
    destruct (result (nut_libusb_open cfg bus c chain cb));
      [exact Hrel|exact Hrel|contradiction|exact Hrel].
  - intros Hinit. unfold nut_libusb_open.
    destruct (Z.eqb_spec (bus_init bus) LIBUSB_SUCCESS); [contradiction|].
    reflexivity.
Qed.

Lemma device_list_freed_once_witness :
  frees (trace (nut_libusb_open sample_config
                  (mkBus LIBUSB_SUCCESS
                     (ListDevices [mute_device; busy_device; apc_device]))
                  fresh_caller [] (Some accept_all))) = 1%nat /\
  nut_libusb_open sample_config (mkBus LIBUSB_ERROR_OTHER (ListDevices []))
    fresh_caller [] (Some accept_all)
  = ([EvInit; EvExit; EvFatal "Failed to init libusb (%s)."],
     Exit EXIT_FAILURE).
Proof.
  split.
  - apply (proj1 (device_list_freed_once sample_config
                    (mkBus LIBUSB_SUCCESS
                       (ListDevices [mute_device; busy_device; apc_device]))
                    fresh_caller [] (Some accept_all))).
    + reflexivity.
    + discriminate.
  - apply (proj2 (device_list_freed_once sample_config
                    (mkBus LIBUSB_ERROR_OTHER (ListDevices []))
                    fresh_caller [] (Some accept_all))).
    discriminate.
Defined.

(** ** Devices that cannot be opened *)

Lemma examine_probe_only (cfg : config) (chain : list USBDeviceMatcher_t)
  (cb : option callback_t) (devnum : nat) (device : usb_device) (c : caller) :
  cannot_be_opened device ->
  Forall (fun e => is_probe_event e = true)
    (trace (examine cfg chain cb devnum device c)).
Proof.
  intros H. unfold examine.
  destruct (Z.eqb_spec (fst (dev_descriptor device)) LIBUSB_SUCCESS)
    as [Ed|Ed]; cbn [negb].
  - destruct H as [H|H]; [contradiction|].
    cbv zeta.
    destruct (Z.eqb_spec (dev_open device) 0) as [Eo|Eo]; [contradiction|].
    cbn [negb]. repeat constructor.
  - repeat constructor.
Qed.

Lemma for_devices_skip (cfg : config) (chain : list USBDeviceMatcher_t)
  (cb : option callback_t) (rest : list usb_device) (c : caller)
  (skipped : list usb_device) :
  forall devnum : nat,
  Forall cannot_be_opened skipped ->
  exists probes : list event,
    Forall (fun e => is_probe_event e = true) probes /\
    trace (for_devices cfg chain cb (skipped ++ rest) devnum c)
    = probes
      ++ trace (for_devices cfg chain cb rest
                  (devnum + List.length skipped) c) /\
    result (for_devices cfg chain cb (skipped ++ rest) devnum c)
    = result (for_devices cfg chain cb rest
                (devnum + List.length skipped) c).
Proof.
  induction skipped as [|device skipped IH]; intros devnum Hs.
  - exists []. cbn [List.length app]. rewrite Nat.add_0_r.
    split; [constructor|]. split; reflexivity.
  - inversion Hs as [|? ? Hd Hs']; subst.
    destruct (examine_not_opened cfg chain cb devnum device c Hd) as [Hx _].
    pose proof (examine_probe_only cfg chain cb devnum device c Hd) as Hp.
    destruct (IH (S devnum) Hs') as [probes [Hprobes [Ht Hr]]].
    exists (trace (examine cfg chain cb devnum device c) ++ probes).
    cbn [app for_devices List.length].
    rewrite trace_bind, result_bind, loop_body_result, loop_body_trace, Hx.
    cbn [fst snd]. rewrite app_nil_r.
    replace (devnum + S (List.length skipped))%nat
      with (S devnum + List.length skipped)%nat by lia.
    split; [apply Forall_app; split; assumption|].
    split; [rewrite Ht, app_assoc; reflexivity|exact Hr].
Qed.

(** X23. Devices whose descriptor cannot be read or that cannot be opened
    are passed over by the enumeration: they add only debug messages and
    the two probing calls to the trace, and the loop goes on with the
    devices behind them exactly as if it had started there, with the
    caller's handle and identity record as they were. *)
Theorem unopenable_devices_are_passed_over (cfg : config)
  (chain : list USBDeviceMatcher_t) (cb : option callback_t)
  (skipped rest : list usb_device) (devnum : nat) (c : caller) :
  Forall cannot_be_opened skipped ->
  exists probes : list event,
    Forall (fun e => is_probe_event e = true) probes /\
    trace (for_devices cfg chain cb (skipped ++ rest) devnum c)
    = probes
      ++ trace (for_devices cfg chain cb rest
                  (devnum + List.length skipped) c) /\
    result (for_devices cfg chain cb (skipped ++ rest) devnum c)
    = result (for_devices cfg chain cb rest
                (devnum + List.length skipped) c).
Proof. intros Hs. apply for_devices_skip. exact Hs. Qed.

Lemma unopenable_devices_are_passed_over_witness :
  exists probes : list event,
    Forall (fun e => is_probe_event e = true) probes /\
    trace (for_devices sample_config [] (Some accept_all)
             ([unreadable_device; forbidden_device] ++ [apc_device])
             0 fresh_caller)
    = probes
      ++ trace (for_devices sample_config [] (Some accept_all) [apc_device]
                  (0 + List.length [unreadable_device; forbidden_device])
                  fresh_caller) /\
    result (for_devices sample_config [] (Some accept_all)
              ([unreadable_device; forbidden_device] ++ [apc_device])
              0 fresh_caller)
    = result (for_devices sample_config [] (Some accept_all) [apc_device]
                (0 + List.length [unreadable_device; forbidden_device])
                fresh_caller).
Proof.
  apply (unopenable_devices_are_passed_over sample_config [] (Some accept_all)
           [unreadable_device; forbidden_device] [apc_device] 0 fresh_caller).
  constructor; [left; vm_compute; discriminate|].
  constructor; [right; vm_compute; discriminate|].
  constructor.
Defined.

(** X24. When [libusb_init] succeeds, the device list is obtained and it
    has nothing to open (it is empty, or none of its devices can be read
    and opened), [nut_libusb_open] returns [LIBUSB_ERROR_NOT_FOUND] with a
    null handle and the caller's identity record as it was.  When the
    device list cannot be obtained there is no such return: the loop is not
    entered and the last thing the function does is to call
    [libusb_free_device_list] on the list that was never assigned, which is
    undefined. *)
Theorem nothing_to_open_is_not_found (cfg : config) (bus : usb_bus)
  (c : caller) (chain : list USBDeviceMatcher_t) (cb : option callback_t) :
  bus_init bus = LIBUSB_SUCCESS ->
  (forall devlist : list usb_device,
     bus_device_list bus = ListDevices devlist ->
     Forall cannot_be_opened devlist ->
     result (nut_libusb_open cfg bus c chain cb)
     = Ret (LIBUSB_ERROR_NOT_FOUND, mkCaller None (curDevice c))) /\
  (forall code : Z,
     bus_device_list bus = ListErr code ->
     result (nut_libusb_open cfg bus c chain cb) = Undefined /\
     filter is_probe_event (trace (nut_libusb_open cfg bus c chain cb)) = []
     /\
     last (trace (nut_libusb_open cfg bus c chain cb)) EvInit
     = EvFreeDeviceList).
Proof.
  intros Hinit. unfold nut_libusb_open. rewrite Hinit.
  change (negb (LIBUSB_SUCCESS =? LIBUSB_SUCCESS)) with false. cbv iota.
  set (old := if negb (on_linux cfg) then _ else _).
  assert (Ho : result old = Ret tt /\
               (trace old = [] \/ exists h, trace old = [EvClose h])).
  { unfold old. destruct (negb (on_linux cfg)); [|split; [|left]; reflexivity].
    destruct (udevp c) as [h|]; (split; [reflexivity|]);
      [right; exists (h_id h)|left]; reflexivity. }
  destruct Ho as [Ho Hot].
  mstep. rewrite (result_bind_ret _ _ _ Ho), (trace_bind_ret _ _ _ Ho).
  mstep. split.
  - intros devlist Hlist Hl. rewrite Hlist.
    destruct (for_devices_skip cfg chain cb [] c devlist 0%nat Hl)
      as [probes [_ [_ Hr]]].
    rewrite app_nil_r in Hr. rewrite Hr. reflexivity.
  - intros code Hlist. rewrite Hlist.
    split; [reflexivity|].
    destruct Hot as [Ht|[h Ht]]; rewrite Ht; split; reflexivity.
Qed.

Lemma nothing_to_open_is_not_found_witness :
  result (nut_libusb_open sample_config
            (mkBus LIBUSB_SUCCESS
               (ListDevices [forbidden_device; unreadable_device]))
            stale_caller [vendor_matcher 0x051d] (Some accept_all))
  = Ret (LIBUSB_ERROR_NOT_FOUND, mkCaller None (curDevice stale_caller)) /\
  result (nut_libusb_open sample_config
            (mkBus LIBUSB_SUCCESS (ListErr LIBUSB_ERROR_NO_MEM))
            stale_caller [vendor_matcher 0x051d] (Some accept_all))
  = Undefined.
Proof.
  split.
  - apply (proj1 (nothing_to_open_is_not_found sample_config
                    (mkBus LIBUSB_SUCCESS
                       (ListDevices [forbidden_device; unreadable_device]))
                    stale_caller [vendor_matcher 0x051d] (Some accept_all)
                    eq_refl)
             [forbidden_device; unreadable_device] eq_refl).
    constructor; [right; vm_compute; discriminate|].
    constructor; [left; vm_compute; discriminate|].
    constructor.
  - apply (proj2 (nothing_to_open_is_not_found sample_config
                    (mkBus LIBUSB_SUCCESS (ListErr LIBUSB_ERROR_NO_MEM))
                    stale_caller [vendor_matcher 0x051d] (Some accept_all)
                    eq_refl)
             LIBUSB_ERROR_NO_MEM eq_refl).
Defined.
